(** * run_glue.py: fine-tuning a sequence classifier on GLUE

    A shallow embedding of [examples/pytorch/text-classification/run_glue.py]
    and the properties of its orchestration logic.

    Conventions of the embedding:
    - a Python exception is a value of [exn]; a computation that may raise
      is in the monad [result]; a computation that also calls the external
      collaborators (datasets, transformers, nncf, the file system) is in
      the monad [run], which records each such call as an [event];
    - a local variable that a branch may leave unassigned is an [option];
      reading it while unassigned raises [UnboundLocalError];
    - strings are ASCII strings; [str.lower] is ASCII lower-casing. *)

From Stdlib Require Import ZArith Ascii Bool Lia.
From Stdlib Require Import Floats.SpecFloat.
From stdpp Require Import base option list gmap strings fin_maps sorting pretty.

Local Open Scope Z_scope.

(** ** Python values and exceptions *)

(** A label value of a classification dataset: a class id or a class name. *)
Inductive pyval :=
  | PInt (z : Z)
  | PStr (s : string).

#[global] Instance pyval_eq_dec : EqDecision pyval.
Proof. solve_decision. Defined.

#[global] Instance pyval_countable : Countable pyval.
Proof.
  refine (inj_countable'
            (fun v => match v with PInt z => inl z | PStr s => inr s end)
            (fun x => match x with inl z => PInt z | inr s => PStr s end) _).
  intros []; reflexivity.
Defined.

Inductive exn :=
  | ValueError (msg : string)
  | AssertionError (msg : string)
  | KeyError (key : pyval)
  | IndexError (msg : string)
  | TypeError (msg : string)
  | AttributeError (msg : string)
  | UnboundLocalError (name : string).

#[global] Instance exn_eq_dec : EqDecision exn.
Proof. solve_decision. Defined.

(** ** The exception monad *)

Inductive result (A : Type) :=
  | Ok (a : A)
  | Raise (e : exn).
Arguments Ok {A} a.
Arguments Raise {A} e.

#[global] Instance result_ret : MRet result := fun _ a => Ok a.
#[global] Instance result_bind : MBind result := fun _ _ f m =>
  match m with
  | Ok a => f a
  | Raise e => Raise e
  end.

Definition is_ok {A} (r : result A) : bool :=
  match r with Ok _ => true | Raise _ => false end.

(** [d[k]] on a dict: [KeyError] when the key is absent. *)
Definition getitem `{Countable K} {V} (key : K -> pyval) (d : gmap K V) (k : K)
  : result V :=
  match d !! k with
  | Some v => Ok v
  | None => Raise (KeyError (key k))
  end.

(** A list comprehension whose element expression may raise. *)
Fixpoint comprehension {A B} (f : A -> result B) (l : list A) : result (list B) :=
  match l with
  | [] => Ok []
  | x :: l' => y ← f x; ys ← comprehension f l'; Ok (y :: ys)
  end.

(** ** Batches of examples *)

(** A column of a batch: plain cells (texts, labels) or token id rows as
    produced by the tokenizer. *)
Inductive column :=
  | Cells (vs : list pyval)
  | Tokens (xs : list (list Z)).

#[global] Instance column_eq_dec : EqDecision column.
Proof. solve_decision. Defined.

(** ** [preprocess_function] *)

Section preprocess.
(** The variables [preprocess_function] closes over. *)
Variable tokenizer :
  list column -> forall (padding : bool) (max_length : Z), gmap string column.
Variable sentence1_key : string.
Variable sentence2_key : option string.
Variable padding : bool.
Variable max_seq_length : Z.
Variable label_to_id : option (gmap pyval Z).

(** [label_to_id[l] if l != -1 else -1] *)
Definition remap_label (m : gmap pyval Z) (l : pyval) : result Z :=
  if decide (l <> PInt (-1)) then getitem id m l else Ok (-1).

(** [[(label_to_id[l] if l != -1 else -1) for l in examples["label"]]];
    a row of token ids is a list, which cannot be a dict key. *)
Definition remap_labels (m : gmap pyval Z) (c : column) : result column :=
  match c with
  | Cells ls => ids ← comprehension (remap_label m) ls; Ok (Cells (PInt <$> ids))
  | Tokens [] => Ok (Cells [])
  | Tokens (_ :: _) => Raise (TypeError "unhashable type: 'list'")
  end.

Definition preprocess_function (examples : gmap string column)
  : result (gmap string column) :=
  (* Tokenize the texts *)
  s1 ← getitem PStr examples sentence1_key;
  args ← match sentence2_key with
         | None => Ok [s1]
         | Some k2 => s2 ← getitem PStr examples k2; Ok [s1; s2]
         end;
  let result := tokenizer args padding max_seq_length in
  (* Map labels to IDs (not necessary for GLUE tasks) *)
  match label_to_id, examples !! "label" with
  | Some m, Some c => c' ← remap_labels m c; Ok (<["label" := c']> result)
  | _, _ => Ok result
  end.
End preprocess.


(** ** Strings *)

(** [c.lower()] on an ASCII character. *)
Definition ascii_lower (c : ascii) : ascii :=
  let n := N_of_ascii c in
  if ((65 <=? n) && (n <=? 90))%N then ascii_of_N (n + 32) else c.

(** [s.lower()] *)
Fixpoint lower (s : string) : string :=
  match s with
  | EmptyString => EmptyString
  | String c s' => String (ascii_lower c) (lower s')
  end.

(** [s.split(sep)] for a one-character separator: never empty. *)
Fixpoint split (sep : ascii) (s : string) : list string :=
  match s with
  | EmptyString => [EmptyString]
  | String c s' =>
      if Ascii.eqb c sep then EmptyString :: split sep s'
      else match split sep s' with
           | [] => [String c EmptyString]
           | w :: ws => String c w :: ws
           end
  end.

(** [l[-1]] *)
Definition getitem_last {A} (l : list A) : result A :=
  match last l with
  | Some x => Ok x
  | None => Raise (IndexError "list index out of range")
  end.

(** [path.split(".")[-1]] *)
Definition file_extension (path : string) : result string :=
  getitem_last (split "." path).

(** [s.endswith(suffix)] *)
Definition endswith (s suffix : string) : bool :=
  let n := String.length s in
  let k := String.length suffix in
  (k <=? n)%nat && String.eqb (String.substring (n - k) k s) suffix.

(** [needle in s] *)
Fixpoint contains (needle s : string) : bool :=
  String.prefix needle s ||
  match s with
  | EmptyString => false
  | String _ s' => contains needle s'
  end.

(** [sep.join(l)] *)
Definition join (sep : string) (l : list string) : string := String.concat sep l.

(** ** Arguments *)

Definition task_to_keys : list (string * (string * option string)) :=
  [ ("cola", ("sentence", None));
    ("mnli", ("premise", Some "hypothesis"));
    ("mrpc", ("sentence1", Some "sentence2"));
    ("qnli", ("question", Some "sentence"));
    ("qqp", ("question1", Some "question2"));
    ("rte", ("sentence1", Some "sentence2"));
    ("sst2", ("sentence", None));
    ("stsb", ("sentence1", Some "sentence2"));
    ("wnli", ("sentence1", Some "sentence2")) ].

(** [d.keys()] and [d[k]] on a dict written as its item list. *)
Definition keys {K V} (d : list (K * V)) : list K := d.*1.

Fixpoint assoc {V} (k : string) (d : list (string * V)) : option V :=
  match d with
  | [] => None
  | (k', v) :: d' => if decide (k' = k) then Some v else assoc k d'
  end.

Definition subscript {V} (d : list (string * V)) (k : string) : result V :=
  match assoc k d with
  | Some v => Ok v
  | None => Raise (KeyError (PStr k))
  end.

(** [k in d] *)
Definition mem {V} (k : string) (d : list (string * V)) : bool :=
  bool_decide (k ∈ keys d).

Record DataTrainingArguments := {
  task_name : option string;
  dataset_name : option string;
  dataset_config_name : option string;
  max_seq_length : Z;
  overwrite_cache : bool;
  pad_to_max_length : bool;
  max_train_samples : option Z;
  max_eval_samples : option Z;
  max_predict_samples : option Z;
  train_file : option string;
  validation_file : option string;
  test_file : option string;
}.

Record ModelArguments := {
  model_name_or_path : string;
  config_name : option string;
  tokenizer_name : option string;
  cache_dir : option string;
  use_fast_tokenizer : bool;
  model_revision : string;
  use_auth_token : bool;
}.

(** The fields of [TrainingArguments] that the script reads. *)
Record TrainingArguments := {
  output_dir : string;
  overwrite_output_dir : bool;
  do_train : bool;
  do_eval : bool;
  do_predict : bool;
  resume_from_checkpoint : option string;
  seed : Z;
  fp16 : bool;
  local_rank : Z;
  no_cuda : bool;
  push_to_hub : bool;
  nncf_config : option string;
  to_onnx : option string;
}.

(** [DataTrainingArguments.__post_init__]: the validated arguments, with the
    task name lower-cased. *)
Definition post_init (self : DataTrainingArguments) : result DataTrainingArguments :=
  match task_name self with
  | Some t =>
      let t := lower t in
      let self :=
        {| task_name := Some t;
           dataset_name := dataset_name self;
           dataset_config_name := dataset_config_name self;
           max_seq_length := max_seq_length self;
           overwrite_cache := overwrite_cache self;
           pad_to_max_length := pad_to_max_length self;
           max_train_samples := max_train_samples self;
           max_eval_samples := max_eval_samples self;
           max_predict_samples := max_predict_samples self;
           train_file := train_file self;
           validation_file := validation_file self;
           test_file := test_file self |} in
      if mem t task_to_keys then Ok self
      else Raise (ValueError
                    ("Unknown task, you should pick one in "
                     +:+ join "," (keys task_to_keys)))
  | None =>
      match dataset_name self with
      | Some _ => Ok self
      | None =>
          match train_file self, validation_file self with
          | Some train, Some validation =>
              train_extension ← file_extension train;
              if negb (bool_decide (train_extension ∈ ["csv"; "json"]))
              then Raise (AssertionError
                            "`train_file` should be a csv or a json file.")
              else
                validation_extension ← file_extension validation;
                if negb (bool_decide (validation_extension = train_extension))
                then Raise (AssertionError
                              "`validation_file` should have the same extension (csv or json) as `train_file`.")
                else Ok self
          | _, _ =>
              Raise (ValueError
                       "Need either a GLUE task, a training/validation file or a dataset name.")
          end
      end
  end.

(** ** Compression-initialization adapters *)

Inductive InitializingDataLoader :=
  | SST2InitializingDataLoader
  | MRPCInitializingDataLoader
  | MNLIInitializingDataLoader.

#[global] Instance InitializingDataLoader_eq_dec : EqDecision InitializingDataLoader.
Proof. solve_decision. Defined.

Section adapters.
(** What a field of a collated batch holds is of no concern here. *)
Variable tensor : Type.

(** [get_inputs]: positional arguments and keyword arguments. The dict
    display evaluates its values from left to right. *)
Definition get_inputs (cls : InitializingDataLoader)
    (dataloader_output : gmap string tensor)
  : result (list tensor * gmap string tensor) :=
  match cls with
  | SST2InitializingDataLoader =>
      labels ← getitem PStr dataloader_output "labels";
      attention_mask ← getitem PStr dataloader_output "attention_mask";
      input_ids ← getitem PStr dataloader_output "input_ids";
      Ok ([], <["input_ids" := input_ids]>
                (<["attention_mask" := attention_mask]>
                   (<["labels" := labels]> ∅)))
  | MNLIInitializingDataLoader =>
      labels ← getitem PStr dataloader_output "labels";
      attention_mask ← getitem PStr dataloader_output "attention_mask";
      input_ids ← getitem PStr dataloader_output "input_ids";
      Ok ([], <["input_ids" := input_ids]>
                (<["attention_mask" := attention_mask]>
                   (<["labels" := labels]> ∅)))
  | MRPCInitializingDataLoader =>
      labels ← getitem PStr dataloader_output "labels";
      attention_mask ← getitem PStr dataloader_output "attention_mask";
      input_ids ← getitem PStr dataloader_output "input_ids";
      token_type_ids ← getitem PStr dataloader_output "token_type_ids";
      Ok ([], <["token_type_ids" := token_type_ids]>
                (<["input_ids" := input_ids]>
                   (<["attention_mask" := attention_mask]>
                      (<["labels" := labels]> ∅))))
  end.
End adapters.

(** ** Datasets *)

(** A feature of a dataset: a class label with its names, or a plain value
    of some dtype. *)
Inductive feature :=
  | ClassLabel (names : list string)
  | Value (dtype : string).

#[global] Instance feature_eq_dec : EqDecision feature.
Proof. solve_decision. Defined.

(** [feature.dtype]: a class label is stored as [int64]. *)
Definition feature_dtype (f : feature) : string :=
  match f with
  | ClassLabel _ => "int64"
  | Value dtype => dtype
  end.

(** [feature.names] *)
Definition feature_names (f : feature) : result (list string) :=
  match f with
  | ClassLabel names => Ok names
  | Value _ => Raise (AttributeError "'Value' object has no attribute 'names'")
  end.

Record Dataset := {
  features : list (string * feature);
  columns : list (string * column);
}.

#[global] Instance Dataset_eq_dec : EqDecision Dataset.
Proof. solve_decision. Defined.

(** A [DatasetDict]: the splits by name, in order. *)
Definition DatasetDict := list (string * Dataset).

Definition column_names (d : Dataset) : list string := keys (columns d).

Definition column_length (c : column) : nat :=
  match c with
  | Cells vs => length vs
  | Tokens xs => length xs
  end.

(** [len(dataset)] *)
Definition num_rows (d : Dataset) : nat :=
  match columns d with
  | [] => 0%nat
  | (_, c) :: _ => column_length c
  end.

Definition column_take (n : nat) (c : column) : column :=
  match c with
  | Cells vs => Cells (take n vs)
  | Tokens xs => Tokens (take n xs)
  end.

(** [dataset.select(range(n))]: the first [n] rows; an index past the end
    is an error, and [range] of a negative number is empty. *)
Definition select_range (n : Z) (d : Dataset) : result Dataset :=
  if Z.of_nat (num_rows d) <? n
  then Raise (IndexError "Index out of range for dataset")
  else Ok {| features := features d;
             columns := prod_map id (column_take (Z.to_nat n)) <$> columns d |}.

(** [dataset.remove_columns(name)] *)
Definition remove_columns (name : string) (d : Dataset) : result Dataset :=
  if mem name (columns d)
  then Ok {| features := filter (fun kv => kv.1 <> name) (features d);
             columns := filter (fun kv => kv.1 <> name) (columns d) |}
  else Raise (ValueError "Column name not in the dataset.").

(** [dataset.unique(name)]: the distinct values of a column. *)
Definition unique (name : string) (d : Dataset) : result (list pyval) :=
  match assoc name (columns d) with
  | Some (Cells vs) => Ok (remove_dups vs)
  | Some (Tokens []) => Ok []
  | Some (Tokens (_ :: _)) => Raise (TypeError "unhashable type: 'list'")
  | None => Raise (ValueError "Column not in table columns")
  end.

(** [d[k] = v] on a dict written as its item list: in place when the key
    is there, at the end otherwise. *)
Fixpoint setitem {V} (k : string) (v : V) (d : list (string * V)) : list (string * V) :=
  match d with
  | [] => [(k, v)]
  | (k', v') :: d' =>
      if decide (k' = k) then (k, v) :: d' else (k', v') :: setitem k v d'
  end.

(** The dataset after [map]: the columns the function returned replace or
    extend those of the dataset. *)
Definition with_columns (r : gmap string column) (d : Dataset) : Dataset :=
  {| features := features d;
     columns := foldl (fun cs kv => setitem kv.1 kv.2 cs) (columns d) (map_to_list r) |}.

(** ** Sorting Python values *)

Definition str_le (a b : string) : Prop := String.leb a b = true.

#[global] Instance str_le_dec : RelDecision str_le.
Proof. intros a b. unfold str_le. apply _. Defined.

(** [a <= b] between two ints or two strs. *)
Definition pyval_le (a b : pyval) : Prop :=
  match a, b with
  | PInt x, PInt y => x <= y
  | PStr x, PStr y => str_le x y
  | PInt _, PStr _ => True
  | PStr _, PInt _ => False
  end.

#[global] Instance pyval_le_dec : RelDecision pyval_le.
Proof. intros [x|x] [y|y]; simpl; apply _. Defined.

Definition is_int (v : pyval) : bool :=
  match v with PInt _ => true | PStr _ => false end.

Definition is_str (v : pyval) : bool :=
  match v with PInt _ => false | PStr _ => true end.

(** [sorted(l)]: ints and strs do not compare with one another. *)
Definition sorted (l : list pyval) : result (list pyval) :=
  if forallb is_int l || forallb is_str l
  then Ok (merge_sort pyval_le l)
  else Raise (TypeError "'<' not supported between instances of 'str' and 'int'").

(** [str(v)] *)
Definition str (v : pyval) : string :=
  match v with
  | PInt z => pretty z
  | PStr s => s
  end.

(** ** Formatting floats *)

(** [s.rjust(width)] *)
Definition rjust (width : nat) (s : string) : string :=
  String.concat "" (replicate (width - String.length s) " ") +:+ s.

Definition digit_char (n : N) : ascii := ascii_of_N (48 + n mod 10).

(** The [k] low decimal digits of [n], most significant first. *)
Fixpoint fixed_digits (k : nat) (n : N) : string :=
  match k with
  | O => ""
  | S k' => fixed_digits k' (n / 10) +:+ String (digit_char n) ""
  end.

(** [n / d] rounded to the nearest integer, ties to even. *)
Definition round_half_even (n d : N) : N :=
  let q := (n / d)%N in
  let r := (n mod d)%N in
  if (2 * r <? d)%N then q
  else if (d <? 2 * r)%N then (q + 1)%N
  else if N.even q then q else (q + 1)%N.

Definition sign_str (s : bool) : string := if s then "-" else "".

(** The digits of [n] thousandths (for precision 3), as [format] writes
    them: the integer part, and the fraction when the precision is not 0. *)
Definition fixed_point (prec : nat) (n : N) : string :=
  let scale := (10 ^ N.of_nat prec)%N in
  pretty (n / scale)%N
  +:+ match prec with
      | O => ""
      | S _ => "." +:+ fixed_digits prec (n mod scale)
      end.

(** [format(x, f"{width}.{prec}f")] for a binary float: the exact value
    rounded to [prec] decimals, ties to even; [nan] and [inf] have no
    digits. *)
Definition format_f (width prec : nat) (x : spec_float) : string :=
  let scale := (10 ^ N.of_nat prec)%N in
  rjust width
    match x with
    | S754_nan => "nan"
    | S754_infinity s => sign_str s +:+ "inf"
    | S754_zero s => sign_str s +:+ fixed_point prec 0
    | S754_finite s m e =>
        let n := match e with
                 | Zneg p => round_half_even (Npos m * scale) (2 ^ Npos p)
                 | _ => (Npos m * 2 ^ Z.to_N e * scale)%N
                 end in
        sign_str s +:+ fixed_point prec n
    end.

(** ** The external collaborators *)

Inductive level := INFO | WARNING.

(** The log messages of the script, by the place that writes them. *)
Inductive message :=
  | ProcessSummary
  | TrainingParameters
  | CheckpointDetected (last_checkpoint : string)
  | LoadLocalFile (key : string) (file : option string)
  | LabelsMismatch
  | MaxSeqLengthTooLarge (passed model_max : Z)
  | TrainingSample (index : nat)
  | EvaluateBanner
  | PredictBanner
  | PredictResults (task : string).

Inductive collator :=
  | default_data_collator
  | DataCollatorWithPadding (pad_to_multiple_of : Z).

(** The configuration handed to the model: the label mapping in both
    directions. *)
Record Config := {
  label2id : gmap pyval Z;
  id2label : gmap Z pyval;
}.

(** A call to an external collaborator. *)
Inductive event :=
  | Log (lvl : level) (msg : message)
  | SetSeed (seed : Z)
  | LoadDataset (path : string) (name : option string)
      (data_files : list (string * option string))
  | GetSplit (key : string)
  | AutoConfigFromPretrained (name : string) (num_labels : nat)
      (finetuning_task : option string)
  | AutoTokenizerFromPretrained (name : string)
  | DatasetMap (split : string) (load_from_cache_file : bool)
  | NNCFConfigFromJson (path : string)
  | MakeDirs (path : string)
  | GetTrainDataloaderForInit (d : Dataset)
  | GetEvalDataloaderForInit (d : Dataset) (data_collator : option collator)
  | RegisterExtraStructs (cls : InitializingDataLoader)
  | ModelFromPretrained (name : string) (from_tf : bool) (config : Config)
      (nncf : bool) (nncf_eval : bool)
  | ExportModel (path : string) (with_compression : bool)
  | LoadMetric (path : string) (config_name : option string)
  | TrainerInit (train_dataset eval_dataset : option Dataset)
      (data_collator : option collator)
  | CompressionDistributed
  | Train (resume_from_checkpoint : option string)
  | SaveModel
  | LogMetrics (split : string)
  | SaveMetrics (split : string)
  | SaveState
  | Evaluate (eval_dataset : Dataset)
  | Predict (predict_dataset : Dataset)
  | OpenFile (path : string)
  | FileWrite (path : string) (text : string)
  | PushToHub (kwargs : list (string * string)).

#[global] Instance level_eq_dec : EqDecision level.
Proof. solve_decision. Defined.

#[global] Instance message_eq_dec : EqDecision message.
Proof. solve_decision. Defined.

#[global] Instance collator_eq_dec : EqDecision collator.
Proof. solve_decision. Defined.

#[global] Instance Config_eq_dec : EqDecision Config.
Proof. solve_decision. Defined.

#[global] Instance event_eq_dec : EqDecision event.
Proof. solve_decision. Defined.

(** What the collaborators answer during one run. *)
Record World := {
  os_path_isdir : string -> bool;
  os_path_exists : string -> bool;
  os_listdir : string -> list string;
  get_last_checkpoint : string -> option string;
  load_dataset : string -> option string -> list (string * option string) -> DatasetDict;
  (** [AutoConfig.from_pretrained(name, num_labels=n).label2id.items()] *)
  pretrained_label2id : string -> nat -> list (string * Z);
  pretrained_id2label : string -> nat -> list (Z * string);
  (** [PretrainedConfig(num_labels=n).label2id.items()] *)
  default_label2id : nat -> list (string * Z);
  tokenizer : list column -> bool -> Z -> gmap string column;
  model_max_length : Z;
  (** [nncf_config.get("log_dir")] as read from the json file *)
  nncf_log_dir : option string;
  (** [random.sample(range(n), 3)] *)
  random_sample : nat -> list nat;
  (** [trainer.predict(d).predictions] of a regression: an array of shape
      [(n, 1)], one output per row *)
  predictions_column : Dataset -> list spec_float;
  (** [np.argmax(trainer.predict(d).predictions, axis=1)] *)
  predictions_argmax : Dataset -> list nat;
  is_world_process_zero : bool;
}.

(** ** The monad of a run: the calls made so far, and a value or an
    exception *)

Definition run (A : Type) : Type := list event * result A.

#[global] Instance run_ret : MRet run := fun _ a => ([], Ok a).
#[global] Instance run_bind : MBind run := fun _ _ f m =>
  match m with
  | (calls, Ok a) => let (calls', r) := f a in (calls ++ calls', r)
  | (calls, Raise e) => (calls, Raise e)
  end.

Definition call (e : event) : run () := ([e], Ok ()).
Definition lift {A} (r : result A) : run A := ([], r).
Definition raise {A} (e : exn) : run A := ([], Raise e).
Definition when (b : bool) (m : run ()) : run () := if b then m else mret ().

(** A [for] loop over a list. *)
Fixpoint for_each {A} (l : list A) (body : A -> run ()) : run () :=
  match l with
  | [] => mret ()
  | x :: l' => body x;; for_each l' body
  end.

(** Reading a local variable that may not have been assigned. *)
Definition local {A} (name : string) (v : option A) : run A :=
  match v with
  | Some a => mret a
  | None => raise (UnboundLocalError name)
  end.

Definition ascii_upper (c : ascii) : ascii :=
  let n := N_of_ascii c in
  if ((97 <=? n) && (n <=? 122))%N then ascii_of_N (n - 32) else c.

(** [s.upper()] *)
Fixpoint upper (s : string) : string :=
  match s with
  | EmptyString => EmptyString
  | String c s' => String (ascii_upper c) (upper s')
  end.

Definition tab : string := String "009" "".
Definition newline : string := String "010" "".

(** [os.path.join(a, b)] *)
Definition os_path_join (a b : string) : string :=
  if String.prefix "/" b then b
  else if bool_decide (a = "") || endswith a "/" then a +:+ b
  else a +:+ "/" +:+ b.

(** [a if a else b] on an optional string: [None] and [""] are false. *)
Definition or_else (a : option string) (b : string) : string :=
  match a with
  | Some s => if bool_decide (s = "") then b else s
  | None => b
  end.

(** A method call on an optional string. *)
Definition deref (o : option string) : result string :=
  match o with
  | Some s => Ok s
  | None => Raise (AttributeError "'NoneType' object has no attribute")
  end.

(** An array of floats without axis or with one axis. *)
Inductive ndarray :=
  | Scalar (x : spec_float)
  | Vector (xs : list spec_float).

(** [np.squeeze(a)] for [a] of shape [(n, 1)]: every axis of length 1 goes,
    so one row leaves an array without axis. *)
Definition squeeze (column : list spec_float) : ndarray :=
  match column with
  | [x] => Scalar x
  | _ => Vector column
  end.

(** [iter(a)] *)
Definition iter (a : ndarray) : result (list spec_float) :=
  match a with
  | Scalar _ => Raise (TypeError "iteration over a 0-d array")
  | Vector xs => Ok xs
  end.

(** [l[i]] *)
Definition getitem_index {A} (l : list A) (i : nat) : result A :=
  match l !! i with
  | Some x => Ok x
  | None => Raise (IndexError "list index out of range")
  end.

(** [dict(items)]: a later item replaces an earlier one with the same key. *)
Definition dict_of_items `{Countable K} {V} (items : list (K * V)) : gmap K V :=
  foldl (fun m kv => <[kv.1 := kv.2]> m) ∅ items.

(** [enumerate(l)] *)
Definition enumerate {A} (l : list A) : list (nat * A) := imap pair l.

(** [f"{task}"] *)
Definition format_task (task : option string) : string := default "None" task.

(** ** [main] *)

Section main.
Variable model_args : ModelArguments.
Variable data_args : DataTrainingArguments.
Variable training_args : TrainingArguments.
Variable w : World.

(** [raw_datasets[key]] *)
Definition getsplit (raw_datasets : DatasetDict) (key : string) : run Dataset :=
  call (GetSplit key);; lift (subscript raw_datasets key).

(** Detecting last checkpoint. *)
Definition detect_last_checkpoint : run (option string) :=
  if os_path_isdir w (output_dir training_args)
     && do_train training_args
     && negb (overwrite_output_dir training_args)
  then
    let last_checkpoint := get_last_checkpoint w (output_dir training_args) in
    if bool_decide (last_checkpoint = None)
       && (0 <? length (os_listdir w (output_dir training_args)))%nat
    then
      raise (ValueError
               ("Output directory (" +:+ output_dir training_args
                +:+ ") already exists and is not empty. "
                +:+ "Use --overwrite_output_dir to overcome."))
    else
      match last_checkpoint with
      | Some c =>
          when (bool_decide (resume_from_checkpoint training_args = None))
            (call (Log INFO (CheckpointDetected c)));;
          mret last_checkpoint
      | None => mret last_checkpoint
      end
  else mret None.

(** Get the datasets: a GLUE task, a hub dataset, or local files. *)
Definition get_datasets : run DatasetDict :=
  match task_name data_args with
  | Some t =>
      call (LoadDataset "glue" (Some t) []);;
      mret (load_dataset w "glue" (Some t) [])
  | None =>
      match dataset_name data_args with
      | Some name =>
          call (LoadDataset name (dataset_config_name data_args) []);;
          mret (load_dataset w name (dataset_config_name data_args) [])
      | None =>
          let data_files :=
            [("train", train_file data_args);
             ("validation", validation_file data_args)] in
          data_files ←
            (if do_predict training_args then
               match test_file data_args with
               | Some test =>
                   train_extension ←
                     lift (deref (train_file data_args) ≫= file_extension);
                   test_extension ← lift (file_extension test);
                   if negb (bool_decide (test_extension = train_extension))
                   then raise (AssertionError
                                 "`test_file` should have the same extension (csv or json) as `train_file`.")
                   else mret (setitem "test" (Some test) data_files)
               | None =>
                   raise (ValueError
                            "Need either a GLUE task or a test file for `do_predict`.")
               end
             else mret data_files);
          for_each data_files
            (fun kv => call (Log INFO (LoadLocalFile kv.1 kv.2)));;
          train ← lift (deref (train_file data_args));
          if endswith train ".csv" then
            call (LoadDataset "csv" None data_files);;
            mret (load_dataset w "csv" None data_files)
          else
            call (LoadDataset "json" None data_files);;
            mret (load_dataset w "json" None data_files)
      end
  end.

(** Labels: [(is_regression, label_list, num_labels)]; [label_list] stays
    unassigned for a regression. *)
Definition get_labels (raw_datasets : DatasetDict)
  : run (bool * option (list pyval) * nat) :=
  match task_name data_args with
  | Some t =>
      let is_regression := bool_decide (t = "stsb") in
      if negb is_regression then
        train ← getsplit raw_datasets "train";
        label ← lift (subscript (features train) "label");
        names ← lift (feature_names label);
        let label_list := PStr <$> names in
        mret (is_regression, Some label_list, length label_list)
      else
        mret (is_regression, None, 1%nat)
  | None =>
      train ← getsplit raw_datasets "train";
      label ← lift (subscript (features train) "label");
      let is_regression :=
        bool_decide (feature_dtype label ∈ ["float32"; "float64"]) in
      if is_regression then
        mret (is_regression, None, 1%nat)
      else
        label_list ← lift (unique "label" train);
        label_list ← lift (sorted label_list);
        mret (is_regression, Some label_list, length label_list)
  end.

(** Load pretrained config and tokenizer: the label mapping of the
    pretrained config. *)
Definition load_config_and_tokenizer (num_labels : nat) : run Config :=
  let name := or_else (config_name model_args) (model_name_or_path model_args) in
  call (AutoConfigFromPretrained name num_labels (task_name data_args));;
  call (AutoTokenizerFromPretrained
          (or_else (tokenizer_name model_args) (model_name_or_path model_args)));;
  mret {| label2id :=
            dict_of_items (prod_map PStr id <$> pretrained_label2id w name num_labels);
          id2label :=
            dict_of_items (prod_map id PStr <$> pretrained_id2label w name num_labels) |}.

(** Preprocessing the raw_datasets: the text columns. *)
Definition get_sentence_keys (raw_datasets : DatasetDict)
  : run (string * option string) :=
  match task_name data_args with
  | Some t => lift (subscript task_to_keys t)
  | None =>
      train ← getsplit raw_datasets "train";
      let non_label_column_names :=
        filter (fun name => name <> "label") (column_names train) in
      if bool_decide ("sentence1" ∈ non_label_column_names)
         && bool_decide ("sentence2" ∈ non_label_column_names)
      then mret ("sentence1", Some "sentence2")
      else if (2 <=? length non_label_column_names)%nat then
        match take 2 non_label_column_names with
        | [k1; k2] => mret (k1, Some k2)
        | _ => raise (ValueError "not enough values to unpack")
        end
      else
        k1 ← lift (getitem_index non_label_column_names 0);
        mret (k1, None)
  end.

(** [{k.lower(): v for k, v in label2id.items()}] *)
Definition lower_keys (label2id : list (string * Z)) : gmap pyval Z :=
  dict_of_items (prod_map (fun k => PStr (lower k)) id <$> label2id).

(** [list(d.keys())] *)
Definition dict_keys `{Countable K} {V} (d : gmap K V) : list K := (map_to_list d).*1.

(** [{i: int(label_name_to_id[label_list[i]]) for i in range(num_labels)}],
    as its items. *)
Definition model_order_items (label_name_to_id : gmap pyval Z)
    (label_list : list pyval) (num_labels : nat) : result (list (pyval * Z)) :=
  comprehension
    (fun i => l ← getitem_index label_list i;
              v ← getitem id label_name_to_id l;
              Ok (PInt (Z.of_nat i), v))
    (seq 0 num_labels).

(** [{v: i for i, v in enumerate(label_list)}], as its items. *)
Definition dataset_order_items (label_list : list pyval) : list (pyval * Z) :=
  (fun iv => (iv.2, Z.of_nat iv.1)) <$> enumerate label_list.

(** What [label_to_id[l] if l != -1 else -1] is for that dict: [-1] stays,
    another label becomes its position in the label list. *)
Definition ranked (labels : list pyval) (l : pyval) (i : Z) : Prop :=
  if decide (l = PInt (-1)) then i = -1
  else exists k, labels !! k = Some l /\ i = Z.of_nat k.

(** Some models have set the order of the labels to use, so let's make sure
    we do use it: [label_to_id], as the items of the dict. *)
Definition reconcile_labels (pretrained : list (string * Z))
    (is_regression : bool) (label_list : option (list pyval)) (num_labels : nat)
  : run (option (list (pyval * Z))) :=
  if bool_decide (dict_of_items pretrained <> dict_of_items (default_label2id w num_labels))
     && bool_decide (task_name data_args <> None)
     && negb is_regression
  then
    (* Some have all caps in their config, some don't. *)
    let label_name_to_id := lower_keys pretrained in
    model_labels ← lift (sorted (dict_keys label_name_to_id));
    label_list ← local "label_list" label_list;
    dataset_labels ← lift (sorted label_list);
    if bool_decide (model_labels = dataset_labels) then
      items ← lift (model_order_items label_name_to_id label_list num_labels);
      mret (Some items)
    else
      call (Log WARNING LabelsMismatch);;
      mret None
  else if bool_decide (task_name data_args = None) && negb is_regression then
    label_list ← local "label_list" label_list;
    mret (Some (dataset_order_items label_list))
  else mret None.

(** [config.label2id = label_to_id] and the inverse mapping, when
    [label_to_id] is not [None]; the keys of the items are distinct, so the
    dict iterates in their order. *)
Definition update_config (config : Config) (label_to_id : option (list (pyval * Z)))
  : Config :=
  match label_to_id with
  | Some items =>
      {| label2id := dict_of_items items;
         id2label := dict_of_items ((fun kv => (kv.2, kv.1)) <$> items) |}
  | None => config
  end.

Definition get_max_seq_length : run Z :=
  when (model_max_length w <? max_seq_length data_args)
    (call (Log WARNING
             (MaxSeqLengthTooLarge (max_seq_length data_args) (model_max_length w))));;
  mret (Z.min (max_seq_length data_args) (model_max_length w)).

(** [raw_datasets.map(preprocess_function, batched=True, ...)], every split
    in turn. *)
Fixpoint map_datasets
    (function : gmap string column -> result (gmap string column))
    (raw_datasets : DatasetDict) : run DatasetDict :=
  match raw_datasets with
  | [] => mret []
  | (split, d) :: rest =>
      call (DatasetMap split (negb (overwrite_cache data_args)));;
      r ← lift (function (list_to_map (columns d)));
      rest' ← map_datasets function rest;
      mret ((split, with_columns r d) :: rest')
  end.

Definition select_train (raw_datasets : DatasetDict) : run (option Dataset) :=
  if do_train training_args then
    (if negb (mem "train" raw_datasets)
     then raise (ValueError "--do_train requires a train dataset")
     else mret ());;
    train_dataset ← getsplit raw_datasets "train";
    match max_train_samples data_args with
    | Some n => d ← lift (select_range n train_dataset); mret (Some d)
    | None => mret (Some train_dataset)
    end
  else mret None.

(** Data collator will default to DataCollatorWithPadding, so we change it
    if we already did the padding. *)
Definition get_data_collator : option collator :=
  if pad_to_max_length data_args then Some default_data_collator
  else if fp16 training_args then Some (DataCollatorWithPadding 8)
  else None.

Definition select_eval (raw_datasets : DatasetDict) : run (option Dataset) :=
  if do_eval training_args then
    (if negb (mem "validation" raw_datasets)
        && negb (mem "validation_matched" raw_datasets)
     then raise (ValueError "--do_eval requires a validation dataset")
     else mret ());;
    eval_dataset ←
      getsplit raw_datasets
        (if bool_decide (task_name data_args = Some "mnli")
         then "validation_matched" else "validation");
    match max_eval_samples data_args with
    | Some n => d ← lift (select_range n eval_dataset); mret (Some d)
    | None => mret (Some eval_dataset)
    end
  else mret None.

(** The adapter class for the task: assigned for three tasks only. *)
Definition initializing_data_loader_cls : option InitializingDataLoader :=
  if bool_decide (task_name data_args = Some "sst2")
  then Some SST2InitializingDataLoader
  else if bool_decide (task_name data_args = Some "mrpc")
  then Some MRPCInitializingDataLoader
  else if bool_decide (task_name data_args = Some "mnli")
  then Some MNLIInitializingDataLoader
  else None.

(** The compression setup; answers whether [nncf_config] is not [None]. *)
Definition nncf_setup (train_dataset eval_dataset : option Dataset)
    (data_collator : option collator) : run bool :=
  match nncf_config training_args with
  | Some file =>
      call (NNCFConfigFromJson file);;
      let log_dir := default (output_dir training_args) (nncf_log_dir w) in
      when (negb (os_path_exists w (output_dir training_args))
            && bool_decide (local_rank training_args ∈ [-1; 0]))
        (call (MakeDirs log_dir));;
      when (do_train training_args)
        (train_dataset ← local "train_dataset" train_dataset;
         call (GetTrainDataloaderForInit train_dataset);;
         cls ← local "initializing_data_loader_cls" initializing_data_loader_cls;
         call (RegisterExtraStructs cls));;
      when (do_eval training_args)
        (eval_dataset ← local "eval_dataset" eval_dataset;
         call (GetEvalDataloaderForInit eval_dataset data_collator);;
         cls ← local "initializing_data_loader_cls" initializing_data_loader_cls;
         call (RegisterExtraStructs cls));;
      mret true
  | None => mret false
  end.

Definition load_model (config : Config) (nncf : bool) : run () :=
  call (ModelFromPretrained (model_name_or_path model_args)
          (contains ".ckpt" (model_name_or_path model_args))
          config nncf
          (nncf && do_eval training_args && negb (do_train training_args))).

Definition export_model (nncf : bool) : run () :=
  match to_onnx training_args with
  | Some path => when (negb (bool_decide (path = ""))) (call (ExportModel path nncf))
  | None => mret ()
  end.

Definition select_predict (raw_datasets : DatasetDict) : run (option Dataset) :=
  if do_predict training_args
     || bool_decide (task_name data_args <> None)
     || bool_decide (test_file data_args <> None)
  then
    (if negb (mem "test" raw_datasets) && negb (mem "test_matched" raw_datasets)
     then raise (ValueError "--do_predict requires a test dataset")
     else mret ());;
    predict_dataset ←
      getsplit raw_datasets
        (if bool_decide (task_name data_args = Some "mnli")
         then "test_matched" else "test");
    match max_predict_samples data_args with
    | Some n => d ← lift (select_range n predict_dataset); mret (Some d)
    | None => mret (Some predict_dataset)
    end
  else mret None.

(** Log a few random samples from the training set. *)
Definition log_samples (train_dataset : option Dataset) : run () :=
  when (do_train training_args)
    (train_dataset ← local "train_dataset" train_dataset;
     (if (num_rows train_dataset <? 3)%nat
      then raise (ValueError "Sample larger than population or is negative")
      else mret ());;
     for_each (random_sample w (num_rows train_dataset))
       (fun index => call (Log INFO (TrainingSample index)))).

(** Get the metric function and initialize our Trainer. *)
Definition init_trainer (train_dataset eval_dataset : option Dataset)
    (data_collator : option collator) (nncf : bool) : run () :=
  match task_name data_args with
  | Some t => call (LoadMetric "glue" (Some t))
  | None => call (LoadMetric "accuracy" None)
  end;;
  train_dataset ←
    (if do_train training_args
     then d ← local "train_dataset" train_dataset; mret (Some d) else mret None);
  eval_dataset ←
    (if do_eval training_args
     then d ← local "eval_dataset" eval_dataset; mret (Some d) else mret None);
  call (TrainerInit train_dataset eval_dataset data_collator);;
  when (nncf && negb (bool_decide (local_rank training_args = -1)
                      || no_cuda training_args))
    (call CompressionDistributed).

(** Training *)
Definition training (last_checkpoint : option string) : run () :=
  when (do_train training_args)
    (let checkpoint :=
       match resume_from_checkpoint training_args with
       | Some c => Some c
       | None =>
           match last_checkpoint with
           | Some c => Some c
           | None => None
           end
       end in
     call (Train checkpoint);;
     call SaveModel;;
     call (LogMetrics "train");;
     call (SaveMetrics "train");;
     call SaveState).

(** Evaluation *)
Definition evaluation (raw_datasets : DatasetDict) (eval_dataset : option Dataset)
  : run () :=
  when (do_eval training_args)
    (call (Log INFO EvaluateBanner);;
     (* Loop to handle MNLI double evaluation (matched, mis-matched) *)
     let tasks := [task_name data_args] in
     eval_dataset ← local "eval_dataset" eval_dataset;
     let eval_datasets := [eval_dataset] in
     lists ←
       (if bool_decide (task_name data_args = Some "mnli") then
          mismatched ← getsplit raw_datasets "validation_mismatched";
          mret (tasks ++ [Some "mnli-mm"], eval_datasets ++ [mismatched])
        else mret (tasks, eval_datasets));
     for_each (zip lists.2 lists.1)
       (fun dt =>
          call (Evaluate dt.1);;
          call (LogMetrics "eval");;
          call (SaveMetrics "eval"))).

(** The lines of the prediction file after the header: the loop over
    [enumerate(predictions)], where [predictions] is the squeezed array of a
    regression and the argmax of each row otherwise. The script tests
    [is_regression] at every item; the two arrays hold items of different
    types, so the test is made once here. *)
Definition write_predictions (file : string) (is_regression : bool)
    (label_list : option (list pyval)) (d : Dataset) : run () :=
  if is_regression then
    predictions ← lift (iter (squeeze (predictions_column w d)));
    for_each (enumerate predictions)
      (fun ix =>
         call (FileWrite file
                 (pretty ix.1 +:+ tab +:+ format_f 3 3 ix.2 +:+ newline)))
  else
    for_each (enumerate (predictions_argmax w d))
      (fun ix =>
         label_list ← local "label_list" label_list;
         item ← lift (getitem_index label_list ix.2);
         call (FileWrite file (pretty ix.1 +:+ tab +:+ str item +:+ newline))).

(** Prediction *)
Definition prediction (raw_datasets : DatasetDict) (predict_dataset : option Dataset)
    (is_regression : bool) (label_list : option (list pyval)) : run () :=
  when (do_predict training_args)
    (call (Log INFO PredictBanner);;
     (* Loop to handle MNLI double evaluation (matched, mis-matched) *)
     let tasks := [task_name data_args] in
     predict_dataset ← local "predict_dataset" predict_dataset;
     let predict_datasets := [predict_dataset] in
     lists ←
       (if bool_decide (task_name data_args = Some "mnli") then
          mismatched ← getsplit raw_datasets "test_mismatched";
          mret (tasks ++ [Some "mnli-mm"], predict_datasets ++ [mismatched])
        else mret (tasks, predict_datasets));
     for_each (zip lists.2 lists.1)
       (fun dt =>
          (* Removing the `label` columns because it contains -1 and Trainer
             won't like that. *)
          predict_dataset ← lift (remove_columns "label" dt.1);
          call (Predict predict_dataset);;
          let output_predict_file :=
            os_path_join (output_dir training_args)
              ("predict_results_" +:+ format_task dt.2 +:+ ".txt") in
          when (is_world_process_zero w)
            (call (OpenFile output_predict_file);;
             call (Log INFO (PredictResults (format_task dt.2)));;
             call (FileWrite output_predict_file
                     ("index" +:+ tab +:+ "prediction" +:+ newline));;
             write_predictions output_predict_file is_regression label_list
               predict_dataset))).

Definition push : run () :=
  when (push_to_hub training_args)
    (let kwargs :=
       [("finetuned_from", model_name_or_path model_args);
        ("tasks", "text-classification")] in
     let kwargs :=
       match task_name data_args with
       | Some t =>
           kwargs ++ [("language", "en"); ("dataset_tags", "glue");
                      ("dataset_args", t); ("dataset", "GLUE " +:+ upper t)]
       | None => kwargs
       end in
     call (PushToHub kwargs)).

Definition main : run () :=
  call (Log WARNING ProcessSummary);;
  call (Log INFO TrainingParameters);;
  last_checkpoint ← detect_last_checkpoint;
  (* Set seed before initializing model. *)
  call (SetSeed (seed training_args));;
  raw_datasets ← get_datasets;
  labels ← get_labels raw_datasets;
  let is_regression := labels.1.1 in
  let label_list := labels.1.2 in
  let num_labels := labels.2 in
  config ← load_config_and_tokenizer num_labels;
  sentence_keys ← get_sentence_keys raw_datasets;
  let padding := pad_to_max_length data_args in
  label_to_id ←
    reconcile_labels
      (pretrained_label2id w
         (or_else (config_name model_args) (model_name_or_path model_args))
         num_labels)
      is_regression label_list num_labels;
  let config := update_config config label_to_id in
  max_seq_length ← get_max_seq_length;
  raw_datasets ←
    map_datasets
      (preprocess_function (tokenizer w) sentence_keys.1 sentence_keys.2
         padding max_seq_length (dict_of_items <$> label_to_id))
      raw_datasets;
  train_dataset ← select_train raw_datasets;
  let data_collator := get_data_collator in
  eval_dataset ← select_eval raw_datasets;
  nncf ← nncf_setup train_dataset eval_dataset data_collator;
  load_model config nncf;;
  export_model nncf;;
  predict_dataset ← select_predict raw_datasets;
  log_samples train_dataset;;
  init_trainer train_dataset eval_dataset data_collator nncf;;
  training last_checkpoint;;
  evaluation raw_datasets eval_dataset;;
  prediction raw_datasets predict_dataset is_regression label_list;;
  push.
End main.

(** The script: the argument parser builds the dataclasses, which runs
    [__post_init__], and [main] goes on with the validated arguments. *)
Definition run_glue (model_args : ModelArguments) (data_args : DataTrainingArguments)
    (training_args : TrainingArguments) (w : World) : run () :=
  data_args ← lift (post_init data_args);
  main model_args data_args training_args w.

(** ** The evaluation data loader of the compression setup *)

Module EvalLoader.

(** The fields of [TrainingArguments] that [get_eval_dataloader_for_init]
    and [_get_eval_sampler] read. *)
Record TrainingArguments := {
  use_legacy_prediction_loop : bool;
  local_rank : Z;
  world_size : Z;
  process_index : Z;
  per_device_eval_batch_size : Z;
  eval_batch_size : Z;
  dataloader_drop_last : bool;
  dataloader_num_workers : Z;
  dataloader_pin_memory : bool;
}.

(** What the libraries answer about the platform: [transformers.file_utils],
    [torch_xla] ([xm]) and [smdistributed] ([smp]). *)
Record Platform := {
  is_torch_tpu_available : bool;
  is_sagemaker_mp_enabled : bool;
  xrt_world_size : Z;
  get_ordinal : Z;
  dp_size : Z;
  dp_rank : Z;
}.

(** A sampler, with the arguments it was made with; an argument that was
    not given is [None]. *)
Inductive Sampler (D : Type) :=
  | SequentialDistributedSampler (dataset : D)
      (num_replicas rank batch_size : option Z)
  | SequentialSampler (dataset : D)
  | ShardSampler (dataset : D) (batch_size num_processes process_index : Z).
Arguments SequentialDistributedSampler {D} dataset num_replicas rank batch_size.
Arguments SequentialSampler {D} dataset.
Arguments ShardSampler {D} dataset batch_size num_processes process_index.

(** The dataset of a loader: the one given, or its shard for one process. *)
Inductive LoaderDataset (D : Type) :=
  | Whole (dataset : D)
  | IterableDatasetShard (dataset : D) (batch_size : Z) (drop_last : bool)
      (num_processes process_index : Z).
Arguments Whole {D} dataset.
Arguments IterableDatasetShard {D} dataset batch_size drop_last num_processes
  process_index.

(** A [DataLoader], with the arguments it was made with; [sampler] and
    [collate_fn] are [None], and [drop_last] is [False], when not given. *)
Record DataLoader (D : Type) := {
  dataset : LoaderDataset D;
  sampler : option (Sampler D);
  batch_size : Z;
  collate_fn : option collator;
  drop_last : bool;
  num_workers : Z;
  pin_memory : bool;
}.
Arguments dataset {D} _.
Arguments sampler {D} _.
Arguments batch_size {D} _.
Arguments collate_fn {D} _.
Arguments drop_last {D} _.
Arguments num_workers {D} _.
Arguments pin_memory {D} _.

Section loader.
Variable D : Type.
Variable platform : Platform.
(** [isinstance(dataset, torch.utils.data.dataset.IterableDataset)] *)
Variable is_iterable : D -> bool.

Definition _get_eval_sampler (training_args : TrainingArguments)
    (eval_dataset : D) : Sampler D :=
  (* Deprecated code *)
  if use_legacy_prediction_loop training_args then
    if is_torch_tpu_available platform then
      SequentialDistributedSampler eval_dataset
        (Some (xrt_world_size platform)) (Some (get_ordinal platform)) None
    else if is_sagemaker_mp_enabled platform then
      SequentialDistributedSampler eval_dataset
        (Some (dp_size platform)) (Some (dp_rank platform))
        (Some (per_device_eval_batch_size training_args))
    else if negb (bool_decide (local_rank training_args = -1)) then
      SequentialDistributedSampler eval_dataset None None None
    else SequentialSampler eval_dataset
  else if world_size training_args <=? 1 then SequentialSampler eval_dataset
  else
    ShardSampler eval_dataset (per_device_eval_batch_size training_args)
      (world_size training_args) (process_index training_args).

(** Returns the evaluation [DataLoader]. *)
Definition get_eval_dataloader_for_init (eval_dataset : option D)
    (training_args : TrainingArguments) (data_collator : option collator)
  : result (DataLoader D) :=
  match eval_dataset with
  | None => Raise (ValueError "Trainer: evaluation requires an eval_dataset.")
  | Some eval_dataset =>
      if is_iterable eval_dataset then
        let eval_dataset :=
          if 1 <? world_size training_args then
            IterableDatasetShard eval_dataset (eval_batch_size training_args)
              (dataloader_drop_last training_args) (world_size training_args)
              (process_index training_args)
          else Whole eval_dataset in
        let data_collator :=
          match data_collator with
          | None => default_data_collator
          | Some c => c
          end in
        Ok {| dataset := eval_dataset;
              sampler := None;
              batch_size := eval_batch_size training_args;
              collate_fn := Some data_collator;
              drop_last := false;
              num_workers := dataloader_num_workers training_args;
              pin_memory := dataloader_pin_memory training_args |}
      else
        let eval_sampler := _get_eval_sampler training_args eval_dataset in
        Ok {| dataset := Whole eval_dataset;
              sampler := Some eval_sampler;
              batch_size := eval_batch_size training_args;
              collate_fn := data_collator;
              drop_last := dataloader_drop_last training_args;
              num_workers := dataloader_num_workers training_args;
              pin_memory := dataloader_pin_memory training_args |}
  end.
End loader.

End EvalLoader.

(** ** Judgements on runs *)

(** Every call of the run satisfies [P]. *)
Definition quiet {A} (P : event -> Prop) (m : run A) : Prop := Forall P m.1.

(** The run ends in an exception. *)
Definition fails {A} (m : run A) : Prop := exists e, m.2 = Raise e.

(** The run ends in an exception, and every call it made before satisfies
    [P]. *)
Definition aborts {A} (P : event -> Prop) (m : run A) : Prop :=
  quiet P m /\ fails m.

Definition is_model_construction (e : event) : bool :=
  match e with ModelFromPretrained _ _ _ _ _ => true | _ => false end.

Definition is_trainer_init (e : event) : bool :=
  match e with TrainerInit _ _ _ => true | _ => false end.

Definition split_access (e : event) : option string :=
  match e with GetSplit key => Some key | _ => None end.

Definition evaluate_call (e : event) : option Dataset :=
  match e with Evaluate d => Some d | _ => None end.

Definition train_call (e : event) : option (option string) :=
  match e with Train checkpoint => Some checkpoint | _ => None end.


(** The keys with which the run subscripted [raw_datasets], in order. *)
Definition split_accesses (calls : list event) : list string :=
  omap split_access calls.

(** The datasets the run evaluated on, in order. *)
Definition evaluated (calls : list event) : list Dataset :=
  omap evaluate_call calls.

(** The checkpoints training was started from, in order. *)
Definition trained_from (calls : list event) : list (option string) :=
  omap train_call calls.


(** ** The stages of a run *)

(** The calls that mark a stage of the script, numbered in the order of the
    script. *)
Definition stage (e : event) : option nat :=
  match e with
  | SetSeed _ => Some 0
  | LoadDataset _ _ _ => Some 1
  | AutoConfigFromPretrained _ _ _ => Some 2
  | AutoTokenizerFromPretrained _ => Some 3
  | ModelFromPretrained _ _ _ _ _ => Some 4
  | TrainerInit _ _ _ => Some 5
  | Train _ => Some 6
  | Evaluate _ => Some 7
  | Predict _ => Some 8
  | PushToHub _ => Some 9
  | _ => None
  end%nat.

(** Stage [b] may come after stage [a]: it is a later stage, or both are
    the evaluation or the prediction, which are loops. *)
Definition stage_before (a b : nat) : Prop :=
  (a < b \/ (a = b /\ 7 <= a <= 8))%nat.

(** The stages of the calls of a run, in order. *)
Definition stages (calls : list event) : list nat := omap stage calls.

(** The stages of the run come in the order of the script, and all lie
    between [lo] and [hi]. *)
Definition within_stages {A} (lo hi : nat) (m : run A) : Prop :=
  StronglySorted stage_before (stages m.1)
  /\ Forall (fun s => lo <= s <= hi)%nat (stages m.1).

(** ** Decimal strings *)

Definition is_digit (c : ascii) : bool :=
  let n := N_of_ascii c in ((48 <=? n) && (n <=? 57))%N.

Fixpoint all_digits (s : string) : bool :=
  match s with
  | EmptyString => true
  | String c s' => is_digit c && all_digits s'
  end.




(** ** Sample inputs *)

Module Sample.

Definition no_tokenizer : list column -> bool -> Z -> gmap string column :=
  fun _ _ _ => ∅.

Definition sentiment_ids : gmap pyval Z :=
  <[PStr "positive" := 1]> (<[PStr "negative" := 0]> ∅).

Definition sentiment_batch : gmap string column :=
  <["label" := Cells [PStr "positive"; PInt (-1); PStr "negative"]]>
    (<["sentence" := Cells [PStr "good"; PStr "so-so"; PStr "bad"]]> ∅).

Definition bert_batch : gmap string (list Z) :=
  <["token_type_ids" := [0; 0]]>
    (<["input_ids" := [101; 102]]>
       (<["attention_mask" := [1; 1]]>
          (<["labels" := [1]]> (<["idx" := [7]]> ∅)))).

Definition model_args : ModelArguments :=
  {| model_name_or_path := "bert-base-uncased";
     config_name := None;
     tokenizer_name := None;
     cache_dir := None;
     use_fast_tokenizer := true;
     model_revision := "main";
     use_auth_token := false |}.

(** The data arguments with their defaults, for a task or local files. *)
Definition data_args (task : option string) (train validation test : option string)
  : DataTrainingArguments :=
  {| task_name := task;
     dataset_name := None;
     dataset_config_name := None;
     max_seq_length := 128;
     overwrite_cache := false;
     pad_to_max_length := true;
     max_train_samples := None;
     max_eval_samples := None;
     max_predict_samples := None;
     train_file := train;
     validation_file := validation;
     test_file := test |}.


Definition training_args (train eval predict : bool) (nncf : option string)
  : TrainingArguments :=
  {| output_dir := "out";
     overwrite_output_dir := false;
     do_train := train;
     do_eval := eval;
     do_predict := predict;
     resume_from_checkpoint := None;
     seed := 42;
     fp16 := false;
     local_rank := -1;
     no_cuda := false;
     push_to_hub := false;
     nncf_config := nncf;
     to_onnx := None |}.

(** A split of a sentence-pair task with the given class names and the
    given labels, one row per label. *)
Definition pairs (key1 key2 : string) (names : list string) (labels : list Z)
  : Dataset :=
  {| features :=
       [(key1, Value "string"); (key2, Value "string");
        ("label", ClassLabel names); ("idx", Value "int32")];
     columns :=
       [(key1, Cells (PStr <$> replicate (length labels) "a"));
        (key2, Cells (PStr <$> replicate (length labels) "b"));
        ("label", Cells (PInt <$> labels));
        ("idx", Cells (PInt <$> (Z.of_nat <$> seq 0 (length labels))))] |}.

Definition mnli_names : list string := ["entailment"; "neutral"; "contradiction"].

Definition mnli : DatasetDict :=
  [("train", pairs "premise" "hypothesis" mnli_names [0; 1; 2; 1]);
   ("validation_matched", pairs "premise" "hypothesis" mnli_names [0; 1]);
   ("validation_mismatched", pairs "premise" "hypothesis" mnli_names [2]);
   ("test_matched", pairs "premise" "hypothesis" mnli_names [-1; -1]);
   ("test_mismatched", pairs "premise" "hypothesis" mnli_names [-1])].

Definition rte_names : list string := ["entailment"; "not_entailment"].

Definition rte : DatasetDict :=
  [("train", pairs "sentence1" "sentence2" rte_names [0; 1; 1]);
   ("validation", pairs "sentence1" "sentence2" rte_names [1; 0]);
   ("test", pairs "sentence1" "sentence2" rte_names [-1])].




(** A dataset of the hub with a train and a validation split only. *)
Definition no_test : DatasetDict :=
  [("train", pairs "sentence1" "sentence2" rte_names [0; 1; 1]);
   ("validation", pairs "sentence1" "sentence2" rte_names [1; 0])].

(** A pretrained mapping with the MNLI names in capitals, in another order
    than the dataset has them. *)
Definition capital_label2id : list (string * Z) :=
  [("CONTRADICTION", 0); ("ENTAILMENT", 1); ("NEUTRAL", 2)].

(** [LABEL_0], [LABEL_1], ... *)
Definition generic_label2id (n : nat) : list (string * Z) :=
  (fun i => ("LABEL_" +:+ pretty i, Z.of_nat i)) <$> seq 0 n.

(** A world that loads the given splits whatever is asked for, whose
    pretrained config has the given label mapping, and whose output
    directory holds the given files and the given last checkpoint. *)
Definition world (raw_datasets : DatasetDict) (label2id : list (string * Z))
    (files : list string) (last_checkpoint : option string)
    (predictions : list spec_float) : World :=
  {| os_path_isdir := fun _ => negb (bool_decide (files = []));
     os_path_exists := fun _ => negb (bool_decide (files = []));
     os_listdir := fun _ => files;
     get_last_checkpoint := fun _ => last_checkpoint;
     load_dataset := fun _ _ _ => raw_datasets;
     pretrained_label2id := fun _ _ => label2id;
     pretrained_id2label := fun _ _ => (fun kv => (kv.2, kv.1)) <$> label2id;
     default_label2id := generic_label2id;
     tokenizer := no_tokenizer;
     model_max_length := 512;
     nncf_log_dir := None;
     random_sample := fun _ => [0%nat; 1%nat; 2%nat];
     predictions_column := fun _ => predictions;
     predictions_argmax := fun d => replicate (num_rows d) 1%nat;
     is_world_process_zero := true |}.

End Sample.

(** * Properties *)

(** ** The two monads *)

Lemma result_bind_ok {A B} (m : result A) (f : A -> result B) b :
  m ≫= f = Ok b <-> exists a, m = Ok a /\ f a = Ok b.
Proof.
  destruct m as [a|e]; simpl.
  - split; [eauto | intros (a' & [= <-] & ?); done].
  - split; [done | intros (a' & [=] & ?)].
Qed.

Lemma comprehension_ok {A B} (f : A -> result B) (g : A -> B) (l : list A) :
  (forall x, x ∈ l -> f x = Ok (g x)) -> comprehension f l = Ok (g <$> l).
Proof.
  induction l as [|x l IH]; intros Hf; simpl; [done|].
  rewrite (Hf x) by left. simpl.
  rewrite IH; [done|]. intros y Hy. apply Hf. by right.
Qed.

Lemma comprehension_raise {A B} (f : A -> result B) (l : list A) x e :
  x ∈ l -> f x = Raise e -> is_ok (comprehension f l) = false.
Proof.
  induction 1 as [x l|x y l Hin IH]; intros Hx; simpl.
  - by rewrite Hx.
  - destruct (f y); simpl; [|done].
    specialize (IH Hx). by destruct (comprehension f l).
Qed.

Lemma run_bind_unfold {A B} (m : run A) (f : A -> run B) :
  m ≫= f = match m.2 with
           | Ok a => (m.1 ++ (f a).1, (f a).2)
           | Raise e => (m.1, Raise e)
           end.
Proof. destruct m as [t [a|e]]; simpl; [|done]. by destruct (f a). Qed.

Lemma run_bind_inv {A B} (m : run A) (f : A -> run B) t r :
  m ≫= f = (t, r) ->
  (exists e, m = (t, Raise e) /\ r = Raise e)
  \/ (exists a t1 t2, m = (t1, Ok a) /\ f a = (t2, r) /\ t = t1 ++ t2).
Proof.
  destruct m as [t1 [a|e]]; simpl.
  - destruct (f a) as [t2 r2] eqn:Hf. intros [= <- <-]. right. eauto 10.
  - intros [= <- <-]. left. eauto.
Qed.

Lemma run_bind_ok_inv {A B} (m : run A) (f : A -> run B) t b :
  m ≫= f = (t, Ok b) ->
  exists a t1 t2, m = (t1, Ok a) /\ f a = (t2, Ok b) /\ t = t1 ++ t2.
Proof.
  intros [(e & _ & [=])|H]%run_bind_inv. done.
Qed.

Lemma quiet_ret {A} P (a : A) : quiet P (mret a).
Proof. constructor. Qed.

Lemma quiet_lift {A} P (r : result A) : quiet P (lift r).
Proof. constructor. Qed.

Lemma quiet_raise {A} P e : quiet P (raise e : run A).
Proof. constructor. Qed.

Lemma quiet_call P e : P e -> quiet P (call e).
Proof. intros. by repeat constructor. Qed.

Lemma quiet_bind {A B} P (m : run A) (f : A -> run B) :
  quiet P m -> (forall a, m.2 = Ok a -> quiet P (f a)) -> quiet P (m ≫= f).
Proof.
  unfold quiet. rewrite run_bind_unfold. intros Hm Hf.
  destruct m as [t [a|e]]; simpl in *; [|done].
  apply Forall_app. split; [done|]. by apply Hf.
Qed.

Lemma quiet_when P (b : bool) m : (b = true -> quiet P m) -> quiet P (when b m).
Proof. destruct b; simpl; [auto|constructor]. Qed.

Lemma quiet_for_each {A} P (l : list A) body :
  (forall x, x ∈ l -> quiet P (body x)) -> quiet P (for_each l body).
Proof.
  induction l as [|x l IH]; intros H; simpl; [constructor|].
  apply quiet_bind; [apply H; left|]. intros _ _. apply IH.
  intros y Hy. apply H. by right.
Qed.

Lemma quiet_local {A} P name (v : option A) : quiet P (local name v).
Proof. destruct v; constructor. Qed.

Lemma fails_bind {A B} (m : run A) (f : A -> run B) :
  (forall a, m.2 = Ok a -> fails (f a)) -> fails (m ≫= f).
Proof.
  unfold fails. rewrite run_bind_unfold. intros Hf.
  destruct m as [t [a|e]]; simpl in *; [by apply Hf | eauto].
Qed.

Lemma aborts_bind {A B} P (m : run A) (f : A -> run B) :
  quiet P m -> (forall a, m.2 = Ok a -> aborts P (f a)) -> aborts P (m ≫= f).
Proof.
  intros Hm Hf. split.
  - apply quiet_bind; [done|]. intros a Ha. by apply Hf.
  - apply fails_bind. intros a Ha. by apply Hf.
Qed.

Lemma aborts_raise {A} P e : aborts P (raise e : run A).
Proof. split; [constructor | by exists e]. Qed.

(** ** [preprocess_function] *)

Lemma remap_label_sentinel m : remap_label m (PInt (-1)) = Ok (-1).
Proof. unfold remap_label. by case_decide. Qed.

Lemma remap_label_lookup m l v :
  l <> PInt (-1) -> m !! l = Some v -> remap_label m l = Ok v.
Proof.
  intros Hl Hv. unfold remap_label, getitem. case_decide; [|done]. by rewrite Hv.
Qed.

Lemma remap_label_missing m l :
  l <> PInt (-1) -> m !! l = None -> remap_label m l = Raise (KeyError l).
Proof.
  intros Hl Hv. unfold remap_label, getitem. case_decide; [|done]. by rewrite Hv.
Qed.

(** C1. With a label vocabulary [label_to_id], [preprocess_function] maps
    every label [l] of the batch other than [-1] to [label_to_id[l]] and
    leaves the sentinel [-1] as it is: on a batch that has its text columns,
    and whose labels other than [-1] are all in the vocabulary, it returns,
    and the label column of the result holds, row by row, [-1] for [-1] and
    [label_to_id[l]] for any other [l]. *)
Theorem preprocess_function_remaps_labels
    (tokenizer : list column -> bool -> Z -> gmap string column)
    (sentence1_key : string) (sentence2_key : option string)
    (padding : bool) (max_seq_length : Z)
    (label_to_id : gmap pyval Z) (examples : gmap string column)
    (labels : list pyval) :
  is_Some (examples !! sentence1_key) ->
  (forall k, sentence2_key = Some k -> is_Some (examples !! k)) ->
  examples !! "label" = Some (Cells labels) ->
  (forall l, l ∈ labels -> l <> PInt (-1) -> is_Some (label_to_id !! l)) ->
  exists result ids,
    preprocess_function tokenizer sentence1_key sentence2_key padding
      max_seq_length (Some label_to_id) examples = Ok result
    /\ result !! "label" = Some (Cells (PInt <$> ids))
    /\ length ids = length labels
    /\ forall i l, labels !! i = Some l ->
         ids !! i = if decide (l = PInt (-1)) then Some (-1) else label_to_id !! l.
Proof.
  intros [c1 Hc1] Hk2 Hlabel Hvocab.
  set (g := fun l : pyval =>
              if decide (l = PInt (-1)) then -1 else default 0 (label_to_id !! l)).
  assert (Hcomp : comprehension (remap_label label_to_id) labels = Ok (g <$> labels)).
  { apply comprehension_ok. intros l Hl. unfold g. case_decide as Hs.
    - subst l. apply remap_label_sentinel.
    - destruct (Hvocab l Hl Hs) as [v Hv]. rewrite Hv. by apply remap_label_lookup. }
  assert (Hrest : forall result : gmap string column,
             exists ids,
               <["label" := Cells (PInt <$> (g <$> labels))]> result !! "label"
               = Some (Cells (PInt <$> ids))
               /\ length ids = length labels
               /\ forall i l, labels !! i = Some l ->
                    ids !! i = if decide (l = PInt (-1)) then Some (-1)
                               else label_to_id !! l).
  { intros result. exists (g <$> labels). split; [apply lookup_insert_eq|].
    split; [apply length_fmap|].
    intros i l Hi. rewrite list_lookup_fmap, Hi. simpl. unfold g.
    case_decide as Hs; [done|].
    assert (l ∈ labels) as Hl by (by eapply list_elem_of_lookup_2).
    destruct (Hvocab l Hl Hs) as [v Hv]. by rewrite Hv. }
  unfold preprocess_function, getitem. rewrite Hc1. simpl.
  destruct sentence2_key as [k2|].
  - destruct (Hk2 k2 eq_refl) as [c2 ->]. simpl.
    rewrite Hlabel. simpl. rewrite Hcomp. simpl.
    destruct (Hrest (tokenizer [c1; c2] padding max_seq_length)) as [ids Hids].
    eauto.
  - simpl. rewrite Hlabel. simpl. rewrite Hcomp. simpl.
    destruct (Hrest (tokenizer [c1] padding max_seq_length)) as [ids Hids].
    eauto.
Qed.

Lemma preprocess_function_remaps_labels_witness :
  exists result ids,
    preprocess_function Sample.no_tokenizer "sentence" None true 128
      (Some Sample.sentiment_ids) Sample.sentiment_batch = Ok result
    /\ result !! "label" = Some (Cells (PInt <$> ids))
    /\ length ids = 3%nat
    /\ forall i l, [PStr "positive"; PInt (-1); PStr "negative"] !! i = Some l ->
         ids !! i = if decide (l = PInt (-1)) then Some (-1)
                    else Sample.sentiment_ids !! l.
Proof.
  apply (preprocess_function_remaps_labels Sample.no_tokenizer "sentence" None
           true 128 Sample.sentiment_ids Sample.sentiment_batch
           [PStr "positive"; PInt (-1); PStr "negative"]).
  - exists (Cells [PStr "good"; PStr "so-so"; PStr "bad"]). reflexivity.
  - intros k Hk. discriminate Hk.
  - reflexivity.
  - intros l Hl Hs.
    apply elem_of_cons in Hl as [->|Hl]; [eexists; reflexivity|].
    apply elem_of_cons in Hl as [->|Hl]; [by destruct Hs|].
    apply elem_of_cons in Hl as [->|Hl]; [eexists; reflexivity|].
    by apply elem_of_nil in Hl.
Defined.

(** ** The compression-initialization adapters *)

(** C8. Each of the three adapters returns no positional arguments and
    keyword arguments that hold exactly the fields [labels],
    [attention_mask] and [input_ids] of the batch, and for the MRPC adapter
    [token_type_ids] too, each with the value the batch has for it. *)
Theorem get_inputs_selects_fields {tensor : Type}
    (cls : InitializingDataLoader) (dataloader_output : gmap string tensor) :
  let fields :=
    match cls with
    | SST2InitializingDataLoader => ["labels"; "attention_mask"; "input_ids"]
    | MRPCInitializingDataLoader =>
        ["labels"; "attention_mask"; "input_ids"; "token_type_ids"]
    | MNLIInitializingDataLoader => ["labels"; "attention_mask"; "input_ids"]
    end in
  (forall k, k ∈ fields -> is_Some (dataloader_output !! k)) ->
  exists kwargs,
    get_inputs tensor cls dataloader_output = Ok ([], kwargs)
    /\ dom kwargs = list_to_set fields
    /\ forall k, k ∈ fields -> kwargs !! k = dataloader_output !! k.
Proof.
  intros fields Hfields.
  assert (Hget : forall k, k ∈ fields ->
            exists v, dataloader_output !! k = Some v
                      /\ getitem PStr dataloader_output k = Ok v).
  { intros k Hk. destruct (Hfields k Hk) as [v Hv]. exists v.
    unfold getitem. by rewrite Hv. }
  destruct cls; subst fields; simpl in *.
  - destruct (Hget "labels") as (v1 & H1 & ->); [set_solver|].
    destruct (Hget "attention_mask") as (v2 & H2 & ->); [set_solver|].
    destruct (Hget "input_ids") as (v3 & H3 & ->); [set_solver|].
    simpl. eexists. split; [reflexivity|]. split.
    + rewrite !dom_insert_L, dom_empty_L. set_solver.
    + intros k Hk. set_unfold in Hk.
      destruct Hk as [->|[->|[->|[]]]]; by simplify_map_eq.
  - destruct (Hget "labels") as (v1 & H1 & ->); [set_solver|].
    destruct (Hget "attention_mask") as (v2 & H2 & ->); [set_solver|].
    destruct (Hget "input_ids") as (v3 & H3 & ->); [set_solver|].
    destruct (Hget "token_type_ids") as (v4 & H4 & ->); [set_solver|].
    simpl. eexists. split; [reflexivity|]. split.
    + rewrite !dom_insert_L, dom_empty_L. set_solver.
    + intros k Hk. set_unfold in Hk.
      destruct Hk as [->|[->|[->|[->|[]]]]]; by simplify_map_eq.
  - destruct (Hget "labels") as (v1 & H1 & ->); [set_solver|].
    destruct (Hget "attention_mask") as (v2 & H2 & ->); [set_solver|].
    destruct (Hget "input_ids") as (v3 & H3 & ->); [set_solver|].
    simpl. eexists. split; [reflexivity|]. split.
    + rewrite !dom_insert_L, dom_empty_L. set_solver.
    + intros k Hk. set_unfold in Hk.
      destruct Hk as [->|[->|[->|[]]]]; by simplify_map_eq.
Qed.

Lemma get_inputs_selects_fields_witness :
  exists kwargs,
    get_inputs (list Z) MRPCInitializingDataLoader Sample.bert_batch
    = Ok ([], kwargs)
    /\ dom kwargs
       = list_to_set ["labels"; "attention_mask"; "input_ids"; "token_type_ids"]
    /\ forall k, k ∈ ["labels"; "attention_mask"; "input_ids"; "token_type_ids"] ->
         kwargs !! k = Sample.bert_batch !! k.
Proof.
  apply (get_inputs_selects_fields MRPCInitializingDataLoader Sample.bert_batch).
  intros k Hk.
  apply elem_of_cons in Hk as [->|Hk]; [eexists; reflexivity|].
  apply elem_of_cons in Hk as [->|Hk]; [eexists; reflexivity|].
  apply elem_of_cons in Hk as [->|Hk]; [eexists; reflexivity|].
  apply elem_of_cons in Hk as [->|Hk]; [eexists; reflexivity|].
  by apply elem_of_nil in Hk.
Defined.

(** ** [__post_init__] *)

Lemma split_nonempty sep s : split sep s <> [].
Proof.
  destruct s as [|c s]; simpl; [done|].
  destruct (Ascii.eqb c sep); [done|]. by destruct (split sep s).
Qed.

(** [path.split(".")[-1]] never raises. *)
Lemma file_extension_total path : exists ext, file_extension path = Ok ext.
Proof.
  unfold file_extension, getitem_last.
  destruct (last (split "." path)) as [ext|] eqn:Hlast; [eauto|].
  apply last_None in Hlast. by apply split_nonempty in Hlast.
Qed.

(** C5. With no task name and no dataset name, and a train file and a
    validation file given, the script fails in [__post_init__] with an
    assertion error, before it has called anything (so before it loads a
    dataset), when the extension of the train file is neither [csv] nor
    [json], or when the validation file has another extension than the
    train file. *)
Theorem mismatched_extensions_fail_before_loading
    (model_args : ModelArguments) (data_args : DataTrainingArguments)
    (training_args : TrainingArguments) (w : World)
    (train validation train_extension validation_extension : string) :
  task_name data_args = None ->
  dataset_name data_args = None ->
  train_file data_args = Some train ->
  validation_file data_args = Some validation ->
  file_extension train = Ok train_extension ->
  file_extension validation = Ok validation_extension ->
  train_extension ∉ ["csv"; "json"] \/ validation_extension <> train_extension ->
  exists msg,
    post_init data_args = Raise (AssertionError msg)
    /\ run_glue model_args data_args training_args w
       = ([], Raise (AssertionError msg)).
Proof.
  intros Htask Hname Htrain Hval Hext1 Hext2 Hbad.
  unfold run_glue, post_init.
  rewrite Htask, Hname, Htrain, Hval, Hext1. simpl.
  destruct (decide (train_extension ∈ ["csv"; "json"])) as [Hin|Hout].
  - rewrite bool_decide_eq_true_2 by done. simpl.
    rewrite Hext2. simpl.
    destruct Hbad as [Hbad|Hbad]; [done|].
    rewrite bool_decide_eq_false_2 by done. simpl. eauto.
  - rewrite bool_decide_eq_false_2 by done. simpl. eauto.
Qed.

Lemma mismatched_extensions_fail_before_loading_witness :
  exists msg,
    post_init (Sample.data_args None (Some "train.csv") (Some "dev.json") None)
    = Raise (AssertionError msg)
    /\ run_glue Sample.model_args
         (Sample.data_args None (Some "train.csv") (Some "dev.json") None)
         (Sample.training_args true true false None) (Sample.world [] [] [] None [])
       = ([], Raise (AssertionError msg)).
Proof.
  apply (mismatched_extensions_fail_before_loading Sample.model_args
           (Sample.data_args None (Some "train.csv") (Some "dev.json") None)
           (Sample.training_args true true false None) (Sample.world [] [] [] None [])
           "train.csv" "dev.json" "csv" "json");
    try reflexivity.
  right. discriminate.
Defined.

(** ** The order on strings and on label values *)

Lemma ascii_compare_refl (a : ascii) : Ascii.compare a a = Eq.
Proof. apply N.compare_refl. Qed.

Lemma string_compare_trans (a b c : string) :
  String.compare a b <> Gt -> String.compare b c <> Gt -> String.compare a c <> Gt.
Proof.
  revert b c. induction a as [|x a IH]; intros [|y b] [|z c]; simpl; try done.
  destruct (Ascii.compare x y) eqn:Hxy; [| |done];
    destruct (Ascii.compare y z) eqn:Hyz; try done.
  - apply Ascii.compare_eq_iff in Hxy, Hyz. subst.
    rewrite ascii_compare_refl. apply IH.
  - apply Ascii.compare_eq_iff in Hxy. subst. by rewrite Hyz.
  - apply Ascii.compare_eq_iff in Hyz. subst. by rewrite Hxy.
  - unfold Ascii.compare in *.
    apply N.compare_lt_iff in Hxy. apply N.compare_lt_iff in Hyz.
    pose proof (N.lt_trans _ _ _ Hxy Hyz) as Hxz.
    apply N.compare_lt_iff in Hxz. by rewrite Hxz.
Qed.

Lemma str_le_iff a b : str_le a b <-> String.compare a b <> Gt.
Proof. unfold str_le, String.leb. by destruct (String.compare a b). Qed.

Lemma str_le_trans : Transitive str_le.
Proof. intros a b c. rewrite !str_le_iff. apply string_compare_trans. Qed.
#[global] Existing Instance str_le_trans.

Lemma str_le_antisymm : AntiSymm (=) str_le.
Proof. intros a b. apply String.leb_antisym. Qed.
#[global] Existing Instance str_le_antisymm.

Lemma str_le_total : Total str_le.
Proof. intros a b. apply String.leb_total. Qed.
#[global] Existing Instance str_le_total.

Lemma pyval_le_trans : Transitive pyval_le.
Proof.
  intros [x|x] [y|y] [z|z]; simpl; try done; [lia|]. apply str_le_trans.
Qed.
#[global] Existing Instance pyval_le_trans.

Lemma pyval_le_antisymm : AntiSymm (=) pyval_le.
Proof.
  intros [x|x] [y|y]; simpl; try done.
  - intros. f_equal. lia.
  - intros H1 H2. f_equal. by apply str_le_antisymm.
Qed.
#[global] Existing Instance pyval_le_antisymm.

Lemma pyval_le_total : Total pyval_le.
Proof.
  intros [x|x] [y|y]; simpl; [lia|by left|by right|apply str_le_total].
Qed.
#[global] Existing Instance pyval_le_total.

(** Two sorted lists are equal exactly when one list is a rearrangement of
    the other. *)
Lemma merge_sort_eq_iff (l1 l2 : list pyval) :
  merge_sort pyval_le l1 = merge_sort pyval_le l2 <-> l1 ≡ₚ l2.
Proof.
  split.
  - intros Heq. rewrite <- (merge_sort_Permutation pyval_le l1), Heq.
    apply merge_sort_Permutation.
  - intros Hperm. apply (Sorted_unique pyval_le).
    + apply Sorted_merge_sort, _.
    + apply Sorted_merge_sort, _.
    + by rewrite !merge_sort_Permutation.
Qed.

Lemma sorted_strs (names : list string) :
  sorted (PStr <$> names) = Ok (merge_sort pyval_le (PStr <$> names)).
Proof.
  unfold sorted.
  assert (forallb is_str (PStr <$> names) = true) as ->; [|by rewrite orb_true_r].
  induction names; simpl; auto.
Qed.

(** ** Dicts from items *)

Lemma dict_of_items_snoc `{Countable K} {V} (l : list (K * V)) k v :
  dict_of_items (l ++ [(k, v)]) = <[k := v]> (dict_of_items l).
Proof. unfold dict_of_items. by rewrite foldl_app. Qed.

Lemma dict_of_items_lookup_Some `{Countable K} {V} (l : list (K * V)) k v :
  dict_of_items l !! k = Some v -> (k, v) ∈ l.
Proof.
  induction l as [|[k' v'] l IH] using rev_ind; [done|].
  rewrite dict_of_items_snoc, elem_of_app, list_elem_of_singleton.
  destruct (decide (k' = k)) as [->|Hne].
  - rewrite lookup_insert_eq. intros [= ->]. by right.
  - rewrite lookup_insert_ne by done. auto.
Qed.

Lemma dict_of_items_lookup_None `{Countable K} {V} (l : list (K * V)) k :
  dict_of_items l !! k = None <-> k ∉ l.*1.
Proof.
  induction l as [|[k' v'] l IH] using rev_ind.
  { split; [intros _; apply not_elem_of_nil | done]. }
  rewrite dict_of_items_snoc, fmap_app, not_elem_of_app. simpl.
  rewrite list_elem_of_singleton.
  destruct (decide (k' = k)) as [->|Hne].
  - rewrite lookup_insert_eq. split; [done|]. by intros [_ []].
  - rewrite lookup_insert_ne by done. rewrite IH.
    split; [intros Hl; split; [done | by intros ->] | by intros [Hl _]].
Qed.

Lemma dict_of_items_is_Some `{Countable K} {V} (l : list (K * V)) k :
  is_Some (dict_of_items l !! k) <-> k ∈ l.*1.
Proof.
  rewrite <- not_eq_None_Some, dict_of_items_lookup_None.
  destruct (decide (k ∈ l.*1)); naive_solver.
Qed.

Lemma NoDup_fst_functional {K V} (l : list (K * V)) k v v' :
  NoDup l.*1 -> (k, v) ∈ l -> (k, v') ∈ l -> v = v'.
Proof.
  induction l as [|[k0 v0] l IH]; simpl; intros Hnd H1 H2.
  - by apply elem_of_nil in H1.
  - apply NoDup_cons in Hnd as [Hk0 Hnd].
    apply elem_of_cons in H1 as [Heq1|H1];
      apply elem_of_cons in H2 as [Heq2|H2]; simplify_eq; auto.
    + destruct Hk0. apply list_elem_of_fmap. by exists (k0, v').
    + destruct Hk0. apply list_elem_of_fmap. by exists (k0, v).
Qed.

Lemma dict_of_items_lookup_NoDup `{Countable K} {V} (l : list (K * V)) k v :
  NoDup l.*1 -> (k, v) ∈ l -> dict_of_items l !! k = Some v.
Proof.
  intros Hnd Hin.
  destruct (dict_of_items l !! k) as [v'|] eqn:Hv.
  - apply dict_of_items_lookup_Some in Hv. f_equal.
    by eapply NoDup_fst_functional.
  - apply dict_of_items_lookup_None in Hv. destruct Hv.
    apply list_elem_of_fmap. by exists (k, v).
Qed.

Lemma dict_keys_NoDup `{Countable K} {V} (d : gmap K V) : NoDup (dict_keys d).
Proof. apply NoDup_fst_map_to_list. Qed.

Lemma elem_of_dict_keys `{Countable K} {V} (d : gmap K V) k :
  k ∈ dict_keys d <-> is_Some (d !! k).
Proof.
  unfold dict_keys. rewrite list_elem_of_fmap. split.
  - intros ([k' v] & -> & Hin). apply elem_of_map_to_list in Hin. eauto.
  - intros [v Hv]. exists (k, v). split; [done|]. by apply elem_of_map_to_list.
Qed.

(** ** Label reconciliation *)

Lemma PStr_inj : Inj (=) (=) PStr.
Proof. by intros s1 s2 [= ->]. Qed.
#[global] Existing Instance PStr_inj.

Lemma PInt_of_nat_inj : Inj (=) (=) (fun i : nat => PInt (Z.of_nat i)).
Proof. intros i j [= Hij]. lia. Qed.
#[global] Existing Instance PInt_of_nat_inj.

Lemma sorted_all_str (l : list pyval) :
  Forall (fun v => is_str v = true) l -> sorted l = Ok (merge_sort pyval_le l).
Proof.
  intros Hl. unfold sorted.
  assert (forallb is_str l = true) as ->; [|by rewrite orb_true_r].
  induction Hl as [|v l Hv _ IH]; simpl; [done|]. by rewrite Hv, IH.
Qed.

Lemma lower_keys_lookup_Some pretrained s v :
  lower_keys pretrained !! PStr s = Some v ->
  exists k, (k, v) ∈ pretrained /\ lower k = s.
Proof.
  intros Hv. apply dict_of_items_lookup_Some in Hv.
  apply list_elem_of_fmap in Hv as ([k v'] & Heq & Hin).
  simpl in Heq. injection Heq as Hs Hv. subst. eauto.
Qed.

Lemma lower_keys_is_Some pretrained key :
  is_Some (lower_keys pretrained !! key)
  <-> exists s, key = PStr s /\ s ∈ lower <$> keys pretrained.
Proof.
  unfold lower_keys, keys. rewrite dict_of_items_is_Some.
  rewrite <- list_fmap_compose. rewrite list_elem_of_fmap. split.
  - intros ([k v] & -> & Hin). exists (lower k). split; [done|].
    rewrite <- list_fmap_compose. apply list_elem_of_fmap. by exists (k, v).
  - intros (s & -> & Hin). rewrite <- list_fmap_compose in Hin.
    apply list_elem_of_fmap in Hin as ([k v] & -> & Hin). by exists (k, v).
Qed.

Lemma model_names_all_str pretrained :
  Forall (fun v => is_str v = true) (dict_keys (lower_keys pretrained)).
Proof.
  apply Forall_forall. intros key Hkey.
  apply elem_of_dict_keys, lower_keys_is_Some in Hkey as (s & -> & _). done.
Qed.

(** The test of the script, [sorted(label_name_to_id.keys()) ==
    sorted(label_list)], holds exactly when the label names of the dataset
    are the lower-cased label names of the model. *)
Lemma labels_match_iff pretrained (names : list string) :
  NoDup names ->
  merge_sort pyval_le (dict_keys (lower_keys pretrained))
  = merge_sort pyval_le (PStr <$> names)
  <-> forall name, name ∈ names <-> name ∈ lower <$> keys pretrained.
Proof.
  intros Hnd. rewrite merge_sort_eq_iff. split.
  - intros Hperm name.
    assert (PStr name ∈ dict_keys (lower_keys pretrained)
            <-> PStr name ∈ PStr <$> names) as Hiff by (by rewrite Hperm).
    rewrite elem_of_dict_keys, lower_keys_is_Some in Hiff.
    rewrite list_elem_of_fmap in Hiff. split.
    + intros Hin. destruct Hiff as [_ Hiff].
      destruct Hiff as (s & [= <-] & Hs); eauto.
    + intros Hin. destruct Hiff as [Hiff _].
      destruct Hiff as (s & [= <-] & Hs); eauto.
  - intros Hiff. apply NoDup_Permutation.
    + apply dict_keys_NoDup.
    + apply (NoDup_fmap_2 _), Hnd.
    + intros key. rewrite elem_of_dict_keys, lower_keys_is_Some.
      rewrite list_elem_of_fmap. split.
      * intros (s & -> & Hs). exists s. split; [done|]. by apply Hiff.
      * intros (s & -> & Hs). exists s. split; [done|]. by apply Hiff.
Qed.

Lemma model_order_items_ok label_name_to_id (names : list string) :
  (forall name, name ∈ names -> is_Some (label_name_to_id !! PStr name)) ->
  model_order_items label_name_to_id (PStr <$> names) (length names)
  = Ok ((fun i => (PInt (Z.of_nat i),
                   default 0 (label_name_to_id
                                !! PStr (default "" (names !! i)))))
          <$> seq 0 (length names)).
Proof.
  intros Hin. unfold model_order_items. apply comprehension_ok.
  intros i Hi. apply elem_of_seq in Hi as [_ Hi]. simpl in Hi.
  destruct (lookup_lt_is_Some_2 names i Hi) as [name Hname].
  unfold getitem_index. rewrite list_lookup_fmap, Hname. simpl.
  destruct (Hin name) as [v Hv]; [by eapply list_elem_of_lookup_2|].
  unfold getitem. by rewrite Hv.
Qed.

Lemma fmap_lower_id (names : list string) :
  Forall (fun name => lower name = name) names -> lower <$> names = names.
Proof.
  induction 1 as [|name names' Hname _ IH]; [done|].
  rewrite fmap_cons. by f_equal.
Qed.

Lemma preprocess_function_without_vocabulary tokenizer k1 k2 padding max_length
    examples result :
  preprocess_function tokenizer k1 k2 padding max_length None examples = Ok result ->
  exists args, result = tokenizer args padding max_length.
Proof.
  unfold preprocess_function.
  destruct (getitem PStr examples k1) as [s1|]; simpl; [|done].
  destruct k2 as [k2|]; simpl.
  - destruct (getitem PStr examples k2) as [s2|]; simpl; [|done].
    intros [= <-]. eauto.
  - intros [= <-]. eauto.
Qed.

(** C2. For a named classification task whose pretrained config has a
    label mapping other than the default one: when the label names of the
    dataset are exactly the lower-cased label names of the model (which,
    the names of the dataset being lower-case, is to say that the two
    vocabularies are the same up to case), [label_to_id] maps every
    position [i] of [label_list] to the id the model has for
    [label_list[i]]; otherwise a warning is logged, [label_to_id] stays
    [None], and preprocessing leaves the labels as the dataset has them. *)
Theorem reconcile_labels_adopts_model_ids
    (data_args : DataTrainingArguments) (w : World)
    (pretrained : list (string * Z)) (names : list string) (task : string) :
  task_name data_args = Some task ->
  dict_of_items pretrained <> dict_of_items (default_label2id w (length names)) ->
  NoDup names ->
  let label_list := PStr <$> names in
  let num_labels := length names in
  let outcome :=
    reconcile_labels data_args w pretrained false (Some label_list) num_labels in
  let full_match :=
    forall name, name ∈ names <-> name ∈ lower <$> keys pretrained in
  (full_match ->
   exists items,
     outcome = ([], Ok (Some items))
     /\ (forall key, is_Some (dict_of_items items !! key)
                     <-> exists i, (i < num_labels)%nat /\ key = PInt (Z.of_nat i))
     /\ forall i name, names !! i = Some name ->
          exists k id,
            (k, id) ∈ pretrained /\ lower k = name
            /\ dict_of_items items !! PInt (Z.of_nat i) = Some id
            /\ (NoDup (lower <$> keys pretrained) ->
                forall k' id', (k', id') ∈ pretrained -> lower k' = name -> id' = id))
  /\ (~ full_match ->
      outcome = ([Log WARNING LabelsMismatch], Ok None)
      /\ forall tokenizer k1 k2 padding max_length examples result,
           preprocess_function tokenizer k1 k2 padding max_length None examples
           = Ok result ->
           exists args, result = tokenizer args padding max_length)
  /\ (Forall (fun name => lower name = name) names ->
      full_match
      <-> forall name, name ∈ lower <$> names <-> name ∈ lower <$> keys pretrained).
Proof.
  intros Htask Hdefault Hnd label_list num_labels outcome full_match.
  assert (Hguard :
    bool_decide (dict_of_items pretrained
                 <> dict_of_items (default_label2id w num_labels))
    && bool_decide (task_name data_args <> None) && negb false = true).
  { rewrite Htask. rewrite !bool_decide_eq_true_2 by done. done. }
  assert (Houtcome : outcome =
    if bool_decide (merge_sort pyval_le (dict_keys (lower_keys pretrained))
                    = merge_sort pyval_le label_list)
    then items ← lift (model_order_items (lower_keys pretrained) label_list
                         num_labels);
         mret (Some items)
    else call (Log WARNING LabelsMismatch);; mret None).
  { unfold outcome, reconcile_labels. rewrite Hguard.
    rewrite (sorted_all_str _ (model_names_all_str pretrained)).
    unfold label_list. simpl. rewrite sorted_strs. simpl.
    clear Hguard.
    destruct (bool_decide (merge_sort pyval_le _ = _)); [|reflexivity].
    destruct (model_order_items (lower_keys pretrained) (PStr <$> names) num_labels);
      reflexivity. }
  split; [|split].
  - intros Hmatch.
    assert (Hin : forall name, name ∈ names ->
                    is_Some (lower_keys pretrained !! PStr name)).
    { intros name Hname. apply lower_keys_is_Some. exists name.
      split; [done|]. by apply Hmatch. }
    destruct (labels_match_iff pretrained names Hnd) as [_ Hfrom].
    rewrite bool_decide_eq_true_2 in Houtcome by exact (Hfrom Hmatch).
    unfold label_list, num_labels in Houtcome.
    rewrite (model_order_items_ok _ _ Hin) in Houtcome. simpl in Houtcome.
    eexists. split; [exact Houtcome|].
    set (g := fun i : nat =>
                (PInt (Z.of_nat i),
                 default 0 (lower_keys pretrained !! PStr (default "" (names !! i))))).
    assert (Hkeys : (g <$> seq 0 (length names)).*1
                    = (fun i => PInt (Z.of_nat i)) <$> seq 0 (length names)).
    { by rewrite <- list_fmap_compose. }
    split.
    + intros key. rewrite dict_of_items_is_Some, Hkeys, list_elem_of_fmap.
      split.
      * intros (i & -> & Hi). apply elem_of_seq in Hi. exists i. split; [lia|done].
      * intros (i & Hi & ->). exists i. split; [done|]. apply elem_of_seq. lia.
    + intros i name Hname.
      destruct (Hin name) as [id Hid]; [by eapply list_elem_of_lookup_2|].
      destruct (lower_keys_lookup_Some _ _ _ Hid) as (k & Hk & Hlower).
      exists k, id. split; [done|]. split; [done|]. split.
      * apply dict_of_items_lookup_NoDup.
        -- rewrite Hkeys. apply (NoDup_fmap_2 _), NoDup_seq.
        -- apply list_elem_of_fmap. exists i. split.
           ++ unfold g. rewrite Hname. simpl. by rewrite Hid.
           ++ apply elem_of_seq. apply lookup_lt_Some in Hname. lia.
      * intros Hnd' k' id' Hk' Hlower'.
        apply dict_of_items_lookup_Some in Hid.
        eapply (NoDup_fst_functional _ (PStr name)); [| |exact Hid].
        -- rewrite <- list_fmap_compose. unfold keys in Hnd'.
           rewrite <- list_fmap_compose in Hnd'.
           apply (NoDup_fmap_2 PStr) in Hnd'.
           by rewrite <- list_fmap_compose in Hnd'.
        -- apply list_elem_of_fmap. exists (k', id'). split; [|done].
           simpl. by rewrite Hlower'.
  - intros Hmismatch. split.
    + rewrite bool_decide_eq_false_2 in Houtcome; [done|].
      intros Heq. apply Hmismatch.
      destruct (labels_match_iff pretrained names Hnd) as [Hto _].
      exact (Hto Heq).
    + intros *. apply preprocess_function_without_vocabulary.
  - intros Hlower.
    by rewrite (fmap_lower_id names Hlower).
Qed.

Lemma reconcile_labels_adopts_model_ids_witness :
  exists items,
    reconcile_labels (Sample.data_args (Some "mnli") None None None)
      (Sample.world Sample.mnli Sample.capital_label2id [] None [])
      Sample.capital_label2id false (Some (PStr <$> Sample.mnli_names)) 3
    = ([], Ok (Some items))
    /\ dict_of_items items !! PInt 0 = Some 1
    /\ dict_of_items items !! PInt 1 = Some 2
    /\ dict_of_items items !! PInt 2 = Some 0.
Proof.
  destruct (reconcile_labels_adopts_model_ids
              (Sample.data_args (Some "mnli") None None None)
              (Sample.world Sample.mnli Sample.capital_label2id [] None [])
              Sample.capital_label2id Sample.mnli_names "mnli")
    as [Hmatch _].
  - reflexivity.
  - apply (bool_decide_unpack _). vm_compute. exact I.
  - apply (bool_decide_unpack _). vm_compute. exact I.
  - destruct Hmatch as (items & Hitems & _ & _).
    + intros name.
      change (lower <$> keys Sample.capital_label2id)
        with ["contradiction"; "entailment"; "neutral"].
      unfold Sample.mnli_names. rewrite !elem_of_cons, !elem_of_nil. tauto.
    + exists items. split; [exact Hitems|].
      vm_compute in Hitems. injection Hitems as <-. vm_compute. auto.
Defined.

(** The match is not case-insensitive: only the names of the model are
    lower-cased. Dataset labels [Entailment], [Neutral], [Contradiction] are,
    up to case, the labels of a model with [CONTRADICTION], [ENTAILMENT],
    [NEUTRAL], and yet the warning is logged and [label_to_id] stays
    [None]. *)
Lemma capitalised_dataset_labels_do_not_match :
  (forall name,
     name ∈ lower <$> ["Entailment"; "Neutral"; "Contradiction"]
     <-> name ∈ lower <$> keys Sample.capital_label2id)
  /\ dict_of_items Sample.capital_label2id
     <> dict_of_items
          (default_label2id
             (Sample.world Sample.mnli Sample.capital_label2id [] None []) 3)
  /\ reconcile_labels (Sample.data_args (Some "mnli") None None None)
       (Sample.world Sample.mnli Sample.capital_label2id [] None [])
       Sample.capital_label2id false
       (Some (PStr <$> ["Entailment"; "Neutral"; "Contradiction"])) 3
     = ([Log WARNING LabelsMismatch], Ok None).
Proof.
  split; [|split].
  - intros name.
    change (lower <$> keys Sample.capital_label2id)
      with ["contradiction"; "entailment"; "neutral"].
    change (lower <$> ["Entailment"; "Neutral"; "Contradiction"])
      with ["entailment"; "neutral"; "contradiction"].
    rewrite !elem_of_cons, !elem_of_nil. tauto.
  - apply (bool_decide_unpack _). vm_compute. exact I.
  - vm_compute. reflexivity.
Qed.

(** ** What the phases of [main] call *)

Lemma quiet_map_datasets P data_args function raw_datasets :
  (forall split cache, P (DatasetMap split cache)) ->
  quiet P (map_datasets data_args function raw_datasets).
Proof.
  intros HP. induction raw_datasets as [|[split d] rest IH]; cbn [map_datasets].
  - apply quiet_ret.
  - apply quiet_bind; [by apply quiet_call|]. intros _ _.
    apply quiet_bind; [apply quiet_lift|]. intros r _.
    apply quiet_bind; [apply IH|]. intros rest' _. apply quiet_ret.
Qed.

(** Preprocessing keeps the splits and their order. *)
Lemma map_datasets_keys data_args function raw_datasets raw_datasets' :
  (map_datasets data_args function raw_datasets).2 = Ok raw_datasets' ->
  keys raw_datasets' = keys raw_datasets.
Proof.
  revert raw_datasets'.
  induction raw_datasets as [|[split d] rest IH]; simpl; intros raw'.
  - by intros [= <-].
  - destruct (function (list_to_map (columns d))) as [r|e]; simpl; [|done].
    destruct (map_datasets data_args function rest) as [calls [rest'|e]];
      simpl in *; [|done].
    intros [= <-]. simpl. f_equal. by apply IH.
Qed.

Lemma mem_keys {V} (k : string) (d d' : list (string * V)) :
  keys d' = keys d -> mem k d' = mem k d.
Proof. unfold mem. by intros ->. Qed.

Create HintDb phases discriminated.
#[global] Hint Unfold getsplit detect_last_checkpoint get_datasets get_labels
  load_config_and_tokenizer get_sentence_keys reconcile_labels
  get_max_seq_length select_train select_eval nncf_setup load_model
  export_model select_predict log_samples init_trainer training evaluation
  write_predictions prediction push : phases.

(** One step in showing that all calls of a run satisfy a property: by the
    shape of the run. *)
Ltac quiet_step :=
  lazymatch goal with
  | |- quiet _ (mret _) => apply quiet_ret
  | |- quiet _ (lift _) => apply quiet_lift
  | |- quiet _ (raise _) => apply quiet_raise
  | |- quiet _ (local _ _) => apply quiet_local
  | |- quiet _ (call _) => apply quiet_call
  | |- quiet _ (when _ _) => apply quiet_when; intros ?
  | |- quiet _ (for_each _ _) => apply quiet_for_each; intros ? ?
  | |- quiet _ (map_datasets _ _ _) => apply quiet_map_datasets; intros ? ?
  | |- quiet _ (mbind _ _) => apply quiet_bind; [|intros ? ?]
  | |- quiet _ (if ?b then _ else _) => destruct b eqn:?
  | |- quiet _ (match ?x with _ => _ end) => destruct x eqn:?
  | |- quiet _ _ => first [progress autounfold with phases | progress cbv zeta]
  end.

Ltac quiet_tac := repeat quiet_step; try done.

Lemma aborts_bind_l {A B} P (m : run A) (f : A -> run B) :
  aborts P m -> aborts P (m ≫= f).
Proof.
  intros [Hq [e He]]. destruct m as [calls r]. simpl in *. subst r.
  split; [exact Hq | by exists e].
Qed.

Lemma aborts_eq {A} P (m : run A) calls e :
  m = (calls, Raise e) -> Forall P calls -> aborts P m.
Proof. intros -> HP. split; [exact HP | by exists e]. Qed.

(** ** Evaluation needs a validation split *)




(** ** Reaching a call *)

(** A run that made the call [e], which its first part never makes, has
    come through that part. *)
Lemma run_bind_reached {A B} (m : run A) (f : A -> run B) calls r e :
  m ≫= f = (calls, r) -> e ∈ calls -> quiet (fun e' => e' <> e) m ->
  exists a calls1 calls2,
    m = (calls1, Ok a) /\ f a = (calls2, r) /\ e ∈ calls2.
Proof.
  intros Hbind He Hm.
  assert (Hnot : e ∉ m.1).
  { intros Hin. unfold quiet in Hm. rewrite Forall_forall in Hm.
    by apply (Hm e Hin). }
  apply run_bind_inv in Hbind as [(e' & -> & _)|(a & c1 & c2 & -> & Hf & ->)].
  - done.
  - exists a, c1, c2. split; [done|]. split; [done|].
    apply elem_of_app in He as [He|He]; [done|exact He].
Qed.

Lemma run_bind_raise_eq {A B} (m : run A) (f : A -> run B) calls e :
  m = (calls, Raise e) -> m ≫= f = (calls, Raise e).
Proof. by intros ->. Qed.

(** ** The adapter class of a task *)

Lemma initializing_data_loader_cls_is_Some data_args :
  is_Some (initializing_data_loader_cls data_args)
  <-> task_name data_args ∈ [Some "sst2"; Some "mrpc"; Some "mnli"].
Proof.
  unfold initializing_data_loader_cls. rewrite !elem_of_cons, elem_of_nil.
  repeat case_bool_decide; split; intros Hin; eauto; try tauto.
  by apply is_Some_None in Hin.
Qed.

Lemma select_train_bound data_args training_args raw_datasets train_dataset :
  (select_train data_args training_args raw_datasets).2 = Ok train_dataset ->
  do_train training_args = true -> is_Some train_dataset.
Proof.
  destruct (select_train _ _ _) as [calls r] eqn:Hsel. simpl. intros ->.
  unfold select_train in Hsel. intros Hdo. rewrite Hdo in Hsel.
  repeat match type of Hsel with
         | _ ≫= _ = _ => apply run_bind_ok_inv in Hsel as (? & ? & ? & ? & Hsel & ?)
         | match ?x with _ => _ end = _ => destruct x
         end; inversion Hsel; eauto.
Qed.

Lemma select_eval_bound data_args training_args raw_datasets eval_dataset :
  (select_eval data_args training_args raw_datasets).2 = Ok eval_dataset ->
  do_eval training_args = true -> is_Some eval_dataset.
Proof.
  destruct (select_eval _ _ _) as [calls r] eqn:Hsel. simpl. intros ->.
  unfold select_eval in Hsel. intros Hdo. rewrite Hdo in Hsel.
  repeat match type of Hsel with
         | _ ≫= _ = _ => apply run_bind_ok_inv in Hsel as (? & ? & ? & ? & Hsel & ?)
         | match ?x with _ => _ end = _ => destruct x
         end; inversion Hsel; eauto.
Qed.

Lemma nncf_setup_unbound data_args training_args w file
    train_dataset eval_dataset data_collator :
  nncf_config training_args = Some file ->
  do_train training_args = true \/ do_eval training_args = true ->
  initializing_data_loader_cls data_args = None ->
  (do_train training_args = true -> is_Some train_dataset) ->
  (do_eval training_args = true -> is_Some eval_dataset) ->
  exists calls,
    nncf_setup data_args training_args w train_dataset eval_dataset data_collator
    = (calls, Raise (UnboundLocalError "initializing_data_loader_cls"))
    /\ Forall (fun e => is_model_construction e = false) calls
    /\ Forall (fun e => forall cls, e <> RegisterExtraStructs cls) calls.
Proof.
  intros Hfile Hphase Hcls Htrain Heval.
  unfold nncf_setup. rewrite Hfile, Hcls.
  destruct (do_train training_args) eqn:Hdo_train.
  - destruct (Htrain eq_refl) as [d ->].
    destruct (negb (os_path_exists w (output_dir training_args))
              && bool_decide (local_rank training_args ∈ [-1; 0]));
      simpl; eexists; (split; [reflexivity|]); split;
        repeat constructor; done.
  - destruct Hphase as [?|Hdo_eval]; [done|]. rewrite Hdo_eval.
    destruct (Heval Hdo_eval) as [d ->].
    destruct (negb (os_path_exists w (output_dir training_args))
              && bool_decide (local_rank training_args ∈ [-1; 0]));
      simpl; eexists; (split; [reflexivity|]); split;
        repeat constructor; done.
Qed.

(** One step towards a call the run made: through the first part of the
    run, which does not make it. *)
Ltac reach Hrun Hcall :=
  let Hphase := fresh "Hphase" in
  apply run_bind_reached with (1 := Hrun) in Hcall as Hcall'; [|quiet_tac];
  clear Hrun Hcall;
  destruct Hcall' as (? & ? & ? & Hphase & Hrun & Hcall);
  apply (f_equal snd) in Hphase; cbn [snd] in Hphase.

(** C9. With a compression configuration file, training or evaluation
    requested, and a task other than [sst2], [mrpc] and [mnli] (or no task
    at all), the variable that holds the adapter class is never assigned;
    setting up the initializing data loader raises [UnboundLocalError] for
    it, so the run ends before a model is constructed. The adapter class is
    assigned exactly for the three tasks. *)
Theorem nncf_adapter_unbound_for_other_tasks
    (model_args : ModelArguments) (data_args : DataTrainingArguments)
    (training_args : TrainingArguments) (w : World) (file : string) :
  nncf_config training_args = Some file ->
  do_train training_args = true \/ do_eval training_args = true ->
  task_name data_args ∉ [Some "sst2"; Some "mrpc"; Some "mnli"] ->
  initializing_data_loader_cls data_args = None
  /\ (forall train_dataset eval_dataset data_collator,
        (do_train training_args = true -> is_Some train_dataset) ->
        (do_eval training_args = true -> is_Some eval_dataset) ->
        exists calls,
          nncf_setup data_args training_args w train_dataset eval_dataset
            data_collator
          = (calls, Raise (UnboundLocalError "initializing_data_loader_cls"))
          /\ Forall (fun e => forall cls, e <> RegisterExtraStructs cls) calls)
  /\ aborts (fun e => is_model_construction e = false)
        (main model_args data_args training_args w)
  /\ (forall calls r,
        main model_args data_args training_args w = (calls, r) ->
        NNCFConfigFromJson file ∈ calls ->
        r = Raise (UnboundLocalError "initializing_data_loader_cls"))
  /\ (forall data_args',
        is_Some (initializing_data_loader_cls data_args')
        <-> task_name data_args' ∈ [Some "sst2"; Some "mrpc"; Some "mnli"]).
Proof.
  intros Hfile Hphase Htask.
  assert (Hcls : initializing_data_loader_cls data_args = None).
  { apply eq_None_not_Some. by rewrite initializing_data_loader_cls_is_Some. }
  split; [exact Hcls|]. split; [|split; [|split]].
  - intros train_dataset eval_dataset data_collator Htrain Heval.
    destruct (nncf_setup_unbound data_args training_args w file train_dataset
                eval_dataset data_collator Hfile Hphase Hcls Htrain Heval)
      as (calls & Hsetup & _ & Hcalls).
    eauto.
  - unfold main.
    apply aborts_bind; [quiet_tac|intros _ _].
    apply aborts_bind; [quiet_tac|intros _ _].
    apply aborts_bind; [quiet_tac|intros last_checkpoint _].
    apply aborts_bind; [quiet_tac|intros _ _].
    apply aborts_bind; [quiet_tac|intros raw _].
    apply aborts_bind; [quiet_tac|intros labels _].
    cbv zeta.
    apply aborts_bind; [quiet_tac|intros config _].
    apply aborts_bind; [quiet_tac|intros sentence_keys _].
    apply aborts_bind; [quiet_tac|intros label_to_id _].
    apply aborts_bind; [quiet_tac|intros max_length _].
    apply aborts_bind; [quiet_tac|intros raw' _].
    apply aborts_bind; [quiet_tac|intros train_dataset Htrain].
    apply aborts_bind; [quiet_tac|intros eval_dataset Heval].
    apply aborts_bind_l.
    destruct (nncf_setup_unbound data_args training_args w file train_dataset
                eval_dataset (get_data_collator data_args training_args)
                Hfile Hphase Hcls)
      as (calls & Hsetup & Hcalls & _).
    + intros Hdo. eapply select_train_bound; eassumption.
    + intros Hdo. eapply select_eval_bound; eassumption.
    + by eapply aborts_eq.
  - intros calls r Hmain Hcall. unfold main in Hmain.
    do 6 reach Hmain Hcall. cbv zeta in Hmain.
    do 7 reach Hmain Hcall.
    match goal with
    | Ht : (select_train _ _ _).2 = Ok ?t, He : (select_eval _ _ _).2 = Ok ?e |- _ =>
        destruct (nncf_setup_unbound data_args training_args w file t e
                    (get_data_collator data_args training_args)
                    Hfile Hphase Hcls)
          as (calls' & Hsetup & _ & _);
        [ intros Hdo; eapply select_train_bound; eassumption
        | intros Hdo; eapply select_eval_bound; eassumption
        | ]
    end.
    rewrite (run_bind_raise_eq _ _ _ _ Hsetup) in Hmain. by injection Hmain.
  - apply initializing_data_loader_cls_is_Some.
Qed.

Lemma nncf_adapter_unbound_for_other_tasks_witness :
  initializing_data_loader_cls (Sample.data_args (Some "rte") None None None) = None
  /\ (main Sample.model_args (Sample.data_args (Some "rte") None None None)
        (Sample.training_args true false false (Some "nncf.json"))
        (Sample.world Sample.rte [] [] None [])).2
     = Raise (UnboundLocalError "initializing_data_loader_cls").
Proof.
  destruct (nncf_adapter_unbound_for_other_tasks Sample.model_args
              (Sample.data_args (Some "rte") None None None)
              (Sample.training_args true false false (Some "nncf.json"))
              (Sample.world Sample.rte [] [] None []) "nncf.json")
    as (Hcls & _ & _ & Hreached & _).
  - reflexivity.
  - left. reflexivity.
  - apply (bool_decide_unpack _). vm_compute. exact I.
  - split; [exact Hcls|].
    eapply Hreached; [apply surjective_pairing|].
    apply (bool_decide_unpack _). vm_compute. exact I.
Defined.

(** ** The test split check *)

Lemma select_predict_without_test data_args training_args raw_datasets :
  do_predict training_args = true \/ task_name data_args <> None
  \/ test_file data_args <> None ->
  mem "test" raw_datasets = false ->
  mem "test_matched" raw_datasets = false ->
  select_predict data_args training_args raw_datasets
  = ([], Raise (ValueError "--do_predict requires a test dataset")).
Proof.
  intros Hcheck H1 H2. unfold select_predict. rewrite H1, H2.
  assert (do_predict training_args
          || bool_decide (task_name data_args <> None)
          || bool_decide (test_file data_args <> None) = true) as ->; [|done].
  destruct Hcheck as [->|[H|H]]; [done|..];
    rewrite (bool_decide_eq_true_2 _ H); by rewrite ?orb_true_r.
Qed.

Lemma select_predict_skipped data_args training_args raw_datasets :
  do_predict training_args = false ->
  task_name data_args = None ->
  test_file data_args = None ->
  select_predict data_args training_args raw_datasets = ([], Ok None).
Proof. intros H1 H2 H3. unfold select_predict. by rewrite H1, H2, H3. Qed.

Lemma export_model_ok training_args nncf :
  (export_model training_args nncf).2 = Ok ().
Proof.
  unfold export_model. destruct (to_onnx training_args) as [path|]; [|done].
  by destruct (negb (bool_decide (path = ""))).
Qed.

(** C10. The check for a test split runs whenever prediction is requested,
    a task name is given or a test file is given: with [do_predict] false
    and a task name or a test file, a dataset with neither a [test] nor a
    [test_matched] split makes it raise [ValueError("--do_predict requires
    a test dataset")]; the run then ends after the model is constructed and
    before the trainer is. The check is skipped only when there is neither
    [do_predict], nor a task name, nor a test file. *)
Theorem test_split_checked_without_do_predict
    (model_args : ModelArguments) (data_args : DataTrainingArguments)
    (training_args : TrainingArguments) (w : World) :
  do_predict training_args = false ->
  task_name data_args <> None \/ test_file data_args <> None ->
  (forall raw_datasets,
     (get_datasets data_args training_args w).2 = Ok raw_datasets ->
     mem "test" raw_datasets = false /\ mem "test_matched" raw_datasets = false) ->
  (forall raw_datasets,
     mem "test" raw_datasets = false ->
     mem "test_matched" raw_datasets = false ->
     select_predict data_args training_args raw_datasets
     = ([], Raise (ValueError "--do_predict requires a test dataset")))
  /\ aborts (fun e => is_trainer_init e = false)
       (main model_args data_args training_args w)
  /\ (forall calls r e,
        main model_args data_args training_args w = (calls, r) ->
        e ∈ calls -> is_model_construction e = true ->
        r = Raise (ValueError "--do_predict requires a test dataset"))
  /\ (forall data_args' training_args' raw_datasets,
        do_predict training_args' = false ->
        task_name data_args' = None ->
        test_file data_args' = None ->
        select_predict data_args' training_args' raw_datasets = ([], Ok None)).
Proof.
  intros Hpredict Hgiven Hraw.
  assert (Hcheck : do_predict training_args = true \/ task_name data_args <> None
                   \/ test_file data_args <> None) by tauto.
  split; [|split; [|split]].
  - intros raw H1 H2. by apply select_predict_without_test.
  - unfold main.
    apply aborts_bind; [quiet_tac|intros _ _].
    apply aborts_bind; [quiet_tac|intros _ _].
    apply aborts_bind; [quiet_tac|intros last_checkpoint _].
    apply aborts_bind; [quiet_tac|intros _ _].
    apply aborts_bind; [quiet_tac|intros raw Hloaded].
    destruct (Hraw raw Hloaded) as [H1 H2].
    apply aborts_bind; [quiet_tac|intros labels _].
    cbv zeta.
    apply aborts_bind; [quiet_tac|intros config _].
    apply aborts_bind; [quiet_tac|intros sentence_keys _].
    apply aborts_bind; [quiet_tac|intros label_to_id _].
    apply aborts_bind; [quiet_tac|intros max_length _].
    apply aborts_bind; [quiet_tac|intros raw' Hmapped].
    apply map_datasets_keys in Hmapped.
    apply aborts_bind; [quiet_tac|intros train_dataset _].
    apply aborts_bind; [quiet_tac|intros eval_dataset _].
    apply aborts_bind; [quiet_tac|intros nncf _].
    apply aborts_bind; [quiet_tac|intros _ _].
    apply aborts_bind; [quiet_tac|intros _ _].
    apply aborts_bind_l.
    rewrite select_predict_without_test;
      [apply aborts_raise | done | by rewrite (mem_keys _ _ _ Hmapped)
      | by rewrite (mem_keys _ _ _ Hmapped)].
  - intros calls r e Hmain Hcall Hmodel. unfold main in Hmain.
    destruct e; try discriminate Hmodel.
    do 6 reach Hmain Hcall. cbv zeta in Hmain.
    do 8 reach Hmain Hcall.
    match goal with
    | Hl : (get_datasets _ _ _).2 = Ok ?raw,
      Hm : (map_datasets _ _ ?raw).2 = Ok ?raw' |- _ =>
        destruct (Hraw raw Hl) as [H1 H2];
        apply map_datasets_keys in Hm;
        pose proof (select_predict_without_test data_args training_args raw'
                      Hcheck) as Hselect;
        rewrite !(mem_keys _ _ _ Hm) in Hselect;
        specialize (Hselect H1 H2)
    end.
    apply run_bind_inv in Hmain
      as [(e' & Hload & _)|(? & ? & ? & _ & Hmain & _)]; [done|].
    apply run_bind_inv in Hmain
      as [(e' & Hexport & _)|(? & ? & ? & _ & Hmain & _)].
    { match type of Hexport with
      | export_model ?ta ?n = _ => pose proof (export_model_ok ta n) as Hok
      end.
      rewrite Hexport in Hok. done. }
    rewrite (run_bind_raise_eq _ _ _ _ Hselect) in Hmain. by injection Hmain.
  - intros *. apply select_predict_skipped.
Qed.

Lemma test_split_checked_without_do_predict_witness :
  select_predict
    (Sample.data_args None (Some "train.csv") (Some "dev.csv") (Some "test.csv"))
    (Sample.training_args false true false None) Sample.no_test
  = ([], Raise (ValueError "--do_predict requires a test dataset"))
  /\ aborts (fun e => is_trainer_init e = false)
       (main Sample.model_args
          (Sample.data_args None (Some "train.csv") (Some "dev.csv")
             (Some "test.csv"))
          (Sample.training_args false true false None)
          (Sample.world Sample.no_test [] [] None [])).
Proof.
  destruct (test_split_checked_without_do_predict Sample.model_args
              (Sample.data_args None (Some "train.csv") (Some "dev.csv")
                 (Some "test.csv"))
              (Sample.training_args false true false None)
              (Sample.world Sample.no_test [] [] None []))
    as (Hcheck & Hmain & _ & _).
  - reflexivity.
  - right. discriminate.
  - intros raw Hraw. vm_compute in Hraw. injection Hraw as <-.
    split; reflexivity.
  - split; [|exact Hmain]. apply Hcheck; reflexivity.
Defined.

(** ** Observing the calls of a run *)

Lemma omap_bind {A B X} (g : event -> option X) (m : run A) (f : A -> run B) :
  omap g (m ≫= f).1
  = omap g m.1 ++ match m.2 with
                  | Ok a => omap g (f a).1
                  | Raise _ => []
                  end.
Proof.
  rewrite run_bind_unfold. destruct m as [calls [a|e]]; simpl.
  - by rewrite omap_app.
  - by rewrite app_nil_r.
Qed.

Lemma quiet_omap {A X} (g : event -> option X) (m : run A) :
  quiet (fun e => g e = None) m -> omap g m.1 = [].
Proof.
  unfold quiet. induction 1 as [|e calls He _ IH]; [done|].
  cbn [omap list_omap]. by rewrite He.
Qed.

(** A property of what a run shows (through [g]) and of how it ends holds
    of a run whose first part shows nothing, when it holds of a failure
    that shows nothing and of what comes after the first part. *)
Lemma observe_bind {A B X} (g : event -> option X) (m : run A) (f : A -> run B)
    (Φ : list X -> result B -> Prop) :
  quiet (fun e => g e = None) m ->
  (forall e, Φ [] (Raise e)) ->
  (forall a, m.2 = Ok a -> Φ (omap g (f a).1) (f a).2) ->
  Φ (omap g (m ≫= f).1) (m ≫= f).2.
Proof.
  intros Hm Hfail Hok. rewrite omap_bind, (quiet_omap g m Hm).
  rewrite run_bind_unfold. destruct m as [calls [a|e]]; simpl in *.
  - by apply Hok.
  - apply Hfail.
Qed.

(** ** Checkpoints *)

Lemma detect_last_checkpoint_resumes training_args w checkpoint :
  do_train training_args = true ->
  os_path_isdir w (output_dir training_args) = true ->
  overwrite_output_dir training_args = false ->
  get_last_checkpoint w (output_dir training_args) = Some checkpoint ->
  resume_from_checkpoint training_args = None ->
  detect_last_checkpoint training_args w
  = ([Log INFO (CheckpointDetected checkpoint)], Ok (Some checkpoint)).
Proof.
  intros Htrain Hdir Hover Hlast Hresume. unfold detect_last_checkpoint.
  by rewrite Htrain, Hdir, Hover, Hlast, Hresume.
Qed.

Lemma training_resumes training_args checkpoint :
  do_train training_args = true ->
  resume_from_checkpoint training_args = None ->
  training training_args (Some checkpoint)
  = ([Train (Some checkpoint); SaveModel; LogMetrics "train";
      SaveMetrics "train"; SaveState], Ok ()).
Proof. intros Htrain Hresume. unfold training. by rewrite Htrain, Hresume. Qed.

(** One step through a part of the run that shows nothing. *)
Ltac observe_step Φ :=
  apply (observe_bind _ _ _ Φ); [quiet_tac | | intros ? ?].

(** C7. With training requested, an output directory that exists and no
    overwrite flag: when the directory holds files and no checkpoint, the
    run stops at once with a [ValueError]; when it holds a checkpoint and no
    checkpoint to resume from was given, the checkpoint is announced, and
    training, when the run gets to it, starts once, from that checkpoint. *)
Theorem output_directory_collision_or_resume
    (model_args : ModelArguments) (data_args : DataTrainingArguments)
    (training_args : TrainingArguments) (w : World) :
  do_train training_args = true ->
  os_path_isdir w (output_dir training_args) = true ->
  overwrite_output_dir training_args = false ->
  let m := main model_args data_args training_args w in
  (get_last_checkpoint w (output_dir training_args) = None ->
   os_listdir w (output_dir training_args) <> [] ->
   m = ([Log WARNING ProcessSummary; Log INFO TrainingParameters],
        Raise (ValueError
                 ("Output directory (" +:+ output_dir training_args
                  +:+ ") already exists and is not empty. "
                  +:+ "Use --overwrite_output_dir to overcome."))))
  /\ (forall checkpoint,
        get_last_checkpoint w (output_dir training_args) = Some checkpoint ->
        resume_from_checkpoint training_args = None ->
        detect_last_checkpoint training_args w
        = ([Log INFO (CheckpointDetected checkpoint)], Ok (Some checkpoint))
        /\ training training_args (Some checkpoint)
           = ([Train (Some checkpoint); SaveModel; LogMetrics "train";
               SaveMetrics "train"; SaveState], Ok ())
        /\ (trained_from m.1 = [] \/ trained_from m.1 = [Some checkpoint])
        /\ (m.2 = Ok () -> trained_from m.1 = [Some checkpoint])).
Proof.
  intros Htrain Hdir Hover m. split.
  - intros Hlast Hfiles. unfold m, main, detect_last_checkpoint.
    rewrite Htrain, Hdir, Hover, Hlast.
    destruct (os_listdir w (output_dir training_args)); [done|]. reflexivity.
  - intros checkpoint Hlast Hresume.
    pose proof (detect_last_checkpoint_resumes training_args w checkpoint
                  Htrain Hdir Hover Hlast Hresume) as Hdetect.
    pose proof (training_resumes training_args checkpoint Htrain Hresume)
      as Htraining.
    split; [exact Hdetect|]. split; [exact Htraining|].
    set (Φ := fun (l : list (option string)) (r : result ()) =>
                (l = [] \/ l = [Some checkpoint])
                /\ (r = Ok () -> l = [Some checkpoint])).
    assert (Hfail : forall e, Φ [] (Raise e)) by (by split; [left|]).
    change (Φ (omap train_call m.1) m.2).
    unfold m, main.
    do 2 (observe_step Φ; [exact Hfail|]).
    observe_step Φ; [exact Hfail|].
    match goal with
    | Hd : (detect_last_checkpoint _ _).2 = Ok _ |- _ =>
        rewrite Hdetect in Hd; injection Hd as <-
    end.
    do 3 (observe_step Φ; [exact Hfail|]). cbv zeta.
    do 13 (observe_step Φ; [exact Hfail|]).
    unfold Φ.
    rewrite omap_bind, Htraining. cbn [fst snd].
    match goal with
    | |- context [omap train_call (?rest).1] =>
        assert (omap train_call rest.1 = []) as ->
    end.
    { apply quiet_omap. quiet_tac. }
    split; [by right|done].
Qed.

Lemma output_directory_collision_or_resume_witness :
  trained_from
    (main Sample.model_args (Sample.data_args (Some "mnli") None None None)
       (Sample.training_args true true true None)
       (Sample.world Sample.mnli Sample.capital_label2id ["checkpoint-500"]
          (Some "out/checkpoint-500") [])).1
  = [Some "out/checkpoint-500"].
Proof.
  destruct (output_directory_collision_or_resume Sample.model_args
              (Sample.data_args (Some "mnli") None None None)
              (Sample.training_args true true true None)
              (Sample.world Sample.mnli Sample.capital_label2id
                 ["checkpoint-500"] (Some "out/checkpoint-500") []))
    as [_ Hresume].
  - reflexivity.
  - reflexivity.
  - reflexivity.
  - destruct (Hresume "out/checkpoint-500" eq_refl eq_refl)
      as (_ & _ & _ & Hcompleted).
    apply Hcompleted. vm_compute. reflexivity.
Defined.


(** ** Evaluation *)

Lemma select_eval_selected data_args training_args raw_datasets eval_dataset :
  do_eval training_args = true ->
  (select_eval data_args training_args raw_datasets).2 = Ok eval_dataset ->
  exists d selected,
    assoc (if bool_decide (task_name data_args = Some "mnli")
           then "validation_matched" else "validation") raw_datasets = Some d
    /\ match max_eval_samples data_args with
       | Some n => select_range n d
       | None => Ok d
       end = Ok selected
    /\ eval_dataset = Some selected.
Proof.
  intros Heval. unfold select_eval, getsplit, subscript, lift. rewrite Heval.
  destruct (negb (mem "validation" raw_datasets)
            && negb (mem "validation_matched" raw_datasets)); [simpl; intros Hno; discriminate Hno|].
  destruct (assoc (if bool_decide (task_name data_args = Some "mnli")
                   then "validation_matched" else "validation") raw_datasets)
    as [d|]; [|simpl; intros Hno; discriminate Hno].
  simpl. destruct (max_eval_samples data_args) as [n|]; simpl.
  - destruct (select_range n d) as [selected|] eqn:Hsel; simpl;
      intros Hok; [|discriminate Hok].
    injection Hok as <-. eauto.
  - intros Hok. injection Hok as <-. eauto.
Qed.

Lemma evaluation_mnli data_args training_args raw_datasets eval_dataset :
  do_eval training_args = true ->
  task_name data_args = Some "mnli" ->
  evaluation data_args training_args raw_datasets (Some eval_dataset)
  = match assoc "validation_mismatched" raw_datasets with
    | Some mismatched =>
        ([Log INFO EvaluateBanner; GetSplit "validation_mismatched";
          Evaluate eval_dataset; LogMetrics "eval"; SaveMetrics "eval";
          Evaluate mismatched; LogMetrics "eval"; SaveMetrics "eval"], Ok ())
    | None =>
        ([Log INFO EvaluateBanner; GetSplit "validation_mismatched"],
         Raise (KeyError (PStr "validation_mismatched")))
    end.
Proof.
  intros Heval Htask. unfold evaluation, getsplit, subscript.
  rewrite Heval, Htask.
  by destruct (assoc "validation_mismatched" raw_datasets).
Qed.

Lemma evaluation_other data_args training_args raw_datasets eval_dataset :
  do_eval training_args = true ->
  task_name data_args <> Some "mnli" ->
  evaluation data_args training_args raw_datasets (Some eval_dataset)
  = ([Log INFO EvaluateBanner; Evaluate eval_dataset; LogMetrics "eval";
      SaveMetrics "eval"], Ok ()).
Proof.
  intros Heval Htask. unfold evaluation. rewrite Heval.
  by rewrite (bool_decide_eq_false_2 _ Htask).
Qed.

Lemma quiet_not_elem_of_omap {A X} (g : event -> option X) (m : run A) x :
  quiet (fun e => g e <> Some x) m -> x ∉ omap g m.1.
Proof.
  unfold quiet. intros Hm Hx.
  apply list_elem_of_omap in Hx as (e & He & Hg).
  rewrite Forall_forall in Hm. by apply (Hm e He).
Qed.

(** With the task [mnli], the run never subscripts [raw_datasets] with
    [validation]. *)
Lemma main_mnli_no_validation_access model_args data_args training_args w :
  task_name data_args = Some "mnli" ->
  quiet (fun e => split_access e <> Some "validation")
    (main model_args data_args training_args w).
Proof.
  intros Htask. unfold main. autounfold with phases. rewrite !Htask.
  rewrite !(bool_decide_eq_true_2 (Some "mnli" = Some "mnli")) by done.
  quiet_tac.
Qed.

(** C3. With evaluation requested: for the task [mnli] the run never
    subscripts the datasets with [validation], and it evaluates either not
    at all (it stopped before) or twice, first on the processed
    [validation_matched] split (truncated to [max_eval_samples] when that is
    set), then on the processed [validation_mismatched] split; a run that
    completes evaluates twice.  For every other task the run evaluates either
    not at all or once, on the processed [validation] split, and once when it
    completes. *)
Theorem evaluation_runs_on_validation_splits
    (model_args : ModelArguments) (data_args : DataTrainingArguments)
    (training_args : TrainingArguments) (w : World) :
  do_eval training_args = true ->
  let m := main model_args data_args training_args w in
  let truncated (d : Dataset) :=
    match max_eval_samples data_args with
    | Some n => select_range n d
    | None => Ok d
    end in
  let twice (l : list Dataset) :=
    exists loaded function processed matched selected mismatched,
      (get_datasets data_args training_args w).2 = Ok loaded
      /\ (map_datasets data_args function loaded).2 = Ok processed
      /\ assoc "validation_matched" processed = Some matched
      /\ truncated matched = Ok selected
      /\ assoc "validation_mismatched" processed = Some mismatched
      /\ l = [selected; mismatched] in
  let once (l : list Dataset) :=
    exists loaded function processed validation selected,
      (get_datasets data_args training_args w).2 = Ok loaded
      /\ (map_datasets data_args function loaded).2 = Ok processed
      /\ assoc "validation" processed = Some validation
      /\ truncated validation = Ok selected
      /\ l = [selected] in
  (task_name data_args = Some "mnli" ->
   ("validation" ∉ split_accesses m.1)
   /\ (evaluated m.1 = [] \/ twice (evaluated m.1))
   /\ (m.2 = Ok () -> twice (evaluated m.1)))
  /\ (task_name data_args <> Some "mnli" ->
      (evaluated m.1 = [] \/ once (evaluated m.1))
      /\ (m.2 = Ok () -> once (evaluated m.1))).
Proof.
  intros Heval m truncated twice once.
  set (Φ := fun (l : list Dataset) (r : result ()) =>
              (task_name data_args = Some "mnli" ->
               (l = [] \/ twice l) /\ (r = Ok () -> twice l))
              /\ (task_name data_args <> Some "mnli" ->
                  (l = [] \/ once l) /\ (r = Ok () -> once l))).
  assert (Hfail : forall e, Φ [] (Raise e)).
  { intros e. split; intros _; (split; [by left|done]). }
  assert (HΦ : Φ (omap evaluate_call m.1) m.2).
  { unfold m, main.
    do 6 (observe_step Φ; [exact Hfail|]). cbv zeta.
    do 14 (observe_step Φ; [exact Hfail|]).
    match goal with
    | Hloaded : (get_datasets _ _ _).2 = Ok ?loaded,
      Hmapped : (map_datasets _ ?function ?loaded).2 = Ok ?processed,
      Hselected : (select_eval _ _ ?processed).2 = Ok ?eval_dataset |- _ =>
        destruct (select_eval_selected _ _ _ _ Heval Hselected)
          as (d & selected & Hd & Htruncated & ->);
        match goal with
        | |- context [evaluation _ _ _ _ ≫= ?rest] =>
            assert (Hrest : forall u, omap evaluate_call (rest u).1 = [])
              by (intros u; apply quiet_omap; quiet_tac);
            set (k := rest) in *; clearbody k
        end;
        unfold Φ; rewrite omap_bind, (run_bind_unfold _ k); split; intros Htask
    end.
    - rewrite (evaluation_mnli _ _ _ _ Heval Htask).
      rewrite Htask, bool_decide_eq_true_2 in Hd by done.
      destruct (assoc "validation_mismatched" _) as [mismatched|] eqn:Hmm;
        cbn [fst snd omap list_omap evaluate_call app].
      + rewrite Hrest.
        assert (twice [selected; mismatched]) by (unfold twice; eauto 12).
        split; [by right|done].
      + split; [by left|]. by destruct (_ : run ()).
    - rewrite (evaluation_other _ _ _ _ Heval Htask).
      rewrite bool_decide_eq_false_2 in Hd by done.
      cbn [fst snd omap list_omap evaluate_call app].
      rewrite Hrest.
      assert (once [selected]) by (unfold once; eauto 12).
      split; [by right|done]. }
  destruct HΦ as [Hmnli Hother]. split.
  - intros Htask. split; [|by apply Hmnli].
    apply (quiet_not_elem_of_omap split_access).
    by apply main_mnli_no_validation_access.
  - exact Hother.
Qed.

Lemma evaluation_runs_on_validation_splits_witness :
  ("validation"
   ∉ split_accesses
       (main Sample.model_args (Sample.data_args (Some "mnli") None None None)
          (Sample.training_args false true false None)
          (Sample.world Sample.mnli Sample.capital_label2id [] None [])).1)
  /\ length
       (evaluated
          (main Sample.model_args
             (Sample.data_args (Some "mnli") None None None)
             (Sample.training_args false true false None)
             (Sample.world Sample.mnli Sample.capital_label2id [] None [])).1)
     = 2%nat.
Proof.
  destruct (evaluation_runs_on_validation_splits Sample.model_args
              (Sample.data_args (Some "mnli") None None None)
              (Sample.training_args false true false None)
              (Sample.world Sample.mnli Sample.capital_label2id [] None []))
    as [Hmnli _].
  - reflexivity.
  - destruct (Hmnli eq_refl) as (Hno & _ & Hcompleted).
    split; [exact Hno|].
    destruct Hcompleted as (? & ? & ? & ? & ? & ? & _ & _ & _ & _ & _ & ->).
    + vm_compute. reflexivity.
    + reflexivity.
Defined.

(** ** Formatted floats *)


Lemma string_length_append (a b : string) :
  String.length (a +:+ b) = (String.length a + String.length b)%nat.
Proof. induction a as [|c a IH]; simpl; [done|]. by rewrite IH. Qed.

Lemma all_digits_append (a b : string) :
  all_digits (a +:+ b) = all_digits a && all_digits b.
Proof.
  induction a as [|c a IH]; simpl; [done|]. by rewrite IH, andb_assoc.
Qed.













(** ** Labels and prediction files *)







(** * Further properties *)

(** ** Strings *)

Lemma ascii_lower_idemp (c : ascii) : ascii_lower (ascii_lower c) = ascii_lower c.
Proof. by destruct c as [[] [] [] [] [] [] [] []]. Qed.

Lemma lower_idemp (s : string) : lower (lower s) = lower s.
Proof.
  induction s as [|c s IH]; [done|]. simpl. by rewrite ascii_lower_idemp, IH.
Qed.

Lemma ascii_upper_lower (c : ascii) : ascii_upper (ascii_lower c) = ascii_upper c.
Proof. by destruct c as [[] [] [] [] [] [] [] []]. Qed.

Lemma upper_lower (s : string) : upper (lower s) = upper s.
Proof.
  induction s as [|c s IH]; [done|]. simpl. by rewrite ascii_upper_lower, IH.
Qed.

Lemma concat_cons_head (sep : string) (c : ascii) (w : string) (ws : list string) :
  String.concat sep (String c w :: ws) = String c (String.concat sep (w :: ws)).
Proof. by destruct ws. Qed.

Lemma concat_cons_empty (sep : ascii) (w : string) (ws : list string) :
  String.concat (String sep "") ("" :: w :: ws)
  = String sep (String.concat (String sep "") (w :: ws)).
Proof. reflexivity. Qed.

(** [".".join(s.split("."))] is [s]. *)
Lemma join_split (sep : ascii) (s : string) :
  join (String sep "") (split sep s) = s.
Proof.
  unfold join. induction s as [|c s IH]; [done|]. cbn [split].
  pose proof (split_nonempty sep s) as Hne.
  destruct (Ascii.eqb c sep) eqn:Hc.
  - apply Ascii.eqb_eq in Hc as ->.
    destruct (split sep s) as [|w ws]; [done|].
    by rewrite concat_cons_empty, IH.
  - destruct (split sep s) as [|w ws]; [done|].
    by rewrite concat_cons_head, IH.
Qed.

(** [(p + sep + e).split(sep)] is [p.split(sep) + e.split(sep)]. *)
Lemma split_app_sep (sep : ascii) (p e : string) :
  split sep (p +:+ String sep e) = split sep p ++ split sep e.
Proof.
  induction p as [|c p IH].
  - change ("" +:+ String sep e) with (String sep e). cbn [split].
    by rewrite Ascii.eqb_refl.
  - change (String c p +:+ String sep e) with (String c (p +:+ String sep e)).
    cbn [split]. rewrite IH.
    pose proof (split_nonempty sep p) as Hne.
    destruct (Ascii.eqb c sep); [done|].
    by destruct (split sep p).
Qed.

Lemma string_append_assoc (a b c : string) : (a +:+ b) +:+ c = a +:+ b +:+ c.
Proof.
  induction a as [|x a IH]; [reflexivity|].
  change (String x ((a +:+ b) +:+ c) = String x (a +:+ b +:+ c)). by rewrite IH.
Qed.

Lemma concat_snoc (sep : string) (ws : list string) (e : string) :
  ws <> [] ->
  String.concat sep (ws ++ [e]) = String.concat sep ws +:+ sep +:+ e.
Proof.
  induction ws as [|w ws IH]; [done|]. intros _.
  destruct ws as [|w' ws]; [done|].
  change ((w :: w' :: ws) ++ [e]) with (w :: ((w' :: ws) ++ [e])).
  change (String.concat sep (w :: (w' :: ws) ++ [e]))
    with (w +:+ sep +:+ String.concat sep ((w' :: ws) ++ [e])).
  rewrite IH by done.
  change (String.concat sep (w :: w' :: ws))
    with (w +:+ sep +:+ String.concat sep (w' :: ws)).
  by rewrite !string_append_assoc.
Qed.

(** A path is its extension, or ends with a dot and its extension. *)
Lemma file_extension_suffix (path ext : string) :
  file_extension path = Ok ext ->
  path = ext \/ exists p, path = p +:+ String "." ext.
Proof.
  unfold file_extension, getitem_last.
  destruct (last (split "." path)) as [e|] eqn:Hlast; [|done].
  intros [= ->]. apply last_Some in Hlast as [ws Hws].
  pose proof (join_split "." path) as Hjoin. unfold join in Hjoin.
  rewrite Hws in Hjoin. destruct ws as [|w ws].
  - left. by rewrite <- Hjoin.
  - right. rewrite concat_snoc in Hjoin by done. eauto.
Qed.

(** The extension of a path that ends with a dot and a word without dots
    is that word. *)
Lemma file_extension_app (p ext : string) :
  split "." ext = [ext] ->
  file_extension (p +:+ String "." ext) = Ok ext.
Proof.
  intros Hext. unfold file_extension, getitem_last.
  by rewrite split_app_sep, Hext, last_snoc.
Qed.

Lemma substring_0_length (x : string) : String.substring 0 (String.length x) x = x.
Proof. induction x as [|c x IH]; [done|]. simpl. by rewrite IH. Qed.

Lemma substring_app_skip (p x : string) (m : nat) :
  String.substring (String.length p) m (p +:+ x) = String.substring 0 m x.
Proof. induction p as [|c p IH]; [done|]. simpl. apply IH. Qed.

Lemma substring_split (n : nat) (s : string) :
  (n <= String.length s)%nat ->
  s = String.substring 0 n s +:+ String.substring n (String.length s - n) s.
Proof.
  revert s. induction n as [|n IH]; intros s Hn.
  - rewrite Nat.sub_0_r, substring_0_length. by destruct s.
  - destruct s as [|c s]; [simpl in Hn; lia|].
    simpl in Hn. simpl.
    change (String c s
            = String c (String.substring 0 n s
                        +:+ String.substring n (String.length s - n) s)).
    f_equal. apply IH. lia.
Qed.

(** [(p + x).endswith(x)] *)
Lemma endswith_app (p x : string) : endswith (p +:+ x) x = true.
Proof.
  unfold endswith. rewrite string_length_append.
  replace (String.length p + String.length x - String.length x)%nat
    with (String.length p) by lia.
  rewrite substring_app_skip, substring_0_length, String.eqb_refl.
  rewrite andb_true_r. apply Nat.leb_le. lia.
Qed.

(** A string that ends with [x] is some string followed by [x]. *)
Lemma endswith_inv (s x : string) :
  endswith s x = true -> exists p, s = p +:+ x.
Proof.
  unfold endswith. intros [Hle Heq]%andb_true_iff.
  apply Nat.leb_le in Hle. apply String.eqb_eq in Heq.
  pose proof (substring_split (String.length s - String.length x) s) as Hs.
  replace (String.length s - (String.length s - String.length x))%nat
    with (String.length x) in Hs by lia.
  rewrite Heq in Hs. eexists. apply Hs. lia.
Qed.

(** ** Runs *)

Lemma run_bind_snd_ok {A B} (m : run A) (f : A -> run B) (b : B) :
  (m ≫= f).2 = Ok b -> exists a, m.2 = Ok a /\ (f a).2 = Ok b.
Proof.
  rewrite run_bind_unfold. destruct m as [calls [a|e]]; cbn [fst snd].
  - eauto.
  - intros Hno. discriminate Hno.
Qed.

Lemma run_bind_lift_ok {A B} (a : A) (f : A -> run B) : lift (Ok a) ≫= f = f a.
Proof. cbn. by destruct (f a). Qed.

Lemma run_bind_ret {A B} (a : A) (f : A -> run B) : mret a ≫= f = f a.
Proof. cbn. by destruct (f a). Qed.

(** ** Validated arguments *)

Lemma task_to_keys_lookup (t : string) :
  t ∈ keys task_to_keys -> exists ks, assoc t task_to_keys = Some ks.
Proof.
  unfold keys, task_to_keys. cbn [fmap list_fmap fst].
  rewrite !elem_of_cons, elem_of_nil.
  intros [->|[->|[->|[->|[->|[->|[->|[->|[->|[]]]]]]]]]]; by eexists.
Qed.

(** X1. The task name that [__post_init__] leaves in the arguments is the
    lower-cased name that was given, and one of the nine keys of
    [task_to_keys]: validating the validated arguments again changes
    nothing, and the lookup of the sentence keys of the task does not
    raise. *)
Theorem validated_task_is_known
    (self self' : DataTrainingArguments) (t : string) :
  post_init self = Ok self' ->
  task_name self' = Some t ->
  (exists given, task_name self = Some given /\ t = lower given)
  /\ lower t = t
  /\ t ∈ keys task_to_keys
  /\ post_init self' = Ok self'
  /\ forall raw_datasets,
       exists ks, assoc t task_to_keys = Some ks
                  /\ get_sentence_keys self' raw_datasets = ([], Ok ks).
Proof.
  unfold post_init at 1.
  destruct (task_name self) as [given|] eqn:Hgiven.
  - cbv zeta. destruct (mem (lower given) task_to_keys) eqn:Hmem; [|done].
    intros [= <-]. cbn [task_name]. intros [= <-].
    assert (Hin : lower given ∈ keys task_to_keys)
      by (unfold mem in Hmem; by apply bool_decide_eq_true in Hmem).
    split; [by exists given|]. split; [apply lower_idemp|].
    split; [exact Hin|]. split.
    + unfold post_init. cbn [task_name]. cbv zeta.
      rewrite lower_idemp, Hmem. reflexivity.
    + intros raw. destruct (task_to_keys_lookup _ Hin) as [ks Hks].
      exists ks. split; [exact Hks|].
      unfold get_sentence_keys, subscript. cbn [task_name]. by rewrite Hks.
  - intros Hok Htask. exfalso.
    assert (Hsame : self' = self); [|subst self'; congruence].
    destruct (dataset_name self); [congruence|].
    destruct (train_file self), (validation_file self);
      try discriminate Hok.
    apply result_bind_ok in Hok as (train_extension & _ & Hok).
    destruct (negb _); [discriminate Hok|].
    apply result_bind_ok in Hok as (validation_extension & _ & Hok).
    destruct (negb _); [discriminate Hok|]. congruence.
Qed.

Lemma validated_task_is_known_witness :
  (exists given,
     task_name (Sample.data_args (Some "MNLI") None None None) = Some given
     /\ "mnli" = lower given)
  /\ lower "mnli" = "mnli"
  /\ "mnli" ∈ keys task_to_keys
  /\ post_init (Sample.data_args (Some "mnli") None None None)
     = Ok (Sample.data_args (Some "mnli") None None None)
  /\ forall raw_datasets,
       exists ks,
         assoc "mnli" task_to_keys = Some ks
         /\ get_sentence_keys (Sample.data_args (Some "mnli") None None None)
              raw_datasets
            = ([], Ok ks).
Proof.
  apply (validated_task_is_known
           (Sample.data_args (Some "MNLI") None None None)
           (Sample.data_args (Some "mnli") None None None) "mnli");
    reflexivity.
Defined.

(** ** Local files *)

(** What [__post_init__] has checked when it accepts local files. *)
Lemma post_init_local_files (self self' : DataTrainingArguments) :
  task_name self = None ->
  dataset_name self = None ->
  post_init self = Ok self' ->
  self' = self
  /\ exists train validation ext,
       train_file self = Some train
       /\ validation_file self = Some validation
       /\ file_extension train = Ok ext
       /\ file_extension validation = Ok ext
       /\ ext ∈ ["csv"; "json"].
Proof.
  intros Htask Hname. unfold post_init. rewrite Htask, Hname.
  destruct (train_file self) as [train|]; [|intros Hok; discriminate Hok].
  destruct (validation_file self) as [validation|];
    [|intros Hok; discriminate Hok].
  intros Hok. apply result_bind_ok in Hok as (ext & Htrain & Hok).
  destruct (bool_decide (ext ∈ ["csv"; "json"])) eqn:Hext;
    [|discriminate Hok].
  apply bool_decide_eq_true in Hext. cbn [negb] in Hok.
  apply result_bind_ok in Hok as (ext' & Hvalidation & Hok).
  destruct (bool_decide (ext' = ext)) eqn:Hsame; [|discriminate Hok].
  apply bool_decide_eq_true in Hsame as ->. cbn [negb] in Hok.
  split; [congruence|]. by exists train, validation, ext.
Qed.

(** The loader that [endswith] picks is the one of the extension, unless
    the whole name of the file is [csv]. *)
Lemma loader_of_extension (train ext : string) :
  file_extension train = Ok ext ->
  ext ∈ ["csv"; "json"] ->
  (if endswith train ".csv" then "csv" else "json")
  = if bool_decide (train = "csv") then "json" else ext.
Proof.
  intros Hext Hin. destruct (endswith train ".csv") eqn:Hends.
  - rewrite bool_decide_eq_false_2 by (by intros ->).
    apply endswith_inv in Hends as [p ->].
    rewrite (file_extension_app p "csv") in Hext by done. congruence.
  - case_bool_decide as Hcsv; [done|].
    apply file_extension_suffix in Hext as Hsuffix.
    apply elem_of_cons in Hin as [->|Hin].
    + destruct Hsuffix as [->|[p ->]]; [done|].
      by rewrite (endswith_app p ".csv") in Hends.
    + by apply list_elem_of_singleton in Hin as ->.
Qed.

(** X2. For local files that [__post_init__] has accepted, the train and
    the validation file have the same extension, [csv] or [json], and every
    call of [load_dataset] is for the loader of that extension, with the
    train and the validation file among its data files; only a train file
    whose whole name is [csv], which has no dot, is loaded as json. *)
Theorem local_files_loader_follows_extension
    (data_args data_args' : DataTrainingArguments)
    (training_args : TrainingArguments) (w : World) :
  task_name data_args = None ->
  dataset_name data_args = None ->
  post_init data_args = Ok data_args' ->
  exists train validation ext,
    train_file data_args' = Some train
    /\ validation_file data_args' = Some validation
    /\ file_extension train = Ok ext
    /\ file_extension validation = Ok ext
    /\ ext ∈ ["csv"; "json"]
    /\ quiet (fun e =>
                match e with
                | LoadDataset path name data_files =>
                    path = (if bool_decide (train = "csv") then "json" else ext)
                    /\ name = None
                    /\ assoc "train" data_files = Some (Some train)
                    /\ assoc "validation" data_files = Some (Some validation)
                | _ => True
                end)
         (get_datasets data_args' training_args w).
Proof.
  intros Htask Hname Hok.
  destruct (post_init_local_files _ _ Htask Hname Hok)
    as (-> & train & validation & ext & Htrain & Hvalidation & Hext & Hext'
        & Hin).
  exists train, validation, ext. do 5 (split; [done|]).
  pose proof (loader_of_extension train ext Hext Hin) as Hloader.
  unfold get_datasets. rewrite Htask, Hname, Htrain, Hvalidation. cbv zeta.
  apply quiet_bind.
  { quiet_tac. }
  intros data_files Hfiles.
  assert (Hdata : assoc "train" data_files = Some (Some train)
                  /\ assoc "validation" data_files = Some (Some validation)).
  { destruct (do_predict training_args); [|by injection Hfiles as <-].
    destruct (test_file data_args) as [test|]; [|discriminate Hfiles].
    apply run_bind_snd_ok in Hfiles as (train_extension & _ & Hfiles).
    apply run_bind_snd_ok in Hfiles as (test_extension & _ & Hfiles).
    destruct (negb _); [discriminate Hfiles|]. by injection Hfiles as <-. }
  apply quiet_bind; [quiet_tac; by simpl|intros _ _].
  apply quiet_bind; [quiet_tac|intros train' Htrain'].
  injection Htrain' as <-.
  destruct (endswith train ".csv"); quiet_tac; simpl; by rewrite <- Hloader.
Qed.

Lemma local_files_loader_follows_extension_witness :
  exists train validation ext,
    train_file (Sample.data_args None (Some "data/train.csv")
                  (Some "data/dev.csv") None) = Some train
    /\ validation_file (Sample.data_args None (Some "data/train.csv")
                          (Some "data/dev.csv") None) = Some validation
    /\ file_extension train = Ok ext
    /\ file_extension validation = Ok ext
    /\ ext ∈ ["csv"; "json"]
    /\ quiet (fun e =>
                match e with
                | LoadDataset path name data_files =>
                    path = (if bool_decide (train = "csv") then "json" else ext)
                    /\ name = None
                    /\ assoc "train" data_files = Some (Some train)
                    /\ assoc "validation" data_files = Some (Some validation)
                | _ => True
                end)
         (get_datasets
            (Sample.data_args None (Some "data/train.csv")
               (Some "data/dev.csv") None)
            (Sample.training_args true true false None)
            (Sample.world Sample.no_test [] [] None [])).
Proof.
  apply (local_files_loader_follows_extension
           (Sample.data_args None (Some "data/train.csv")
              (Some "data/dev.csv") None));
    reflexivity.
Defined.

(** X3. With local files, prediction requested and no test file, or a test
    file whose extension is not that of the train file, the script raises
    before it loads anything: [ValueError] without a test file,
    [AssertionError] for the other extension. *)
Theorem local_prediction_needs_test_file
    (model_args : ModelArguments) (data_args : DataTrainingArguments)
    (training_args : TrainingArguments) (w : World) (train : string) :
  task_name data_args = None ->
  dataset_name data_args = None ->
  train_file data_args = Some train ->
  do_predict training_args = true ->
  (forall test, test_file data_args = Some test ->
                file_extension test <> file_extension train) ->
  get_datasets data_args training_args w
  = ([], Raise
           match test_file data_args with
           | None =>
               ValueError "Need either a GLUE task or a test file for `do_predict`."
           | Some _ =>
               AssertionError
                 "`test_file` should have the same extension (csv or json) as `train_file`."
           end)
  /\ aborts (fun e => match e with LoadDataset _ _ _ => False | _ => True end)
       (main model_args data_args training_args w).
Proof.
  intros Htask Hname Htrain Hpredict Htest.
  assert (Hload : get_datasets data_args training_args w
    = ([], Raise
             match test_file data_args with
             | None =>
                 ValueError "Need either a GLUE task or a test file for `do_predict`."
             | Some _ =>
                 AssertionError
                   "`test_file` should have the same extension (csv or json) as `train_file`."
             end)).
  { unfold get_datasets. rewrite Htask, Hname, Htrain, Hpredict. cbv zeta.
    destruct (test_file data_args) as [test|]; [|reflexivity].
    specialize (Htest test eq_refl).
    destruct (file_extension_total train) as [train_extension Htrain_ext].
    destruct (file_extension_total test) as [test_extension Htest_ext].
    cbn [deref mbind result_bind].
    rewrite Htrain_ext, run_bind_lift_ok, Htest_ext, run_bind_lift_ok.
    rewrite bool_decide_eq_false_2 by congruence. reflexivity. }
  split; [exact Hload|]. unfold main.
  do 4 (apply aborts_bind; [quiet_tac; by simpl|intros ? _]).
  apply aborts_bind_l. by eapply aborts_eq.
Qed.

Lemma local_prediction_needs_test_file_witness :
  get_datasets
    (Sample.data_args None (Some "train.csv") (Some "dev.csv") (Some "test.json"))
    (Sample.training_args false false true None)
    (Sample.world Sample.rte [] [] None [])
  = ([], Raise
           (AssertionError
              "`test_file` should have the same extension (csv or json) as `train_file`."))
  /\ aborts (fun e => match e with LoadDataset _ _ _ => False | _ => True end)
       (main Sample.model_args
          (Sample.data_args None (Some "train.csv") (Some "dev.csv")
             (Some "test.json"))
          (Sample.training_args false false true None)
          (Sample.world Sample.rte [] [] None [])).
Proof.
  apply (local_prediction_needs_test_file Sample.model_args
           (Sample.data_args None (Some "train.csv") (Some "dev.csv")
              (Some "test.json"))
           (Sample.training_args false false true None)
           (Sample.world Sample.rte [] [] None []) "train.csv");
    try reflexivity.
  intros test [= <-]. vm_compute. intros Heq. discriminate Heq.
Defined.

(** ** The label vocabulary of local files *)

Lemma getsplit_ok raw_datasets key d :
  (getsplit raw_datasets key).2 = Ok d -> assoc key raw_datasets = Some d.
Proof.
  unfold getsplit, subscript.
  destruct (assoc key raw_datasets) as [d'|]; cbn.
  - by intros [= ->].
  - intros Hno. discriminate Hno.
Qed.

Lemma sorted_ok (l l' : list pyval) :
  sorted l = Ok l' -> l' = merge_sort pyval_le l.
Proof.
  unfold sorted. destruct (_ || _); [by intros [= <-]|].
  intros Hno. discriminate Hno.
Qed.

Lemma unique_NoDup name d values : unique name d = Ok values -> NoDup values.
Proof.
  unfold unique. destruct (assoc name (columns d)) as [[vs|[|x xs]]|];
    intros Hok; try discriminate Hok; injection Hok as <-.
  - apply NoDup_remove_dups.
  - constructor.
Qed.

(** The labels of a classification on local files, as [get_labels] returns
    them. *)
Lemma get_labels_local data_args raw_datasets label_list n :
  task_name data_args = None ->
  (get_labels data_args raw_datasets).2 = Ok (false, label_list, n) ->
  exists train values,
    assoc "train" raw_datasets = Some train
    /\ unique "label" train = Ok values
    /\ label_list = Some (merge_sort pyval_le values)
    /\ n = length (merge_sort pyval_le values).
Proof.
  intros Htask. unfold get_labels. rewrite Htask. intros Hok.
  apply run_bind_snd_ok in Hok as (train & Htrain%getsplit_ok & Hok).
  apply run_bind_snd_ok in Hok as (label & _ & Hok). cbv zeta in Hok.
  destruct (bool_decide (feature_dtype label ∈ ["float32"; "float64"]));
    [discriminate Hok|].
  apply run_bind_snd_ok in Hok as (values & Hvalues & Hok).
  apply run_bind_snd_ok in Hok as (sorted_values & Hsorted & Hok).
  cbn [lift snd] in Hvalues, Hsorted. apply sorted_ok in Hsorted as ->.
  injection Hok as <- <-. by exists train, values.
Qed.

Lemma dataset_order_items_elem_of (label_list : list pyval) (v : pyval) (i : Z) :
  (v, i) ∈ dataset_order_items label_list
  <-> exists k, label_list !! k = Some v /\ i = Z.of_nat k.
Proof.
  unfold dataset_order_items, enumerate. rewrite list_elem_of_fmap. split.
  - intros ([k v'] & [= -> ->] & Hin).
    apply elem_of_lookup_imap in Hin as (k' & v'' & [= <- <-] & Hk). eauto.
  - intros (k & Hk & ->). exists (k, v). split; [done|].
    apply elem_of_lookup_imap. eauto.
Qed.

Lemma dataset_order_items_keys (label_list : list pyval) :
  (dataset_order_items label_list).*1 = label_list.
Proof.
  unfold dataset_order_items, enumerate. apply list_eq. intros i.
  rewrite !list_lookup_fmap, list_lookup_imap.
  by destruct (label_list !! i).
Qed.

Lemma dataset_order_items_values (label_list : list pyval) :
  (dataset_order_items label_list).*2
  = Z.of_nat <$> seq 0 (length label_list).
Proof.
  unfold dataset_order_items, enumerate. apply list_eq. intros i.
  rewrite !list_lookup_fmap, list_lookup_imap.
  destruct (label_list !! i) as [v|] eqn:Hi; cbn.
  - apply lookup_lt_Some in Hi. by rewrite lookup_seq_lt.
  - apply lookup_ge_None in Hi. by rewrite lookup_seq_ge.
Qed.

(** The dict of the items with keys and values exchanged is the inverse
    mapping, when no key and no value occurs twice. *)
Lemma dict_of_items_inverse `{Countable K} `{Countable V} (l : list (K * V)) k v :
  NoDup l.*1 -> NoDup l.*2 ->
  dict_of_items l !! k = Some v
  <-> dict_of_items ((fun kv => (kv.2, kv.1)) <$> l) !! v = Some k.
Proof.
  intros Hkeys Hvalues.
  assert (Hswap : ((fun kv : K * V => (kv.2, kv.1)) <$> l).*1 = l.*2)
    by (rewrite <- list_fmap_compose; by apply list_fmap_ext).
  assert (Hin : (k, v) ∈ l <-> (v, k) ∈ (fun kv : K * V => (kv.2, kv.1)) <$> l).
  { rewrite list_elem_of_fmap. split.
    - intros Hin. by exists (k, v).
    - by intros ([k' v'] & [= -> ->] & Hin). }
  split; intros Hlookup%dict_of_items_lookup_Some.
  - apply dict_of_items_lookup_NoDup; [by rewrite Hswap|by apply Hin].
  - apply dict_of_items_lookup_NoDup; [done|by apply Hin].
Qed.

(** X4. For a classification on local files, the label list is the sorted
    list of the distinct labels of the train split, the number of labels is
    its length, and [label_to_id] gives every label its position in that
    list; the [id2label] that is written into the config is the inverse of
    its [label2id]. *)
Theorem local_labels_are_sorted_ranks
    (data_args : DataTrainingArguments) (w : World) (raw_datasets : DatasetDict)
    (label_list : option (list pyval)) (num_labels : nat)
    (pretrained : list (string * Z)) (config : Config) :
  task_name data_args = None ->
  (get_labels data_args raw_datasets).2 = Ok (false, label_list, num_labels) ->
  exists train values labels,
    assoc "train" raw_datasets = Some train
    /\ unique "label" train = Ok values
    /\ label_list = Some labels
    /\ labels ≡ₚ values
    /\ NoDup labels
    /\ StronglySorted pyval_le labels
    /\ num_labels = length labels
    /\ reconcile_labels data_args w pretrained false label_list num_labels
       = ([], Ok (Some (dataset_order_items labels)))
    /\ (forall v i,
          dict_of_items (dataset_order_items labels) !! v = Some i
          <-> exists k, labels !! k = Some v /\ i = Z.of_nat k)
    /\ (forall v i,
          label2id (update_config config (Some (dataset_order_items labels))) !! v
          = Some i
          <-> id2label (update_config config (Some (dataset_order_items labels)))
              !! i = Some v).
Proof.
  intros Htask Hlabels.
  destruct (get_labels_local _ _ _ _ Htask Hlabels)
    as (train & values & Htrain & Hvalues & -> & ->).
  set (labels := merge_sort pyval_le values).
  assert (Hperm : labels ≡ₚ values) by apply merge_sort_Permutation.
  assert (Hnodup : NoDup labels).
  { rewrite Hperm. by eapply unique_NoDup. }
  assert (Hkeys : NoDup (dataset_order_items labels).*1)
    by (by rewrite dataset_order_items_keys).
  assert (Hids : NoDup (dataset_order_items labels).*2).
  { rewrite dataset_order_items_values.
    apply (NoDup_fmap_2 _), NoDup_seq. }
  exists train, values, labels. do 5 (split; [done|]).
  split; [apply StronglySorted_merge_sort; apply _|]. split; [done|].
  split; [|split].
  - unfold reconcile_labels. rewrite Htask.
    rewrite (bool_decide_eq_false_2 (None <> None)) by (by intros []).
    rewrite andb_false_r. by rewrite bool_decide_eq_true_2.
  - intros v i. rewrite <- dataset_order_items_elem_of. split.
    + apply dict_of_items_lookup_Some.
    + by apply dict_of_items_lookup_NoDup.
  - intros v i. cbn [update_config label2id id2label].
    by apply dict_of_items_inverse.
Qed.

Lemma local_labels_are_sorted_ranks_witness :
  exists train values labels,
    assoc "train" Sample.no_test = Some train
    /\ unique "label" train = Ok values
    /\ Some [PInt 0; PInt 1] = Some labels
    /\ labels ≡ₚ values
    /\ NoDup labels
    /\ StronglySorted pyval_le labels
    /\ 2%nat = length labels
    /\ reconcile_labels
         (Sample.data_args None (Some "train.csv") (Some "dev.csv") None)
         (Sample.world Sample.no_test [] [] None []) []
         false (Some [PInt 0; PInt 1]) 2
       = ([], Ok (Some (dataset_order_items labels)))
    /\ (forall v i,
          dict_of_items (dataset_order_items labels) !! v = Some i
          <-> exists k, labels !! k = Some v /\ i = Z.of_nat k)
    /\ (forall v i,
          label2id
            (update_config {| label2id := ∅; id2label := ∅ |}
               (Some (dataset_order_items labels))) !! v
          = Some i
          <-> id2label
                (update_config {| label2id := ∅; id2label := ∅ |}
                   (Some (dataset_order_items labels)))
              !! i = Some v).
Proof.
  apply (local_labels_are_sorted_ranks
           (Sample.data_args None (Some "train.csv") (Some "dev.csv") None)
           (Sample.world Sample.no_test [] [] None []) Sample.no_test
           (Some [PInt 0; PInt 1]) 2 [] {| label2id := ∅; id2label := ∅ |});
    reflexivity.
Defined.

(** ** [preprocess_function]: errors and what is left alone *)

Lemma comprehension_first_raise {A B} (f : A -> result B) (pre rest : list A) x e :
  (forall y, y ∈ pre -> is_ok (f y) = true) ->
  f x = Raise e ->
  comprehension f (pre ++ x :: rest) = Raise e.
Proof.
  intros Hpre Hx. induction pre as [|y pre IH]; simpl.
  - by rewrite Hx.
  - pose proof (Hpre y ltac:(left)) as Hy.
    destruct (f y) as [b|]; [|discriminate Hy]. simpl.
    rewrite IH; [done|]. intros z Hz. apply Hpre. by right.
Qed.

(** X5. With a label vocabulary, the first label of the batch that is not
    [-1] and not a key of the vocabulary makes [preprocess_function] raise
    [KeyError] for that label: a split with a label that the vocabulary
    lacks cannot be preprocessed. *)
Theorem preprocess_function_unknown_label
    (tokenizer : list column -> bool -> Z -> gmap string column)
    (sentence1_key : string) (sentence2_key : option string)
    (padding : bool) (max_seq_length : Z)
    (label_to_id : gmap pyval Z) (examples : gmap string column)
    (known rest : list pyval) (l : pyval) :
  is_Some (examples !! sentence1_key) ->
  (forall k, sentence2_key = Some k -> is_Some (examples !! k)) ->
  examples !! "label" = Some (Cells (known ++ l :: rest)) ->
  (forall x, x ∈ known -> x = PInt (-1) \/ is_Some (label_to_id !! x)) ->
  l <> PInt (-1) ->
  label_to_id !! l = None ->
  preprocess_function tokenizer sentence1_key sentence2_key padding
    max_seq_length (Some label_to_id) examples
  = Raise (KeyError l).
Proof.
  intros [c1 Hc1] Hk2 Hlabel Hknown Hl Hmissing.
  assert (Hcomp : comprehension (remap_label label_to_id) (known ++ l :: rest)
                  = Raise (KeyError l)).
  { apply comprehension_first_raise.
    - intros x Hx. destruct (Hknown x Hx) as [->|[v Hv]].
      + by rewrite remap_label_sentinel.
      + destruct (decide (x = PInt (-1))) as [->|Hx'].
        * by rewrite remap_label_sentinel.
        * by rewrite (remap_label_lookup _ _ v).
    - by apply remap_label_missing. }
  unfold preprocess_function, getitem. rewrite Hc1. cbn [mbind result_bind].
  destruct sentence2_key as [k2|].
  - destruct (Hk2 k2 eq_refl) as [c2 Hc2]. rewrite Hc2. cbn [mbind result_bind].
    rewrite Hlabel. cbn [remap_labels]. by rewrite Hcomp.
  - cbn [mbind result_bind]. rewrite Hlabel. cbn [remap_labels]. by rewrite Hcomp.
Qed.

Lemma preprocess_function_unknown_label_witness :
  preprocess_function Sample.no_tokenizer "sentence" None true 128
    (Some Sample.sentiment_ids)
    (<["label" := Cells [PStr "positive"; PInt (-1); PStr "neutral"]]>
       Sample.sentiment_batch)
  = Raise (KeyError (PStr "neutral")).
Proof.
  apply (preprocess_function_unknown_label Sample.no_tokenizer "sentence" None
           true 128 Sample.sentiment_ids _ [PStr "positive"; PInt (-1)] []
           (PStr "neutral")).
  - eexists. reflexivity.
  - intros k Hk. discriminate Hk.
  - reflexivity.
  - intros x Hx.
    apply elem_of_cons in Hx as [->|Hx]; [right; eexists; reflexivity|].
    apply list_elem_of_singleton in Hx as ->. by left.
  - intros Heq. discriminate Heq.
  - reflexivity.
Defined.

(** X6. [preprocess_function] raises [KeyError] for a text column that the
    batch lacks, and otherwise returns what the tokenizer returns for the
    one or two text columns, changed at the key [label] at most: without a
    vocabulary, or without a label column in the batch, it is the
    tokenizer's result itself. *)
Theorem preprocess_function_keeps_tokenizer_columns
    (tokenizer : list column -> bool -> Z -> gmap string column)
    (sentence1_key : string) (sentence2_key : option string)
    (padding : bool) (max_seq_length : Z)
    (label_to_id : option (gmap pyval Z)) (examples : gmap string column) :
  let outcome :=
    preprocess_function tokenizer sentence1_key sentence2_key padding
      max_seq_length label_to_id examples in
  (examples !! sentence1_key = None ->
   outcome = Raise (KeyError (PStr sentence1_key)))
  /\ (forall k, is_Some (examples !! sentence1_key) ->
                sentence2_key = Some k -> examples !! k = None ->
                outcome = Raise (KeyError (PStr k)))
  /\ (forall result,
        outcome = Ok result ->
        exists c1 args,
          examples !! sentence1_key = Some c1
          /\ match sentence2_key with
             | None => args = [c1]
             | Some k => exists c2, examples !! k = Some c2 /\ args = [c1; c2]
             end
          /\ (forall k, k <> "label" ->
                        result !! k = tokenizer args padding max_seq_length !! k)
          /\ (label_to_id = None \/ examples !! "label" = None ->
              result = tokenizer args padding max_seq_length)).
Proof.
  intros outcome. unfold outcome, preprocess_function, getitem.
  split; [|split].
  - by intros ->.
  - intros k [c1 ->] -> Hk. cbn [mbind result_bind]. by rewrite Hk.
  - intros result.
    destruct (examples !! sentence1_key) as [c1|]; cbn [mbind result_bind];
      [|intros Hno; discriminate Hno].
    assert (Hlabel : forall args,
      match label_to_id, examples !! "label" with
      | Some m, Some c =>
          c' ← remap_labels m c;
          Ok (<["label" := c']> (tokenizer args padding max_seq_length))
      | _, _ => Ok (tokenizer args padding max_seq_length)
      end = Ok result ->
      (forall k, k <> "label" ->
                 result !! k = tokenizer args padding max_seq_length !! k)
      /\ (label_to_id = None \/ examples !! "label" = None ->
          result = tokenizer args padding max_seq_length)).
    { intros args Hok. destruct label_to_id as [m|].
      - destruct (examples !! "label") as [c|].
        + apply result_bind_ok in Hok as (c' & _ & [= <-]). split.
          * intros k Hk. by rewrite lookup_insert_ne.
          * by intros [|].
        + injection Hok as <-. by split.
      - injection Hok as <-. by split. }
    destruct sentence2_key as [k2|].
    + destruct (examples !! k2) as [c2|]; cbn [mbind result_bind];
        [|intros Hno; discriminate Hno].
      intros Hok. exists c1, [c1; c2]. split; [done|].
      split; [by exists c2|]. by apply Hlabel.
    + cbn [mbind result_bind]. intros Hok. exists c1, [c1].
      split; [done|]. split; [done|]. by apply Hlabel.
Qed.

(** ** The text columns of local files *)

Lemma getsplit_eq raw_datasets key d :
  assoc key raw_datasets = Some d ->
  getsplit raw_datasets key = ([GetSplit key], Ok d).
Proof. intros Hd. unfold getsplit, subscript. by rewrite Hd. Qed.

(** X7. Without a task, the text columns are chosen among the columns of
    the train split other than [label], in their order: [sentence1] and
    [sentence2] when both are there; else the first two of them, in that
    order; else the only one, with no second column; with no such column
    the choice raises [IndexError]. The column [label] is never chosen, and
    two chosen columns are different columns. *)
Theorem local_sentence_keys_are_text_columns
    (data_args : DataTrainingArguments) (raw_datasets : DatasetDict)
    (train : Dataset) :
  task_name data_args = None ->
  assoc "train" raw_datasets = Some train ->
  let names := filter (fun name => name <> "label") (column_names train) in
  let outcome := get_sentence_keys data_args raw_datasets in
  (names = [] ->
   outcome = ([GetSplit "train"], Raise (IndexError "list index out of range")))
  /\ ("sentence1" ∈ names -> "sentence2" ∈ names ->
      outcome = ([GetSplit "train"], Ok ("sentence1", Some "sentence2")))
  /\ (forall k1 k2 rest,
        names = k1 :: k2 :: rest ->
        ~ ("sentence1" ∈ names /\ "sentence2" ∈ names) ->
        outcome = ([GetSplit "train"], Ok (k1, Some k2)))
  /\ (forall k1,
        names = [k1] -> outcome = ([GetSplit "train"], Ok (k1, None)))
  /\ (names <> [] -> exists keys, outcome = ([GetSplit "train"], Ok keys))
  /\ (forall k1 k2,
        outcome.2 = Ok (k1, k2) ->
        k1 ∈ column_names train /\ k1 <> "label"
        /\ match k2 with
           | Some k =>
               k ∈ column_names train /\ k <> "label"
               /\ (NoDup (column_names train) -> k <> k1)
           | None => names = [k1]
           end).
Proof.
  intros Htask Htrain names outcome.
  assert (Hnames : forall k, k ∈ names -> k ∈ column_names train /\ k <> "label").
  { intros k Hk. by apply list_elem_of_filter in Hk as [? ?]. }
  assert (Houtcome : outcome =
    if bool_decide ("sentence1" ∈ names) && bool_decide ("sentence2" ∈ names)
    then ([GetSplit "train"], Ok ("sentence1", Some "sentence2"))
    else match names with
         | [] => ([GetSplit "train"], Raise (IndexError "list index out of range"))
         | [k1] => ([GetSplit "train"], Ok (k1, None))
         | k1 :: k2 :: _ => ([GetSplit "train"], Ok (k1, Some k2))
         end).
  { unfold outcome, get_sentence_keys. rewrite Htask, (getsplit_eq _ _ _ Htrain).
    rewrite run_bind_unfold. cbn [fst snd]. cbv zeta. fold names.
    destruct (bool_decide ("sentence1" ∈ names) && bool_decide ("sentence2" ∈ names));
      [done|].
    by destruct names as [|k1 [|k2 rest]]. }
  rewrite Houtcome. split; [|split; [|split; [|split; [|split]]]].
  - intros ->. reflexivity.
  - intros H1 H2. by rewrite !bool_decide_eq_true_2.
  - intros k1 k2 rest -> Hnot.
    destruct (bool_decide _ && bool_decide _) eqn:Hboth; [|done].
    apply andb_true_iff in Hboth as [H1%bool_decide_eq_true H2%bool_decide_eq_true].
    by destruct Hnot.
  - intros k1 ->.
    destruct (bool_decide _ && bool_decide _) eqn:Hboth; [|done].
    apply andb_true_iff in Hboth as [H1%bool_decide_eq_true H2%bool_decide_eq_true].
    apply list_elem_of_singleton in H1, H2. congruence.
  - intros Hne. destruct (_ && _); [by eexists|].
    destruct names as [|k1 [|k2 rest]]; [done|by eexists..].
  - intros k1 k2.
    destruct (bool_decide ("sentence1" ∈ names)) eqn:H1;
      [destruct (bool_decide ("sentence2" ∈ names)) eqn:H2|]; cbn [andb].
    + apply bool_decide_eq_true in H1, H2. intros [= <- <-].
      destruct (Hnames _ H1), (Hnames _ H2). by repeat split.
    + clear H1 H2. destruct names as [|n1 [|n2 rest]] eqn:Hn; cbn [snd].
      * intros Hno. discriminate Hno.
      * intros [= <- <-]. destruct (Hnames n1) as [? ?]; [by left|]. done.
      * intros [= <- <-].
        destruct (Hnames n1) as [? ?]; [by left|].
        destruct (Hnames n2) as [? ?]; [right; by left|].
        repeat split; try done. intros Hnd ->.
        assert (Hnd' : NoDup names)
          by (by apply NoDup_filter).
        rewrite Hn in Hnd'. apply NoDup_cons in Hnd' as [Hnot _].
        apply Hnot. by left.
    + clear H1. destruct names as [|n1 [|n2 rest]] eqn:Hn; cbn [snd].
      * intros Hno. discriminate Hno.
      * intros [= <- <-]. destruct (Hnames n1) as [? ?]; [by left|]. done.
      * intros [= <- <-].
        destruct (Hnames n1) as [? ?]; [by left|].
        destruct (Hnames n2) as [? ?]; [right; by left|].
        repeat split; try done. intros Hnd ->.
        assert (Hnd' : NoDup names)
          by (by apply NoDup_filter).
        rewrite Hn in Hnd'. apply NoDup_cons in Hnd' as [Hnot _].
        apply Hnot. by left.
Qed.

Lemma local_sentence_keys_are_text_columns_witness :
  get_sentence_keys
    (Sample.data_args None (Some "train.csv") (Some "dev.csv") None)
    Sample.no_test
  = ([GetSplit "train"], Ok ("sentence1", Some "sentence2")).
Proof.
  destruct (local_sentence_keys_are_text_columns
              (Sample.data_args None (Some "train.csv") (Some "dev.csv") None)
              Sample.no_test
              (Sample.pairs "sentence1" "sentence2" Sample.rte_names [0; 1; 1]))
    as (_ & Hboth & _).
  - reflexivity.
  - reflexivity.
  - apply Hboth; apply (bool_decide_unpack _); vm_compute; exact I.
Defined.

(** ** What a run does not do *)


(** ** Prediction *)


Lemma assoc_filter_ne {V} (name k : string) (l : list (string * V)) :
  k <> name -> assoc k (filter (fun kv => kv.1 <> name) l) = assoc k l.
Proof.
  intros Hk. induction l as [|[k' v] l IH]; [done|].
  rewrite filter_cons. cbn [fst].
  destruct (decide (k' <> name)) as [Hne|Heq%dec_stable]; cbn [assoc].
  - by rewrite IH.
  - subst k'. rewrite IH. by rewrite decide_False.
Qed.

Lemma remove_columns_ok (name : string) (d d' : Dataset) :
  remove_columns name d = Ok d' ->
  mem name (columns d) = true
  /\ mem name (columns d') = false
  /\ mem name (features d') = false
  /\ forall k, k <> name -> assoc k (columns d') = assoc k (columns d).
Proof.
  unfold remove_columns. destruct (mem name (columns d)) eqn:Hmem;
    [|intros Hno; discriminate Hno].
  intros [= <-]. cbn [columns features]. split; [done|].
  assert (Hfilter : forall V (l : list (string * V)),
            mem name (filter (fun kv => kv.1 <> name) l) = false).
  { intros V l. unfold mem, keys. apply bool_decide_eq_false_2.
    intros ([k v] & -> & [Hne _]%list_elem_of_filter)%list_elem_of_fmap. done. }
  split; [apply Hfilter|]. split; [apply Hfilter|].
  intros k Hk. by apply assoc_filter_ne.
Qed.


Lemma remove_columns_missing (name : string) (d : Dataset) :
  mem name (columns d) = false ->
  remove_columns name d = Raise (ValueError "Column name not in the dataset.").
Proof. intros Hmem. unfold remove_columns. by rewrite Hmem. Qed.

(** X10. Every dataset that is handed to [trainer.predict] has lost its
    [label] column (and feature). When the first test split ([test], or
    [test_matched] for the task [mnli]) has no [label] column, the
    prediction raises before anything is predicted or written:
    [ValueError] from [remove_columns], or, for [mnli] without a
    [test_mismatched] split, [KeyError] from the subscript, which comes
    first. For [mnli] with a [test_mismatched] split that has no [label]
    column the prediction ends in an exception too, and what it has
    predicted and written by then is for [test_matched] only. *)
Theorem prediction_without_label_column
    (model_args : ModelArguments) (data_args : DataTrainingArguments)
    (training_args : TrainingArguments) (w : World) :
  quiet (fun e =>
           match e with
           | Predict d =>
               mem "label" (columns d) = false /\ mem "label" (features d) = false
           | _ => True
           end)
    (main model_args data_args training_args w)
  /\ (forall raw_datasets d is_regression label_list,
        do_predict training_args = true ->
        mem "label" (columns d) = false ->
        prediction data_args training_args w raw_datasets (Some d)
          is_regression label_list
        = if bool_decide (task_name data_args = Some "mnli") then
            ([Log INFO PredictBanner; GetSplit "test_mismatched"],
             Raise match assoc "test_mismatched" raw_datasets with
                   | Some _ => ValueError "Column name not in the dataset."
                   | None => KeyError (PStr "test_mismatched")
                   end)
          else
            ([Log INFO PredictBanner],
             Raise (ValueError "Column name not in the dataset.")))
  /\ (forall raw_datasets d mismatched is_regression label_list,
        do_predict training_args = true ->
        task_name data_args = Some "mnli" ->
        assoc "test_mismatched" raw_datasets = Some mismatched ->
        mem "label" (columns mismatched) = false ->
        aborts (fun e =>
                  match e with
                  | Predict d' => remove_columns "label" d = Ok d'
                  | OpenFile path | FileWrite path _ =>
                      path = os_path_join (output_dir training_args)
                               "predict_results_mnli.txt"
                  | _ => True
                  end)
          (prediction data_args training_args w raw_datasets (Some d)
             is_regression label_list)).
Proof.
  split; [|split].
  - unfold main. quiet_tac; try (simpl; done).
    match goal with
    | Hremoved : (lift (remove_columns "label" _)).2 = Ok ?d |- _ =>
        cbn [lift snd] in Hremoved;
        apply remove_columns_ok in Hremoved as (_ & ? & ? & _)
    end.
    by split.
  - intros raw d is_regression label_list Hpredict Hlabel.
    unfold prediction. rewrite Hpredict. cbv zeta. cbn [when local].
    rewrite !run_bind_ret. case_bool_decide as Hmnli.
    + unfold getsplit, subscript.
      destruct (assoc "test_mismatched" raw) as [mismatched|]; [|done].
      match goal with |- context [for_each _ ?b] => set (body := b) end.
      assert (Hbody : forall t,
                body (d, t)
                = ([], Raise (ValueError "Column name not in the dataset."))).
      { intros t. unfold body. cbn [fst].
        by rewrite (remove_columns_missing _ _ Hlabel). }
      cbn -[body]. by rewrite Hbody.
    + rewrite run_bind_ret. cbn [zip zip_with fst snd for_each].
      by rewrite (remove_columns_missing _ _ Hlabel).
  - intros raw d mismatched is_regression label_list Hpredict Htask Hmm Hlabel.
    unfold prediction. rewrite Hpredict, Htask.
    rewrite bool_decide_eq_true_2 by done. cbv zeta. cbn [when local].
    apply aborts_bind; [by apply quiet_call|intros _ _].
    rewrite run_bind_ret, (getsplit_eq _ _ _ Hmm).
    apply aborts_bind; [by repeat constructor|intros lists Hlists].
    injection Hlists as <-. cbn [zip zip_with fst snd for_each app].
    apply aborts_bind; [by quiet_tac|intros _ _].
    apply aborts_bind_l. rewrite (remove_columns_missing _ _ Hlabel).
    apply aborts_bind_l. apply (aborts_raise _ _).
Qed.

(** ** Checkpoints and the training set *)

Lemma detect_last_checkpoint_none training_args w :
  overwrite_output_dir training_args = true
  \/ os_path_isdir w (output_dir training_args) = false
  \/ do_train training_args = false ->
  detect_last_checkpoint training_args w = ([], Ok None).
Proof.
  unfold detect_last_checkpoint. intros [Hoff | [Hoff | Hoff]]; rewrite Hoff.
  - by rewrite andb_false_r.
  - done.
  - by rewrite andb_false_r.
Qed.

(** X11. A checkpoint given with [resume_from_checkpoint] is the one that
    training starts from, whatever the output directory holds, and no
    detected checkpoint is announced then. With none given, and the
    overwrite flag set or no output directory, training starts from
    scratch. *)
Theorem explicit_checkpoint_takes_precedence
    (model_args : ModelArguments) (data_args : DataTrainingArguments)
    (training_args : TrainingArguments) (w : World) :
  let m := main model_args data_args training_args w in
  (forall checkpoint,
     resume_from_checkpoint training_args = Some checkpoint ->
     quiet (fun e =>
              match e with
              | Train from => from = Some checkpoint
              | Log _ (CheckpointDetected _) => False
              | _ => True
              end) m)
  /\ (resume_from_checkpoint training_args = None ->
      overwrite_output_dir training_args = true
      \/ os_path_isdir w (output_dir training_args) = false ->
      quiet (fun e =>
               match e with
               | Train from => from = None
               | Log _ (CheckpointDetected _) => False
               | _ => True
               end) m).
Proof.
  intros m. unfold m, main. split.
  - intros checkpoint Hresume. unfold training, detect_last_checkpoint.
    rewrite !Hresume. quiet_tac; try (simpl; done).
  - intros Hresume Hscratch.
    rewrite detect_last_checkpoint_none by tauto.
    do 2 (apply quiet_bind; [quiet_tac; by simpl|intros _ _]).
    change (([], Ok None) : run (option string)) with (mret None : run (option string)).
    rewrite run_bind_ret. unfold training. rewrite Hresume.
    quiet_tac; try (simpl; done).
Qed.

Lemma select_range_rows (n : Z) (d d' : Dataset) :
  select_range n d = Ok d' -> (num_rows d' <= Z.to_nat n)%nat.
Proof.
  unfold select_range. destruct (_ <? n); [intros Hno; discriminate Hno|].
  intros [= <-]. unfold num_rows. cbn [columns].
  destruct (columns d) as [|[k c] cs]; cbn; [lia|].
  destruct c as [vs|xs]; cbn; rewrite length_take; lia.
Qed.

Lemma select_train_rows data_args training_args raw_datasets train_dataset n :
  do_train training_args = true ->
  max_train_samples data_args = Some n ->
  (select_train data_args training_args raw_datasets).2 = Ok train_dataset ->
  exists d, train_dataset = Some d /\ (num_rows d <= Z.to_nat n)%nat.
Proof.
  intros Htrain Hmax. unfold select_train. rewrite Htrain, Hmax.
  intros (? & _ & Hok)%run_bind_snd_ok.
  apply run_bind_snd_ok in Hok as (d0 & _ & Hok).
  apply run_bind_snd_ok in Hok as (d & Hd & Hok).
  injection Hok as <-. exists d. split; [done|].
  by apply select_range_rows in Hd.
Qed.

Lemma log_samples_small training_args w d :
  do_train training_args = true ->
  (num_rows d < 3)%nat ->
  log_samples training_args w (Some d)
  = ([], Raise (ValueError "Sample larger than population or is negative")).
Proof.
  intros Htrain Hrows. unfold log_samples. rewrite Htrain. cbn [when local].
  rewrite run_bind_ret. apply Nat.ltb_lt in Hrows. by rewrite Hrows.
Qed.

(** X12. With training requested and [max_train_samples] below 3, the run
    ends in an exception before the trainer is built and before any
    training: a selected train set of fewer than three rows makes the
    sampling of three rows to log raise [ValueError]. *)
Theorem training_needs_three_rows
    (model_args : ModelArguments) (data_args : DataTrainingArguments)
    (training_args : TrainingArguments) (w : World) (n : Z) :
  do_train training_args = true ->
  max_train_samples data_args = Some n ->
  n < 3 ->
  (forall d, (num_rows d < 3)%nat ->
     log_samples training_args w (Some d)
     = ([], Raise (ValueError "Sample larger than population or is negative")))
  /\ aborts (fun e =>
               match e with
               | TrainerInit _ _ _ | Train _ => False
               | _ => True
               end)
       (main model_args data_args training_args w).
Proof.
  intros Htrain Hmax Hn. split.
  { intros d Hd. by apply log_samples_small. }
  unfold main.
  do 6 (apply aborts_bind; [quiet_tac; by simpl|intros ? _]). cbv zeta.
  do 5 (apply aborts_bind; [quiet_tac; by simpl|intros ? _]).
  apply aborts_bind; [quiet_tac; by simpl|intros train_dataset Hselected].
  destruct (select_train_rows _ _ _ _ _ Htrain Hmax Hselected)
    as (d & -> & Hrows).
  do 5 (apply aborts_bind; [quiet_tac; by simpl|intros ? _]).
  apply aborts_bind_l. rewrite log_samples_small by (done || lia).
  apply aborts_raise.
Qed.

Lemma training_needs_three_rows_witness :
  (forall d, (num_rows d < 3)%nat ->
     log_samples (Sample.training_args true false false None)
       (Sample.world Sample.rte [] [] None []) (Some d)
     = ([], Raise (ValueError "Sample larger than population or is negative")))
  /\ aborts (fun e =>
               match e with
               | TrainerInit _ _ _ | Train _ => False
               | _ => True
               end)
       (main Sample.model_args
          {| task_name := Some "rte"; dataset_name := None;
             dataset_config_name := None; max_seq_length := 128;
             overwrite_cache := false; pad_to_max_length := true;
             max_train_samples := Some 2; max_eval_samples := None;
             max_predict_samples := None; train_file := None;
             validation_file := None; test_file := None |}
          (Sample.training_args true false false None)
          (Sample.world Sample.rte [] [] None [])).
Proof.
  apply (training_needs_three_rows Sample.model_args _
           (Sample.training_args true false false None)
           (Sample.world Sample.rte [] [] None []) 2);
    [reflexivity|reflexivity|lia].
Defined.

(** ** The model card *)

(** X14. What is pushed to the hub names the model and, for a task, the
    GLUE dataset of the task: the task name in lower case as the dataset
    argument and in upper case in the dataset name, whatever case it was
    given in. Without a task only the model and the kind of task are
    named. *)
Theorem hub_card_names_the_task
    (model_args : ModelArguments) (data_args : DataTrainingArguments)
    (training_args : TrainingArguments) (w : World) :
  quiet (fun e =>
           match e with
           | PushToHub kwargs =>
               kwargs
               = [("finetuned_from", model_name_or_path model_args);
                  ("tasks", "text-classification")]
                 ++ match task_name data_args with
                    | Some given =>
                        [("language", "en"); ("dataset_tags", "glue");
                         ("dataset_args", lower given);
                         ("dataset", "GLUE " +:+ upper given)]
                    | None => []
                    end
           | _ => True
           end)
    (run_glue model_args data_args training_args w).
Proof.
  unfold run_glue. apply quiet_bind; [quiet_tac|].
  intros data_args' Hvalid. cbn [lift snd] in Hvalid.
  assert (Htask : task_name data_args' = lower <$> task_name data_args).
  { destruct (task_name data_args) as [given|] eqn:Hgiven.
    - unfold post_init in Hvalid. rewrite Hgiven in Hvalid. cbv zeta in Hvalid.
      destruct (mem _ _); [|discriminate Hvalid]. by injection Hvalid as <-.
    - unfold post_init in Hvalid. rewrite Hgiven in Hvalid.
      destruct (dataset_name data_args); [by injection Hvalid as <-|].
      destruct (train_file data_args), (validation_file data_args);
        try discriminate Hvalid.
      apply result_bind_ok in Hvalid as (? & _ & Hvalid).
      destruct (negb _); [discriminate Hvalid|].
      apply result_bind_ok in Hvalid as (? & _ & Hvalid).
      destruct (negb _); [discriminate Hvalid|].
      injection Hvalid as <-. by rewrite Hgiven. }
  unfold main. autounfold with phases. rewrite !Htask.
  destruct (task_name data_args) as [given|]; cbn [fmap option_fmap option_map];
    quiet_tac; try (simpl; done).
  simpl. by rewrite upper_lower.
Qed.

(** ** The order of the stages *)

Lemma stages_bind {A B} (m : run A) (f : A -> run B) :
  stages (m ≫= f).1
  = stages m.1 ++ match m.2 with
                  | Ok a => stages (f a).1
                  | Raise _ => []
                  end.
Proof. apply omap_bind. Qed.

Lemma within_quiet {A} (lo hi : nat) (m : run A) :
  quiet (fun e => stage e = None) m -> within_stages lo hi m.
Proof.
  intros Hm. unfold within_stages, stages. rewrite (quiet_omap stage m Hm).
  split; constructor.
Qed.

Lemma within_call (lo hi s : nat) (e : event) :
  stage e = Some s -> (lo <= s <= hi)%nat -> within_stages lo hi (call e).
Proof.
  intros He Hs. unfold within_stages, stages. cbn. rewrite He.
  split; repeat constructor; lia.
Qed.

Lemma within_bind {A B} (lo mid hi : nat) (m : run A) (f : A -> run B) :
  within_stages lo mid m ->
  (forall a, m.2 = Ok a -> within_stages (S mid) hi (f a)) ->
  (lo <= S mid)%nat -> (mid <= hi)%nat ->
  within_stages lo hi (m ≫= f).
Proof.
  intros [Hsorted Hbounds] Hf Hlo Hhi. unfold within_stages.
  rewrite stages_bind. destruct m as [calls [a|e]]; cbn [fst snd] in *.
  - destruct (Hf a eq_refl) as [Hsorted' Hbounds']. split.
    + apply StronglySorted_app_2; [|done..].
      intros s1 s2 Hs1 Hs2. rewrite Forall_forall in Hbounds, Hbounds'.
      specialize (Hbounds s1 Hs1). specialize (Hbounds' s2 Hs2).
      left. lia.
    + apply Forall_app. split.
      * eapply Forall_impl; [exact Hbounds|]. cbn. lia.
      * eapply Forall_impl; [exact Hbounds'|]. cbn. lia.
  - rewrite app_nil_r. split; [done|].
    eapply Forall_impl; [exact Hbounds|]. cbn. lia.
Qed.

Lemma within_bind_quiet_l {A B} (lo hi : nat) (m : run A) (f : A -> run B) :
  quiet (fun e => stage e = None) m ->
  (forall a, m.2 = Ok a -> within_stages lo hi (f a)) ->
  within_stages lo hi (m ≫= f).
Proof.
  intros Hm Hf. unfold within_stages. rewrite stages_bind.
  unfold stages at 1 3. rewrite (quiet_omap stage m Hm). cbn [app].
  destruct m as [calls [a|e]]; cbn [snd] in *.
  - by apply Hf.
  - split; constructor.
Qed.

Lemma within_bind_quiet_r {A B} (lo hi : nat) (m : run A) (f : A -> run B) :
  within_stages lo hi m ->
  (forall a, m.2 = Ok a -> quiet (fun e => stage e = None) (f a)) ->
  within_stages lo hi (m ≫= f).
Proof.
  intros Hm Hf. unfold within_stages. rewrite stages_bind.
  destruct m as [calls [a|e]]; cbn [fst snd] in *.
  - unfold stages at 2 4. rewrite (quiet_omap stage (f a) (Hf a eq_refl)).
    by rewrite app_nil_r.
  - by rewrite app_nil_r.
Qed.

(** A loop that only evaluates, or only predicts, stays in its stage. *)
Lemma within_same {A} (s : nat) (m : run A) :
  (7 <= s <= 8)%nat ->
  quiet (fun e => stage e = None \/ stage e = Some s) m ->
  within_stages s s m.
Proof.
  intros Hs Hm. unfold quiet in Hm. unfold within_stages, stages.
  induction Hm as [|e calls He _ [IHsorted IHbounds]]; [split; constructor|].
  cbn [omap list_omap]. destruct He as [->| ->]; [by split|].
  split.
  - constructor; [done|]. eapply Forall_impl; [exact IHbounds|].
    intros s' Hs'. cbn in Hs'. unfold stage_before. lia.
  - constructor; [lia|done].
Qed.

(** A stage that is not a loop occurs once at most. *)
Lemma stage_once (l : list nat) (s : nat) :
  StronglySorted stage_before l ->
  (s < 7 \/ 8 < s)%nat ->
  (length (filter (fun s' => s' = s) l) <= 1)%nat.
Proof.
  intros Hsorted Hs. induction Hsorted as [|x l Hl IH Hx]; [cbn; lia|].
  rewrite filter_cons. destruct (decide (x = s)) as [->|Hne]; [|done].
  assert (filter (fun s' => s' = s) l = []) as ->; [|cbn; lia].
  assert (Hnone : Forall (fun s' => s' <> s) l).
  { eapply Forall_impl; [exact Hx|]. unfold stage_before. cbn. lia. }
  clear -Hnone. induction Hnone as [|y l Hy _ IH]; [done|].
  by rewrite filter_cons_False.
Qed.

Ltac within_step :=
  lazymatch goal with
  | |- within_stages _ _ (call _) => eapply within_call; [reflexivity|lia]
  | |- within_stages _ _ (mret _) => apply within_quiet; apply quiet_ret
  | |- within_stages _ _ (when ?b _) => unfold when; destruct b
  | |- within_stages _ _ (mbind _ _) =>
      first [ apply within_bind_quiet_l; [solve [quiet_tac]|intros ? ?]
            | apply within_bind_quiet_r; [|intros ? ?; solve [quiet_tac]] ]
  | |- within_stages _ _ (if ?b then _ else _) => destruct b
  | |- within_stages _ _ (match ?x with _ => _ end) => destruct x
  end.

Lemma get_datasets_within data_args training_args w :
  within_stages 1 1 (get_datasets data_args training_args w).
Proof. unfold get_datasets. repeat within_step. Qed.

Lemma load_config_and_tokenizer_within model_args data_args w num_labels :
  within_stages 2 3 (load_config_and_tokenizer model_args data_args w num_labels).
Proof.
  unfold load_config_and_tokenizer. cbv zeta.
  apply (within_bind 2 2 3); [repeat within_step| |lia..].
  intros _ _. repeat within_step.
Qed.

Lemma init_trainer_within data_args training_args train_dataset eval_dataset
    data_collator nncf :
  within_stages 5 5
    (init_trainer data_args training_args train_dataset eval_dataset
       data_collator nncf).
Proof. unfold init_trainer. repeat within_step. Qed.

Lemma training_within training_args last_checkpoint :
  within_stages 6 6 (training training_args last_checkpoint).
Proof. unfold training. cbv zeta. repeat within_step. Qed.

Lemma evaluation_within data_args training_args raw_datasets eval_dataset :
  within_stages 7 7 (evaluation data_args training_args raw_datasets eval_dataset).
Proof.
  apply within_same; [lia|]. unfold evaluation.
  quiet_tac; (by left) || (by right).
Qed.

Lemma prediction_within data_args training_args w raw_datasets predict_dataset
    is_regression label_list :
  within_stages 8 8
    (prediction data_args training_args w raw_datasets predict_dataset
       is_regression label_list).
Proof.
  apply within_same; [lia|]. unfold prediction.
  quiet_tac; (by left) || (by right).
Qed.

Lemma push_within model_args data_args training_args :
  within_stages 9 9 (push model_args data_args training_args).
Proof. unfold push. cbv zeta. repeat within_step. Qed.

(** X15. The stages of every run come in the order of the script: the seed
    is set before the datasets are loaded, then come the config, the
    tokenizer, the model, the trainer, the training, the evaluations, the
    predictions and the push to the hub; every stage but the evaluation and
    the prediction occurs once at most. *)
Theorem stages_in_script_order
    (model_args : ModelArguments) (data_args : DataTrainingArguments)
    (training_args : TrainingArguments) (w : World) :
  let m := main model_args data_args training_args w in
  StronglySorted stage_before (stages m.1)
  /\ (forall calls1 e1 calls2 e2 calls3 s1 s2,
        m.1 = calls1 ++ e1 :: calls2 ++ e2 :: calls3 ->
        stage e1 = Some s1 -> stage e2 = Some s2 ->
        (s1 <= s2)%nat)
  /\ (forall s, (s < 7 \/ 8 < s)%nat ->
        (length (filter (fun s' => s' = s) (stages m.1)) <= 1)%nat).
Proof.
  intros m.
  assert (Hwithin : within_stages 0 9 m).
  { unfold m, main.
    do 3 (apply within_bind_quiet_l; [solve [quiet_tac]|intros ? _]).
    apply (within_bind 0 0 9); [repeat within_step| |lia..]. intros _ _.
    apply (within_bind 1 1 9); [apply get_datasets_within| |lia..].
    intros raw_datasets _.
    apply within_bind_quiet_l; [solve [quiet_tac]|intros labels _]. cbv zeta.
    apply (within_bind 2 3 9);
      [apply load_config_and_tokenizer_within| |lia..].
    intros config _.
    do 7 (apply within_bind_quiet_l; [solve [quiet_tac]|intros ? _]).
    apply (within_bind 4 4 9); [unfold load_model; repeat within_step| |lia..].
    intros _ _.
    do 3 (apply within_bind_quiet_l; [solve [quiet_tac]|intros ? _]).
    apply (within_bind 5 5 9); [apply init_trainer_within| |lia..].
    intros _ _.
    apply (within_bind 6 6 9); [apply training_within| |lia..].
    intros _ _.
    apply (within_bind 7 7 9); [apply evaluation_within| |lia..].
    intros _ _.
    apply (within_bind 8 8 9); [apply prediction_within| |lia..].
    intros _ _. apply push_within. }
  destruct Hwithin as [Hsorted _]. split; [exact Hsorted|]. split.
  - intros calls1 e1 calls2 e2 calls3 s1 s2 Hcalls Hs1 Hs2.
    unfold stages in Hsorted. rewrite Hcalls in Hsorted.
    rewrite omap_app in Hsorted. cbn [omap list_omap] in Hsorted.
    rewrite Hs1, omap_app in Hsorted. cbn [omap list_omap] in Hsorted.
    rewrite Hs2 in Hsorted.
    apply StronglySorted_app_1_r in Hsorted.
    apply StronglySorted_inv in Hsorted as [_ Hafter].
    rewrite Forall_forall in Hafter.
    assert (Hbefore : stage_before s1 s2).
    { apply Hafter. apply elem_of_app. right. by left. }
    unfold stage_before in Hbefore. lia.
  - intros s Hs. by apply stage_once.
Qed.

(** ** The evaluation data loader *)

(** X16. [get_eval_dataloader_for_init] raises [ValueError] exactly when it
    is given no dataset. For a dataset that is not iterable, in one process
    (no TPU, no SageMaker model parallelism, local rank -1, world size 1 at
    most) the loader reads the whole dataset with a sequential sampler,
    with the legacy prediction loop and without it, and passes on the
    collator as given; for an iterable dataset the loader has no sampler,
    does not drop a last batch itself, and uses [default_data_collator]
    when no collator is given. In every case the batch size, the number of
    workers and the pinning of memory are those of the arguments. *)
Theorem eval_dataloader_for_init_cases
    (D : Type) (platform : EvalLoader.Platform) (is_iterable : D -> bool)
    (training_args : EvalLoader.TrainingArguments)
    (data_collator : option collator) :
  let get := EvalLoader.get_eval_dataloader_for_init D platform is_iterable in
  (forall eval_dataset,
     get eval_dataset training_args data_collator
     = Raise (ValueError "Trainer: evaluation requires an eval_dataset.")
     <-> eval_dataset = None)
  /\ (forall d, exists loader,
        get (Some d) training_args data_collator = Ok loader
        /\ EvalLoader.batch_size loader = EvalLoader.eval_batch_size training_args
        /\ EvalLoader.num_workers loader
           = EvalLoader.dataloader_num_workers training_args
        /\ EvalLoader.pin_memory loader
           = EvalLoader.dataloader_pin_memory training_args
        /\ (is_iterable d = true ->
            EvalLoader.sampler loader = None
            /\ EvalLoader.drop_last loader = false
            /\ is_Some (EvalLoader.collate_fn loader)
            /\ (data_collator = None ->
                EvalLoader.collate_fn loader = Some default_data_collator)
            /\ (EvalLoader.world_size training_args <= 1 ->
                EvalLoader.dataset loader = EvalLoader.Whole d))
        /\ (is_iterable d = false ->
            EvalLoader.dataset loader = EvalLoader.Whole d
            /\ EvalLoader.collate_fn loader = data_collator
            /\ (EvalLoader.is_torch_tpu_available platform = false ->
                EvalLoader.is_sagemaker_mp_enabled platform = false ->
                EvalLoader.local_rank training_args = -1 ->
                EvalLoader.world_size training_args <= 1 ->
                EvalLoader.sampler loader
                = Some (EvalLoader.SequentialSampler d)))).
Proof.
  intros get. unfold get, EvalLoader.get_eval_dataloader_for_init. split.
  - intros [d|]; [|done]. split; [|done].
    destruct (is_iterable d); intros Hno; discriminate Hno.
  - intros d. destruct (is_iterable d) eqn:Hiterable; cbv zeta.
    + eexists. split; [reflexivity|]. cbn. do 3 (split; [done|]).
      split; [|done]. intros _. split; [done|]. split; [done|].
      split; [by eexists|]. split; [by intros ->|].
      intros Hone. by rewrite (proj2 (Z.ltb_ge 1 _)) by lia.
    + eexists. split; [reflexivity|]. cbn. do 3 (split; [done|]).
      split; [done|]. intros _. split; [done|]. split; [done|].
      intros Htpu Hsagemaker Hrank Hone.
      unfold EvalLoader._get_eval_sampler.
      rewrite Htpu, Hsagemaker, Hrank, (proj2 (Z.leb_le _ 1)) by lia.
      rewrite bool_decide_eq_true_2 by done.
      by destruct (EvalLoader.use_legacy_prediction_loop training_args).
Qed.

(** ** Compression *)

Lemma nncf_setup_flag data_args training_args w train_dataset eval_dataset
    data_collator nncf :
  (nncf_setup data_args training_args w train_dataset eval_dataset
     data_collator).2 = Ok nncf ->
  nncf = bool_decide (nncf_config training_args <> None).
Proof.
  unfold nncf_setup. destruct (nncf_config training_args) as [file|].
  - cbv zeta. intros Hok.
    do 4 apply run_bind_snd_ok in Hok as (? & _ & Hok).
    by injection Hok as <-.
  - by intros [= <-].
Qed.

Lemma local_ok {A} (name : string) (v : option A) (a : A) :
  (local name v).2 = Ok a -> v = Some a.
Proof.
  destruct v as [a'|]; cbn.
  - by intros [= ->].
  - intros Hno. discriminate Hno.
Qed.

(** X17. Without an [nncf_config] a run does nothing for compression: it
    reads no compression config, makes no directory, builds no data loader
    for the initialization, registers nothing, and builds and exports the
    model without compression. With one, only the adapter of the task is
    registered, the data loaders are built only for the phases requested,
    the directory that is made is the log directory, and only when the
    output directory does not exist, and the model is built with
    compression, in evaluation mode exactly when evaluation is requested
    and training is not. *)
Theorem compression_only_with_config
    (model_args : ModelArguments) (data_args : DataTrainingArguments)
    (training_args : TrainingArguments) (w : World) :
  let m := main model_args data_args training_args w in
  (nncf_config training_args = None ->
   quiet (fun e =>
            match e with
            | NNCFConfigFromJson _ | MakeDirs _ | GetTrainDataloaderForInit _
            | GetEvalDataloaderForInit _ _ | RegisterExtraStructs _
            | CompressionDistributed => False
            | ModelFromPretrained _ _ _ nncf nncf_eval =>
                nncf = false /\ nncf_eval = false
            | ExportModel _ with_compression => with_compression = false
            | _ => True
            end) m)
  /\ (forall file,
        nncf_config training_args = Some file ->
        quiet (fun e =>
                 match e with
                 | NNCFConfigFromJson path => path = file
                 | MakeDirs path =>
                     os_path_exists w (output_dir training_args) = false
                     /\ path = default (output_dir training_args) (nncf_log_dir w)
                 | GetTrainDataloaderForInit _ => do_train training_args = true
                 | GetEvalDataloaderForInit _ data_collator =>
                     do_eval training_args = true
                     /\ data_collator = get_data_collator data_args training_args
                 | RegisterExtraStructs cls =>
                     initializing_data_loader_cls data_args = Some cls
                 | ModelFromPretrained _ _ _ nncf nncf_eval =>
                     nncf = true
                     /\ nncf_eval
                        = (do_eval training_args && negb (do_train training_args))
                 | ExportModel _ with_compression => with_compression = true
                 | _ => True
                 end) m).
Proof.
  intros m. unfold m, main. split.
  - intros Hnone.
    do 6 (apply quiet_bind; [quiet_tac; by simpl|intros ? _]). cbv zeta.
    do 7 (apply quiet_bind; [quiet_tac; by simpl|intros ? _]).
    apply quiet_bind.
    { unfold nncf_setup. rewrite Hnone. apply quiet_ret. }
    intros nncf ->%nncf_setup_flag. rewrite Hnone.
    rewrite bool_decide_eq_false_2 by (by intros []).
    quiet_tac; try (simpl; done).
  - intros file Hfile.
    do 6 (apply quiet_bind; [quiet_tac; by simpl|intros ? _]). cbv zeta.
    do 7 (apply quiet_bind; [quiet_tac; by simpl|intros ? _]).
    apply quiet_bind.
    { unfold nncf_setup. rewrite Hfile. cbv zeta.
      quiet_tac; try (simpl; done);
        repeat match goal with
               | H : (local _ _).2 = Ok _ |- _ => apply local_ok in H
               | H : _ && _ = true |- _ => apply andb_true_iff in H as [? ?]
               | H : negb _ = true |- _ => apply negb_true_iff in H
               end;
        simpl; by auto. }
    intros nncf ->%nncf_setup_flag. rewrite Hfile.
    rewrite bool_decide_eq_true_2 by done.
    quiet_tac; try (simpl; done).
Qed.

(** ** Labels that are left as the dataset has them *)

(** X18. [label_to_id] stays [None], and no warning is logged, for a
    regression, and for a task whose pretrained config has the default
    label mapping. For a task whose pretrained config has another mapping,
    a dataset label name with an upper-case letter can not match: the
    names of the model are lower-cased and those of the dataset are not,
    so the warning is logged and [label_to_id] stays [None]. *)
Theorem label_to_id_stays_none
    (data_args : DataTrainingArguments) (w : World)
    (pretrained : list (string * Z)) (label_list : option (list pyval))
    (num_labels : nat) :
  reconcile_labels data_args w pretrained true label_list num_labels
  = ([], Ok None)
  /\ (task_name data_args <> None ->
      dict_of_items pretrained = dict_of_items (default_label2id w num_labels) ->
      forall is_regression,
        reconcile_labels data_args w pretrained is_regression label_list
          num_labels
        = ([], Ok None))
  /\ (forall names name,
        task_name data_args <> None ->
        dict_of_items pretrained <> dict_of_items (default_label2id w num_labels) ->
        name ∈ names ->
        lower name <> name ->
        reconcile_labels data_args w pretrained false (Some (PStr <$> names))
          num_labels
        = ([Log WARNING LabelsMismatch], Ok None)).
Proof.
  split; [|split].
  - unfold reconcile_labels. by rewrite !andb_false_r.
  - intros Htask Hdefault is_regression. unfold reconcile_labels.
    rewrite (bool_decide_eq_false_2 (_ <> _)) by (by intros []).
    cbn [andb].
    rewrite (bool_decide_eq_false_2 (task_name data_args = None)) by done.
    done.
  - intros names name Htask Hdefault Hname Hcapital. unfold reconcile_labels.
    rewrite !bool_decide_eq_true_2 by done. cbn [andb negb]. cbv zeta.
    rewrite (sorted_all_str _ (model_names_all_str pretrained)).
    rewrite run_bind_lift_ok. cbn [local]. rewrite run_bind_ret.
    rewrite sorted_strs, run_bind_lift_ok.
    rewrite bool_decide_eq_false_2; [done|].
    intros Hperm%merge_sort_eq_iff.
    assert (Hin : PStr name ∈ dict_keys (lower_keys pretrained)).
    { rewrite Hperm. apply list_elem_of_fmap. by exists name. }
    apply elem_of_dict_keys, lower_keys_is_Some in Hin as (s & [= <-] & Hs).
    apply list_elem_of_fmap in Hs as (k & -> & _).
    apply Hcapital, lower_idemp.
Qed.

(** ** The stages of a run that completes *)

Lemma stages_bind_ok {A B} (m : run A) (f : A -> run B) (b : B) :
  (m ≫= f).2 = Ok b ->
  exists a, m.2 = Ok a /\ (f a).2 = Ok b
            /\ stages (m ≫= f).1 = stages m.1 ++ stages (f a).1.
Proof.
  intros Hok. destruct (run_bind_snd_ok _ _ _ Hok) as (a & Ha & Hb).
  exists a. split; [done|]. split; [done|]. by rewrite stages_bind, Ha.
Qed.

Lemma stages_quiet {A} (m : run A) :
  quiet (fun e => stage e = None) m -> stages m.1 = [].
Proof. apply quiet_omap. Qed.

(** One step through a run that returns: its first part, then the rest. *)
Ltac stages_step H :=
  let a := fresh "a" in
  let Ha := fresh "Ha" in
  let Hs := fresh "Hs" in
  apply stages_bind_ok in H as (a & Ha & H & Hs);
  cbv beta in Hs, H |- *; rewrite Hs; clear Hs.

Ltac stages_skip H :=
  stages_step H;
  match goal with
  | |- stages (?m).1 ++ _ = _ =>
      rewrite (stages_quiet m), app_nil_l by (quiet_tac; done)
  end.

Lemma get_datasets_stages data_args training_args w raw_datasets :
  (get_datasets data_args training_args w).2 = Ok raw_datasets ->
  stages (get_datasets data_args training_args w).1 = [1%nat].
Proof.
  unfold get_datasets. destruct (task_name data_args); [done|].
  destruct (dataset_name data_args); [done|]. cbv zeta. intros Hok.
  do 3 stages_skip Hok. by destruct (endswith _ _).
Qed.

Lemma init_trainer_stages data_args training_args train_dataset eval_dataset
    data_collator nncf :
  (init_trainer data_args training_args train_dataset eval_dataset
     data_collator nncf).2 = Ok () ->
  stages (init_trainer data_args training_args train_dataset eval_dataset
            data_collator nncf).1 = [5%nat].
Proof.
  unfold init_trainer. intros Hok. do 3 stages_skip Hok.
  stages_step Hok. cbn [call fst stages omap list_omap stage app].
  f_equal. apply stages_quiet. quiet_tac.
Qed.

Lemma training_stages training_args last_checkpoint :
  stages (training training_args last_checkpoint).1
  = if do_train training_args then [6%nat] else [].
Proof. unfold training. by destruct (do_train training_args). Qed.

Lemma evaluation_stages data_args training_args raw_datasets eval_dataset :
  (evaluation data_args training_args raw_datasets eval_dataset).2 = Ok () ->
  stages (evaluation data_args training_args raw_datasets eval_dataset).1
  = if do_eval training_args
    then if bool_decide (task_name data_args = Some "mnli")
         then [7; 7]%nat else [7%nat]
    else [].
Proof.
  destruct (do_eval training_args) eqn:Heval.
  - destruct eval_dataset as [d|].
    + case_bool_decide as Hmnli.
      * rewrite (evaluation_mnli _ _ _ _ Heval Hmnli).
        destruct (assoc "validation_mismatched" raw_datasets); [done|].
        intros Hno. discriminate Hno.
      * by rewrite (evaluation_other _ _ _ _ Heval Hmnli).
    + unfold evaluation. rewrite Heval. intros Hno. discriminate Hno.
  - unfold evaluation. by rewrite Heval.
Qed.

Lemma for_each_stages {A} (l : list A) (body : A -> run ()) (s : nat) :
  (forall x, x ∈ l -> (body x).2 = Ok () -> stages (body x).1 = [s]) ->
  (for_each l body).2 = Ok () ->
  stages (for_each l body).1 = replicate (length l) s.
Proof.
  induction l as [|x l IH]; intros Hbody Hok; [done|].
  cbn [for_each] in Hok |- *. stages_step Hok. destruct a.
  rewrite (Hbody x) by (done || by left).
  rewrite IH; [done| |done]. intros y Hy. apply Hbody. by right.
Qed.

Lemma prediction_stages data_args training_args w raw_datasets predict_dataset
    is_regression label_list :
  (prediction data_args training_args w raw_datasets predict_dataset
     is_regression label_list).2 = Ok () ->
  stages (prediction data_args training_args w raw_datasets predict_dataset
            is_regression label_list).1
  = if do_predict training_args
    then if bool_decide (task_name data_args = Some "mnli")
         then [8; 8]%nat else [8%nat]
    else [].
Proof.
  unfold prediction. destruct (do_predict training_args); [|done].
  match goal with
  | |- (when true ?body).2 = _ -> _ => change (when true body) with body
  end.
  cbv zeta. intros Hok. do 2 stages_skip Hok.
  stages_step Hok.
  match goal with
  | |- stages (?m).1 ++ _ = _ =>
      rewrite (stages_quiet m), app_nil_l by (quiet_tac; done)
  end.
  rewrite for_each_stages with (s := 8%nat); [|..|exact Hok].
  - case_bool_decide.
    + apply run_bind_snd_ok in Ha1 as (? & _ & Ha1). by injection Ha1 as <-.
    + by injection Ha1 as <-.
  - intros dt _ Hbody. stages_skip Hbody. stages_step Hbody.
    cbn [call fst stages omap list_omap stage app]. f_equal.
    apply stages_quiet. quiet_tac; done.
Qed.

(** X19. A run that completes has set the seed, loaded the datasets, the
    config and the tokenizer, built the model and the trainer, each once,
    and then has trained once when training is requested, evaluated once
    (twice for [mnli]) when evaluation is requested, predicted once (twice
    for [mnli]) when prediction is requested, and pushed to the hub once
    when that is requested, and nothing of this otherwise. *)
Theorem completed_run_stages
    (model_args : ModelArguments) (data_args : DataTrainingArguments)
    (training_args : TrainingArguments) (w : World) :
  let m := main model_args data_args training_args w in
  let twice_for_mnli (s : nat) :=
    if bool_decide (task_name data_args = Some "mnli") then [s; s] else [s] in
  m.2 = Ok () ->
  stages m.1
  = [0; 1; 2; 3; 4; 5]%nat
    ++ (if do_train training_args then [6%nat] else [])
    ++ (if do_eval training_args then twice_for_mnli 7%nat else [])
    ++ (if do_predict training_args then twice_for_mnli 8%nat else [])
    ++ (if push_to_hub training_args then [9%nat] else []).
Proof.
  intros m twice_for_mnli Hok. unfold m, main in *.
  do 3 stages_skip Hok.
  stages_step Hok. cbn [call fst stages omap list_omap stage app]. f_equal.
  stages_step Hok.
  match goal with
  | H : (get_datasets _ _ _).2 = Ok _ |- _ =>
      rewrite (get_datasets_stages _ _ _ _ H)
  end.
  cbn [app]. f_equal.
  stages_skip Hok. cbv zeta in Hok |- *.
  stages_step Hok. unfold load_config_and_tokenizer at 1.
  cbn [call mbind run_bind mret run_ret fst stages omap list_omap stage app].
  do 2 f_equal.
  do 7 stages_skip Hok.
  stages_step Hok. unfold load_model at 1.
  cbn [call fst stages omap list_omap stage app]. f_equal.
  do 3 stages_skip Hok.
  stages_step Hok.
  match goal with
  | H : (init_trainer _ _ _ _ _ _).2 = Ok ?u |- _ =>
      destruct u; rewrite (init_trainer_stages _ _ _ _ _ _ H)
  end.
  cbn [app]. f_equal.
  stages_step Hok. rewrite training_stages. f_equal.
  stages_step Hok.
  match goal with
  | H : (evaluation _ _ _ _).2 = Ok ?u |- _ =>
      destruct u; rewrite (evaluation_stages _ _ _ _ H)
  end.
  f_equal.
  stages_step Hok.
  match goal with
  | H : (prediction _ _ _ _ _ _ _).2 = Ok ?u |- _ =>
      destruct u; rewrite (prediction_stages _ _ _ _ _ _ _ H)
  end.
  f_equal.
  unfold push. by destruct (push_to_hub training_args).
Qed.

Lemma completed_run_stages_witness :
  stages
    (main Sample.model_args (Sample.data_args (Some "mnli") None None None)
       (Sample.training_args true true true None)
       (Sample.world Sample.mnli Sample.capital_label2id [] None [])).1
  = [0; 1; 2; 3; 4; 5; 6; 7; 7; 8; 8]%nat.
Proof.
  apply (completed_run_stages Sample.model_args
           (Sample.data_args (Some "mnli") None None None)
           (Sample.training_args true true true None)
           (Sample.world Sample.mnli Sample.capital_label2id [] None [])).
  vm_compute. reflexivity.
Defined.

(** ** The train split *)

(** X20. The labels are read from the train split for every task but
    [stsb] and for every run without a task, whether or not training is
    requested: with no train split among the loaded datasets the run ends
    there with [KeyError('train')], before the config is loaded. *)
Theorem labels_need_train_split
    (model_args : ModelArguments) (data_args : DataTrainingArguments)
    (training_args : TrainingArguments) (w : World) :
  task_name data_args <> Some "stsb" ->
  (forall raw_datasets,
     (get_datasets data_args training_args w).2 = Ok raw_datasets ->
     assoc "train" raw_datasets = None) ->
  (forall raw_datasets,
     assoc "train" raw_datasets = None ->
     get_labels data_args raw_datasets
     = ([GetSplit "train"], Raise (KeyError (PStr "train"))))
  /\ aborts (fun e =>
               match e with
               | AutoConfigFromPretrained _ _ _ => False
               | _ => True
               end)
       (main model_args data_args training_args w)
  /\ (forall last_checkpoint raw_datasets,
        (detect_last_checkpoint training_args w).2 = Ok last_checkpoint ->
        (get_datasets data_args training_args w).2 = Ok raw_datasets ->
        (main model_args data_args training_args w).2
        = Raise (KeyError (PStr "train"))).
Proof.
  intros Htask Hraw.
  assert (Hlabels : forall raw_datasets,
    assoc "train" raw_datasets = None ->
    get_labels data_args raw_datasets
    = ([GetSplit "train"], Raise (KeyError (PStr "train")))).
  { intros raw Htrain. unfold get_labels, getsplit, subscript. rewrite Htrain.
    destruct (task_name data_args) as [task|]; [|done].
    rewrite bool_decide_eq_false_2 by congruence. done. }
  split; [exact Hlabels|]. split.
  - unfold main.
    do 4 (apply aborts_bind; [quiet_tac; by simpl|intros ? _]).
    apply aborts_bind; [quiet_tac; by simpl|intros raw Hloaded].
    apply aborts_bind_l. rewrite (Hlabels raw (Hraw raw Hloaded)).
    split; [by repeat constructor|by eexists].
  - intros last raw Hdetect Hloaded. unfold main.
    rewrite !run_bind_unfold. cbn [call fst snd]. rewrite Hdetect.
    rewrite !run_bind_unfold. cbn [call fst snd]. rewrite Hloaded.
    rewrite !run_bind_unfold. by rewrite (Hlabels raw (Hraw raw Hloaded)).
Qed.

Lemma labels_need_train_split_witness :
  (forall raw_datasets,
     assoc "train" raw_datasets = None ->
     get_labels (Sample.data_args (Some "rte") None None None) raw_datasets
     = ([GetSplit "train"], Raise (KeyError (PStr "train"))))
  /\ aborts (fun e =>
               match e with
               | AutoConfigFromPretrained _ _ _ => False
               | _ => True
               end)
       (main Sample.model_args (Sample.data_args (Some "rte") None None None)
          (Sample.training_args false true false None)
          (Sample.world [("validation", Sample.pairs "sentence1" "sentence2"
                                          Sample.rte_names [1; 0])]
             [] [] None []))
  /\ (forall last_checkpoint raw_datasets,
        (detect_last_checkpoint (Sample.training_args false true false None)
           (Sample.world [("validation", Sample.pairs "sentence1" "sentence2"
                                           Sample.rte_names [1; 0])]
              [] [] None [])).2 = Ok last_checkpoint ->
        (get_datasets (Sample.data_args (Some "rte") None None None)
           (Sample.training_args false true false None)
           (Sample.world [("validation", Sample.pairs "sentence1" "sentence2"
                                           Sample.rte_names [1; 0])]
              [] [] None [])).2 = Ok raw_datasets ->
        (main Sample.model_args (Sample.data_args (Some "rte") None None None)
           (Sample.training_args false true false None)
           (Sample.world [("validation", Sample.pairs "sentence1" "sentence2"
                                           Sample.rte_names [1; 0])]
              [] [] None [])).2
        = Raise (KeyError (PStr "train"))).
Proof.
  apply (labels_need_train_split Sample.model_args
           (Sample.data_args (Some "rte") None None None)
           (Sample.training_args false true false None)
           (Sample.world [("validation", Sample.pairs "sentence1" "sentence2"
                                           Sample.rte_names [1; 0])]
              [] [] None [])).
  - intros Heq. discriminate Heq.
  - intros raw Hloaded. vm_compute in Hloaded. by injection Hloaded as <-.
Defined.

(** ** The sample limits *)

Lemma select_train_max data_args training_args raw_datasets d n :
  (select_train data_args training_args raw_datasets).2 = Ok (Some d) ->
  max_train_samples data_args = Some n ->
  (num_rows d <= Z.to_nat n)%nat.
Proof.
  intros Hok Hmax. unfold select_train in Hok. rewrite Hmax in Hok.
  destruct (do_train training_args); [|discriminate Hok].
  apply run_bind_snd_ok in Hok as (? & _ & Hok).
  apply run_bind_snd_ok in Hok as (d0 & _ & Hok).
  apply run_bind_snd_ok in Hok as (d' & Hd & Hok).
  injection Hok as <-. by apply select_range_rows in Hd.
Qed.

Lemma select_eval_max data_args training_args raw_datasets d n :
  (select_eval data_args training_args raw_datasets).2 = Ok (Some d) ->
  max_eval_samples data_args = Some n ->
  (num_rows d <= Z.to_nat n)%nat.
Proof.
  intros Hok Hmax. unfold select_eval in Hok. rewrite Hmax in Hok.
  destruct (do_eval training_args); [|discriminate Hok].
  apply run_bind_snd_ok in Hok as (? & _ & Hok).
  apply run_bind_snd_ok in Hok as (d0 & _ & Hok).
  apply run_bind_snd_ok in Hok as (d' & Hd & Hok).
  injection Hok as <-. by apply select_range_rows in Hd.
Qed.

Lemma trainer_dataset (requested : bool) (name : string)
    (selected given : option Dataset) :
  ((if requested then d ← local name selected; mret (Some d) else mret None)
   : run (option Dataset)).2 = Ok given ->
  given = None \/ given = selected.
Proof.
  destruct requested; [|intros [= <-]; by left].
  intros (d & ->%local_ok & Hok)%run_bind_snd_ok. injection Hok as <-. by right.
Qed.

(** X21. With [max_train_samples] set, the train set that the trainer and
    the compression setup are given has that many rows at most; and so for
    [max_eval_samples] and the evaluation set they are given. *)
Theorem selected_sets_respect_limits
    (model_args : ModelArguments) (data_args : DataTrainingArguments)
    (training_args : TrainingArguments) (w : World) :
  let within (limit : option Z) (d : Dataset) :=
    forall n, limit = Some n -> (num_rows d <= Z.to_nat n)%nat in
  quiet (fun e =>
           match e with
           | TrainerInit train_dataset eval_dataset _ =>
               (forall d, train_dataset = Some d ->
                          within (max_train_samples data_args) d)
               /\ (forall d, eval_dataset = Some d ->
                             within (max_eval_samples data_args) d)
           | GetTrainDataloaderForInit d =>
               within (max_train_samples data_args) d
           | GetEvalDataloaderForInit d _ =>
               within (max_eval_samples data_args) d
           | _ => True
           end)
    (main model_args data_args training_args w).
Proof.
  intros within. unfold main.
  do 6 (apply quiet_bind; [quiet_tac; by simpl|intros ? _]). cbv zeta.
  do 5 (apply quiet_bind; [quiet_tac; by simpl|intros ? _]).
  apply quiet_bind; [quiet_tac; by simpl|intros train_dataset Htrain].
  apply quiet_bind; [quiet_tac; by simpl|intros eval_dataset Heval].
  assert (Htrain' : forall d, train_dataset = Some d ->
                              within (max_train_samples data_args) d).
  { intros d -> n Hn. by eapply select_train_max. }
  assert (Heval' : forall d, eval_dataset = Some d ->
                             within (max_eval_samples data_args) d).
  { intros d -> n Hn. by eapply select_eval_max. }
  clear Htrain Heval.
  quiet_tac; try (simpl; done);
    repeat match goal with
           | H : (local _ _).2 = Ok _ |- _ => apply local_ok in H
           | H : (if _ then _ else _).2 = Ok _ |- _ =>
               apply trainer_dataset in H as [->| ->]
           end;
    simpl; auto.
  all: split; intros d Hd; (discriminate Hd || auto).
Qed.

(** ** The labels of the train split of local files *)

(** A batch made of the columns of a dataset has, at a name, the first
    column of that name. *)
Lemma list_to_map_assoc {V} (l : list (string * V)) (k : string) :
  (list_to_map l : gmap string V) !! k = assoc k l.
Proof.
  induction l as [|[k' v] l IH]; [done|]. cbn [list_to_map foldr assoc].
  cbn [fst snd]. destruct (decide (k' = k)) as [->|Hne].
  - by rewrite lookup_insert_eq.
  - by rewrite lookup_insert_ne.
Qed.

Lemma remap_label_ranked (labels : list pyval) (v : pyval) :
  NoDup labels ->
  v ∈ labels ->
  exists i,
    remap_label (dict_of_items (dataset_order_items labels)) v = Ok i
    /\ ranked labels v i.
Proof.
  intros Hnodup [k Hk]%list_elem_of_lookup. unfold remap_label, ranked.
  destruct (decide (v <> PInt (-1))) as [Hne|Heq].
  - exists (Z.of_nat k). rewrite decide_False by done. split; [|eauto].
    unfold getitem. rewrite (dict_of_items_lookup_NoDup _ v (Z.of_nat k)); [done| |].
    + by rewrite dataset_order_items_keys.
    + apply dataset_order_items_elem_of. eauto.
  - exists (-1). by destruct (decide (v = PInt (-1))).
Qed.

Lemma remap_labels_ranked (labels vs : list pyval) :
  NoDup labels ->
  (forall v, v ∈ vs -> v ∈ labels) ->
  exists ids,
    comprehension (remap_label (dict_of_items (dataset_order_items labels))) vs
    = Ok ids
    /\ Forall2 (ranked labels) vs ids.
Proof.
  intros Hnodup. induction vs as [|v vs IH]; intros Hin.
  - exists []. by split; [|constructor].
  - destruct IH as (ids & Hids & Hranked).
    { intros v' Hv'. apply Hin. by right. }
    destruct (remap_label_ranked labels v Hnodup) as (i & Hi & Hrank).
    { apply Hin. by left. }
    exists (i :: ids). split; [|by constructor].
    cbn [comprehension]. rewrite Hi. cbn. rewrite Hids. by cbn.
Qed.

(** X22. For a classification on local files, the preprocessing of the
    train split does not raise for a label: with the text columns in the
    split, [preprocess_function] returns, and its [label] column has, row
    by row, the position of the label in the sorted label list; a label
    [-1] stays [-1], though the label list has it. *)
Theorem local_train_labels_become_ranks
    (data_args : DataTrainingArguments) (raw_datasets : DatasetDict)
    (train : Dataset) (label_list : option (list pyval)) (num_labels : nat)
    (tokenizer : list column -> bool -> Z -> gmap string column)
    (sentence1_key : string) (sentence2_key : option string)
    (padding : bool) (max_seq_length : Z) :
  task_name data_args = None ->
  (get_labels data_args raw_datasets).2 = Ok (false, label_list, num_labels) ->
  assoc "train" raw_datasets = Some train ->
  is_Some (assoc sentence1_key (columns train)) ->
  (forall k, sentence2_key = Some k -> is_Some (assoc k (columns train))) ->
  exists labels c result ids,
    label_list = Some labels
    /\ assoc "label" (columns train) = Some c
    /\ preprocess_function tokenizer sentence1_key sentence2_key padding
         max_seq_length (Some (dict_of_items (dataset_order_items labels)))
         (list_to_map (columns train))
       = Ok result
    /\ result !! "label" = Some (Cells (PInt <$> ids))
    /\ match c with
       | Cells vs => Forall2 (ranked labels) vs ids
       | Tokens _ => ids = []
       end.
Proof.
  intros Htask Hlabels Htrain [c1 Hc1] Hc2.
  destruct (get_labels_local _ _ _ _ Htask Hlabels)
    as (train' & values & Htrain' & Hvalues & -> & _).
  rewrite Htrain in Htrain'. injection Htrain' as <-.
  set (labels := merge_sort pyval_le values).
  assert (Hperm : labels ≡ₚ values) by apply merge_sort_Permutation.
  assert (Hnodup : NoDup labels).
  { rewrite Hperm. by eapply unique_NoDup. }
  unfold unique in Hvalues.
  destruct (assoc "label" (columns train)) as [c|] eqn:Hc;
    [|discriminate Hvalues].
  exists labels, c. unfold preprocess_function, getitem.
  rewrite !list_to_map_assoc, Hc1, Hc. cbn.
  assert (Hargs : exists args,
             match sentence2_key with
             | Some k2 =>
                 match (list_to_map (columns train) : gmap string column) !! k2 with
                 | Some s2 => Ok [c1; s2]
                 | None => Raise (KeyError (PStr k2))
                 end
             | None => Ok [c1]
             end = Ok args).
  { destruct sentence2_key as [k|]; [|eauto].
    destruct (Hc2 k eq_refl) as [c2 Hk]. rewrite list_to_map_assoc, Hk. eauto. }
  destruct Hargs as [args Hargs].
  destruct c as [vs|[|x xs]]; [| |discriminate Hvalues].
  - injection Hvalues as <-.
    destruct (remap_labels_ranked labels vs Hnodup) as (ids & Hids & Hranked).
    { intros v Hv. rewrite Hperm. by apply elem_of_remove_dups. }
    exists (<["label" := Cells (PInt <$> ids)]>
              (tokenizer args padding max_seq_length)), ids.
    do 2 (split; [done|]).
    split; [|split; [by rewrite lookup_insert_eq|done]].
    destruct sentence2_key as [k|].
    + destruct ((list_to_map (columns train) : gmap string column) !! k);
        [|discriminate Hargs].
      injection Hargs as <-. cbn. rewrite Hids. by cbn.
    + injection Hargs as <-. cbn. rewrite Hids. by cbn.
  - exists (<["label" := Cells []]> (tokenizer args padding max_seq_length)), [].
    do 2 (split; [done|]).
    split; [|split; [by rewrite lookup_insert_eq|done]].
    destruct sentence2_key as [k|].
    + destruct ((list_to_map (columns train) : gmap string column) !! k);
        [|discriminate Hargs].
      by injection Hargs as <-.
    + by injection Hargs as <-.
Qed.

Lemma local_train_labels_become_ranks_witness :
  exists labels c result ids,
    Some [PInt 0; PInt 1] = Some labels
    /\ assoc "label"
         (columns (Sample.pairs "sentence1" "sentence2" Sample.rte_names [0; 1; 1]))
       = Some c
    /\ preprocess_function Sample.no_tokenizer "sentence1" (Some "sentence2") true
         128 (Some (dict_of_items (dataset_order_items labels)))
         (list_to_map
            (columns (Sample.pairs "sentence1" "sentence2" Sample.rte_names [0; 1; 1])))
       = Ok result
    /\ result !! "label" = Some (Cells (PInt <$> ids))
    /\ match c with
       | Cells vs => Forall2 (ranked labels) vs ids
       | Tokens _ => ids = []
       end.
Proof.
  apply (local_train_labels_become_ranks
           (Sample.data_args None (Some "train.csv") (Some "dev.csv") None)
           Sample.no_test
           (Sample.pairs "sentence1" "sentence2" Sample.rte_names [0; 1; 1])
           (Some [PInt 0; PInt 1]) 2 Sample.no_tokenizer
           "sentence1" (Some "sentence2") true 128).
  - reflexivity.
  - reflexivity.
  - reflexivity.
  - eexists. reflexivity.
  - intros k [= <-]. eexists. reflexivity.
Defined.

(** ** The datasets of the predictions *)


